(** * Alumni portal login and registration controller

    A shallow embedding of [hackathon/login.js]: the field validators, the
    department dropdown, the form switcher, the token helpers, the message
    area with its auto-hide timers, the API client and the two submit
    handlers, followed by the properties established for them.

    Conventions of the embedding.
    - A JavaScript string is a [string]; each character stands for one
      UTF-16 code unit in the range 0..255.
    - A JavaScript number is given by the integer it stands for, a [Z]; NaN,
      where it can arise, is [None].  A number found in JSON text is the
      double nearest to the integer written there, and is printed as such.
    - The page is a record; a function that mutates the page takes the record
      and returns the updated one.
    - Code that can throw returns a [Result]. *)

From Stdlib Require Import ZArith Ascii String List Bool Lia.
From Stdlib Require Import DecimalString.
From stdpp Require Import base option list gmap strings.

Open Scope Z_scope.
#[local] Set Warnings "-register-all".

(** ** Characters and strings as the host sees them *)

Module Js.

Definition code (c : ascii) : Z := Z.of_N (N_of_ascii c).

Definition in_range (lo hi : Z) (c : ascii) : bool :=
  (lo <=? code c) && (code c <=? hi).

(** [\d] and [0-9] *)
Definition is_digit (c : ascii) : bool := in_range 48 57 c.
(** [A-Z] *)
Definition is_upper (c : ascii) : bool := in_range 65 90 c.
(** [a-z] *)
Definition is_lower (c : ascii) : bool := in_range 97 122 c.
(** [A-Za-z] *)
Definition is_alpha (c : ascii) : bool := is_upper c || is_lower c.

(** Membership of a character in an explicit character set. *)
Fixpoint char_in (set : string) (c : ascii) : bool :=
  match set with
  | EmptyString => false
  | String d rest => Ascii.eqb c d || char_in rest c
  end.

(** WhiteSpace and LineTerminator code units below 256: TAB, LF, VT, FF, CR,
    SP and NBSP.  [parseInt] and [trim] strip exactly these. *)
Definition is_space (c : ascii) : bool :=
  in_range 9 13 c || (code c =? 32) || (code c =? 160).

(** The characters the regular-expression dot does not match. *)
Definition is_line_terminator (c : ascii) : bool :=
  (code c =? 10) || (code c =? 13).

Fixpoint all_chars (p : ascii -> bool) (s : string) : bool :=
  match s with
  | EmptyString => true
  | String c rest => p c && all_chars p rest
  end.

(** [(?=.*[cls])] tried at the position where [s] starts: some character of
    the class is reachable by skipping characters the dot matches. *)
Fixpoint dot_star_then (p : ascii -> bool) (s : string) : bool :=
  match s with
  | EmptyString => false
  | String c rest =>
      if p c then true
      else if is_line_terminator c then false
      else dot_star_then p rest
  end.

Fixpoint trimStart (s : string) : string :=
  match s with
  | EmptyString => EmptyString
  | String c rest => if is_space c then trimStart rest else s
  end.

Definition trimEnd (s : string) : string :=
  String.rev (trimStart (String.rev s)).

Definition trim (s : string) : string := trimEnd (trimStart s).

(** [haystack.includes(needle)] *)
Fixpoint includes (haystack needle : string) : bool :=
  String.prefix needle haystack ||
  match haystack with
  | EmptyString => false
  | String _ rest => includes rest needle
  end.

(** The value of a digit in the given radix (10 or 16). *)
Definition digit_value (radix : Z) (c : ascii) : option Z :=
  if is_digit c then Some (code c - 48)
  else if (radix =? 16) && in_range 97 102 c then Some (code c - 87)
  else if (radix =? 16) && in_range 65 70 c then Some (code c - 55)
  else None.

(** The longest prefix of radix digits, read as a number; [acc] is [None]
    until the first digit has been read. *)
Fixpoint read_digits (radix : Z) (acc : option Z) (s : string) : option Z :=
  match s with
  | EmptyString => acc
  | String c rest =>
      match digit_value radix c with
      | Some d => read_digits radix (Some (radix * default 0 acc + d)) rest
      | None => acc
      end
  end.

(** The sign step of [parseInt]: a leading minus or plus is consumed. *)
Definition split_sign (s : string) : Z * string :=
  match s with
  | String "-" rest => (-1, rest)
  | String "+" rest => (1, rest)
  | _ => (1, s)
  end.

(** The radix step of [parseInt] called without a radix: a leading 0x or 0X
    selects base sixteen, anything else base ten. *)
Definition split_radix (s : string) : Z * string :=
  match s with
  | String "0" (String x rest) =>
      if char_in "xX" x then (16, rest) else (10, s)
  | _ => (10, s)
  end.

(** [parseInt(s)]; [None] is NaN. *)
Definition parseInt (s : string) : option Z :=
  let '(sign, s1) := split_sign (trimStart s) in
  let '(radix, s2) := split_radix s1 in
  option_map (Z.mul sign) (read_digits radix None s2).

(** The decimal numeral of an integer. *)
Definition Z_to_string (n : Z) : string :=
  NilZero.string_of_int (Z.to_int n).

(** *** Numbers as text *)

(** The Number value of a non-negative integer: the nearest double, a tie
    going to the even significand; [None] is Infinity.  Below two to the 53
    every integer is its own double. *)
Definition to_double (m : Z) : option Z :=
  if m <? 2 ^ 53 then Some m
  else
    let shift := Z.log2 m - 52 in
    let q := Z.shiftr m shift in
    let r := m - Z.shiftl q shift in
    let half := 2 ^ (shift - 1) in
    let x := Z.shiftl (if (half <? r) || ((r =? half) && Z.odd q) then q + 1 else q)
                      shift in
    if x <? 2 ^ 1024 then Some x else None.

Definition digits (m : Z) : Z := Z.of_nat (String.length (Z_to_string m)).

(** The decimal [v] denotes the double [x]. *)
Definition reads_as (x v : Z) : bool :=
  match to_double v with
  | Some y => y =? x
  | None => false
  end.

(** The multiple of [p] that reads back as the double [x], if one does: of
    the two multiples around [x] the nearer one, and of two equally near
    the one with the even quotient. *)
Definition candidate (x p : Z) : option Z :=
  let lo := x / p * p in
  let hi := lo + p in
  match reads_as x lo, reads_as x hi with
  | true, true =>
      if x - lo <? hi - x then Some lo
      else if hi - x <? x - lo then Some hi
      else if Z.even (x / p) then Some lo else Some hi
  | true, false => Some lo
  | false, true => Some hi
  | false, false => None
  end.

(** The decimal with the fewest significant digits that reads back as [x]:
    the multiples of ten to the [e] are tried from the largest [e] down. *)
Fixpoint shortest (x : Z) (e : nat) : Z :=
  match candidate x (10 ^ Z.of_nat e) with
  | Some v => v
  | None => match e with O => x | S e' => shortest x e' end
  end.

Fixpoint strip_zeros (s : string) : string :=
  match s with
  | EmptyString => EmptyString
  | String c rest =>
      match strip_zeros rest with
      | EmptyString => if Ascii.eqb c "0" then EmptyString else String c EmptyString
      | kept => String c kept
      end
  end.

(** One digit, the others after a point if there are any, then e+ and the
    exponent. *)
Definition exponent_form (v : Z) : string :=
  match strip_zeros (Z_to_string v) with
  | String d EmptyString => String d "e+" +:+ Z_to_string (digits v - 1)
  | String d more => String d ("." +:+ more) +:+ "e+" +:+ Z_to_string (digits v - 1)
  | EmptyString => "0"
  end.

Definition magnitude_to_string (m : Z) : string :=
  match to_double m with
  | None => "Infinity"
  | Some x =>
      let v := shortest x (Z.to_nat (digits x - 1)) in
      if v <? 10 ^ 21 then Z_to_string v else exponent_form v
  end.

(** [Number::toString] in radix ten, on the Number value of an integer: the
    shortest decimal that reads back as the same double, written out in full
    when it has at most 21 digits and with an exponent beyond. *)
Definition Number_toString (n : Z) : string :=
  if n <? 0 then "-" +:+ magnitude_to_string (- n) else magnitude_to_string n.

End Js.

(** ** Field validation functions *)

(** [/^[A-Za-z0-9]{6,}$/.test(regNo)] *)
Definition validateRegistrationNumber (regNo : string) : bool :=
  Js.all_chars (fun c => Js.is_alpha c || Js.is_digit c) regNo
  && (6 <=? Z.of_nat (String.length regNo)).

(** [numYear >= 1970 && numYear <= 2025], both false on NaN. *)
Definition validatePassingYear (year : string) : bool :=
  match Js.parseInt year with
  | Some numYear => (1970 <=? numYear) && (numYear <=? 2025)
  | None => false
  end.

(** The character class of the password pattern. *)
Definition password_char (c : ascii) : bool :=
  Js.is_alpha c || Js.is_digit c || Js.char_in "@$!%*#?&" c.

(** [/^(?=.*[A-Za-z])(?=.*\d)[A-Za-z\d@$!%*#?&]{8,}$/.test(password)] *)
Definition validatePassword (password : string) : bool :=
  Js.dot_star_then Js.is_alpha password
  && Js.dot_star_then Js.is_digit password
  && Js.all_chars password_char password
  && (8 <=? Z.of_nat (String.length password)).

(** *** The reading of a year the specification has in mind *)

(** A plain decimal numeral: one or more decimal digits and nothing else. *)
Definition is_decimal_numeral (s : string) : bool :=
  Js.all_chars Js.is_digit s && negb (String.eqb s "").

(** Its value, by position: the first digit weighs ten to the number of
    digits that follow it. *)
Fixpoint decimal_value (s : string) : Z :=
  match s with
  | EmptyString => 0
  | String c rest =>
      (Js.code c - 48) * 10 ^ Z.of_nat (String.length rest) + decimal_value rest
  end.

(** ** Values, errors and results *)

(** The values that cross the boundary of the program: what JSON text
    denotes, extended with [undefined] for a property that is not there.
    [JNum n] is the number the integer numeral [n] denotes, which is the
    double nearest to [n].  An object is the list of its own properties; the
    first binding of a key is the one a read sees. *)
Inductive JsVal : Type :=
| JUndefined
| JNull
| JBool (b : bool)
| JNum (n : Z)
| JStr (s : string)
| JArr (items : list JsVal)
| JObj (props : list (string * JsVal)).

Record JsError : Type := mkError { err_name : string; err_message : string }.

Inductive Result (A : Type) : Type :=
| Ok (a : A)
| Throw (e : JsError).
Arguments Ok {A} a.
Arguments Throw {A} e.

(** What the host can object to in this program; the wording of the
    resulting TypeError is the host's. *)
Inductive HostFault : Type :=
| NullRead (prop : string)
| NotAFunction (prop : string)
| NotPrimitive.

(** The parts of the host whose behaviour the program relies on but does
    not fix: the JSON parser and the text of the errors the engine raises. *)
Record Host : Type := mkHost {
  JSON_parse : string -> Result JsVal;
  type_error_message : HostFault -> string
}.

Definition nonempty (s : string) : bool := negb (String.eqb s "").

(** ToBoolean *)
Definition truthy (v : JsVal) : bool :=
  match v with
  | JUndefined | JNull => false
  | JBool b => b
  | JNum n => negb (n =? 0)
  | JStr s => nonempty s
  | JArr _ | JObj _ => true
  end.

Fixpoint prop_lookup (key : string) (props : list (string * JsVal)) : option JsVal :=
  match props with
  | [] => None
  | (k, v) :: rest => if String.eqb k key then Some v else prop_lookup key rest
  end.

(** ToString; [None] is the TypeError of a value that cannot be converted.
    A number prints as [Number::toString] has it.  An array joins its
    elements with commas, an element that is null or undefined contributing
    nothing.  An object prints through the [toString] it inherits, unless it
    has a property of that name of its own: what JSON text denotes is never a
    function, so such an object has no primitive value. *)
Fixpoint ToString (v : JsVal) : option string :=
  match v with
  | JUndefined => Some "undefined"
  | JNull => Some "null"
  | JBool true => Some "true"
  | JBool false => Some "false"
  | JNum n => Some (Js.Number_toString n)
  | JStr s => Some s
  | JArr items =>
      (fix join (l : list JsVal) : option string :=
         match l with
         | [] => Some ""
         | x :: rest =>
             match match x with JUndefined | JNull => Some "" | _ => ToString x end with
             | None => None
             | Some first =>
                 match rest with
                 | [] => Some first
                 | _ =>
                     match join rest with
                     | None => None
                     | Some others => Some (first +:+ "," +:+ others)
                     end
                 end
             end
         end) items
  | JObj props =>
      match prop_lookup "toString" props with
      | Some _ => None
      | None => Some "[object Object]"
      end
  end.

(** [a || b] *)
Definition or_else (a b : JsVal) : JsVal := if truthy a then a else b.

(** [v === s] for a string [s] *)
Definition strict_eq_string (v : JsVal) (s : string) : bool :=
  match v with
  | JStr t => String.eqb t s
  | _ => false
  end.

(** ** The page *)

Module Dom.

(** A text input: what it holds now and what a form reset puts back. *)
Record Field : Type := mkField { value : string; defaultValue : string }.

Record OptionEl : Type := mkOption {
  opt_value : string;
  opt_text : string;
  opt_defaultSelected : bool
}.

Record Select : Type := mkSelect {
  sel_options : list OptionEl;
  sel_index : nat;
  sel_disabled : bool;
  sel_opacity : string
}.

(** The value of a select is the value of its selected option. *)
Definition select_value (s : Select) : string :=
  match sel_options s !! sel_index s with
  | Some o => opt_value o
  | None => ""
  end.

(** The submit button of a form; [btn_in_loginForm] is what
    [button.closest('#loginForm')] finds. *)
Record Button : Type := mkButton {
  btn_loading : bool;
  btn_disabled : bool;
  btn_label : string;
  btn_in_loginForm : bool
}.

(** The message area: the text, the class of the message element, the class
    of its icon, and whether the container carries the class [show]. *)
Record MessageArea : Type := mkMessage {
  msg_text : string;
  msg_class : string;
  msg_icon : string;
  msg_shown : bool
}.

Definition reset_field (f : Field) : Field :=
  mkField (defaultValue f) (defaultValue f).

(** The index a reset selects: the last option marked selected in the
    markup, else the first option. *)
Fixpoint reset_index (i : nat) (chosen : nat) (opts : list OptionEl) : nat :=
  match opts with
  | [] => chosen
  | o :: rest =>
      reset_index (S i) (if opt_defaultSelected o then i else chosen) rest
  end.

Definition reset_select (s : Select) : Select :=
  mkSelect (sel_options s) (reset_index 0 0 (sel_options s))
           (sel_disabled s) (sel_opacity s).

(** The one option the handlers assign through [innerHTML]: empty value,
    text Select Department. *)
Definition placeholder : OptionEl := mkOption "" "Select Department" false.

Definition set_placeholder_only (s : Select) : Select :=
  mkSelect [placeholder] 0 (sel_disabled s) (sel_opacity s).

Definition set_disabled (b : bool) (s : Select) : Select :=
  mkSelect (sel_options s) (sel_index s) b (sel_opacity s).

Definition set_opacity (o : string) (s : Select) : Select :=
  mkSelect (sel_options s) (sel_index s) (sel_disabled s) o.

(** [createElement('option')], value and text set, then [appendChild]. *)
Definition append_option (dept : string) (s : Select) : Select :=
  mkSelect (sel_options s ++ [mkOption dept dept false]) (sel_index s)
           (sel_disabled s) (sel_opacity s).

End Dom.
Import Dom.

Record LoginForm : Type := mkLoginForm {
  loginRegNo : Field;
  loginPassword : Field;
  loginButton : Button
}.

Record SignupForm : Type := mkSignupForm {
  name : Field;
  fatherName : Field;
  course : Select;
  department : Select;
  regNumber : Field;
  signupPassingYear : Field;
  signupPassword : Field;
  confirmPassword : Field;
  currentPosition : option Field;
  currentCompany : option Field;
  signupButton : Button
}.

(** A request handed to [fetch].  [req_body] is the object whose JSON text
    is the body. *)
Record Request : Type := mkRequest {
  req_url : string;
  req_method : string;
  req_headers : list (string * string);
  req_body : option JsVal
}.

Record Page : Type := mkPage {
  localStorage : gmap string string;
  loginForm_active : bool;
  signupForm_active : bool;
  message : MessageArea;
  login : LoginForm;
  signup : SignupForm;
  location_href : string;
  requests : list Request;
  console : list string
}.

Definition set_localStorage (f : gmap string string -> gmap string string) (p : Page) : Page :=
  mkPage (f (localStorage p)) (loginForm_active p) (signupForm_active p) (message p)
         (login p) (signup p) (location_href p) (requests p) (console p).

Definition set_active (loginA signupA : bool) (p : Page) : Page :=
  mkPage (localStorage p) loginA signupA (message p)
         (login p) (signup p) (location_href p) (requests p) (console p).

Definition set_message (f : MessageArea -> MessageArea) (p : Page) : Page :=
  mkPage (localStorage p) (loginForm_active p) (signupForm_active p) (f (message p))
         (login p) (signup p) (location_href p) (requests p) (console p).

Definition set_login (f : LoginForm -> LoginForm) (p : Page) : Page :=
  mkPage (localStorage p) (loginForm_active p) (signupForm_active p) (message p)
         (f (login p)) (signup p) (location_href p) (requests p) (console p).

Definition set_signup (f : SignupForm -> SignupForm) (p : Page) : Page :=
  mkPage (localStorage p) (loginForm_active p) (signupForm_active p) (message p)
         (login p) (f (signup p)) (location_href p) (requests p) (console p).

Definition set_location (url : string) (p : Page) : Page :=
  mkPage (localStorage p) (loginForm_active p) (signupForm_active p) (message p)
         (login p) (signup p) url (requests p) (console p).

Definition add_request (r : Request) (p : Page) : Page :=
  mkPage (localStorage p) (loginForm_active p) (signupForm_active p) (message p)
         (login p) (signup p) (location_href p) (requests p ++ [r]) (console p).

Definition add_console (line : string) (p : Page) : Page :=
  mkPage (localStorage p) (loginForm_active p) (signupForm_active p) (message p)
         (login p) (signup p) (location_href p) (requests p) (console p ++ [line]).

Definition set_department (f : Select -> Select) (s : SignupForm) : SignupForm :=
  mkSignupForm (name s) (fatherName s) (course s) (f (department s)) (regNumber s)
               (signupPassingYear s) (signupPassword s) (confirmPassword s)
               (currentPosition s) (currentCompany s) (signupButton s).

Definition set_signupButton (f : Button -> Button) (s : SignupForm) : SignupForm :=
  mkSignupForm (name s) (fatherName s) (course s) (department s) (regNumber s)
               (signupPassingYear s) (signupPassword s) (confirmPassword s)
               (currentPosition s) (currentCompany s) (f (signupButton s)).

Definition set_loginButton (f : Button -> Button) (l : LoginForm) : LoginForm :=
  mkLoginForm (loginRegNo l) (loginPassword l) (f (loginButton l)).

(** [loginFormElement.reset()] *)
Definition reset_login (l : LoginForm) : LoginForm :=
  mkLoginForm (reset_field (loginRegNo l)) (reset_field (loginPassword l))
              (loginButton l).

(** [signupFormElement.reset()]: every control of the form goes back to what
    the markup gave it; the button is not a resettable control. *)
Definition reset_signup (s : SignupForm) : SignupForm :=
  mkSignupForm (reset_field (name s)) (reset_field (fatherName s))
               (reset_select (course s)) (reset_select (department s))
               (reset_field (regNumber s)) (reset_field (signupPassingYear s))
               (reset_field (signupPassword s)) (reset_field (confirmPassword s))
               (reset_field <$> currentPosition s) (reset_field <$> currentCompany s)
               (signupButton s).

(** ** Timers and the world *)

(** The callbacks this program hands to [setTimeout]. *)
Inductive Task : Type :=
| TaskHideMessage
| TaskSwitchToLogin
| TaskRedirect (target : JsVal)
| TaskOpacityOne.

(** The page, the time in milliseconds, and the pending timers in the order
    in which they will fire. *)
Record World : Type := mkWorld {
  page : Page;
  clock : Z;
  timers : list (Z * Task)
}.

(** A new timer fires after every pending timer that is due no later. *)
Fixpoint enqueue (due : Z) (t : Task) (q : list (Z * Task)) : list (Z * Task) :=
  match q with
  | [] => [(due, t)]
  | (d, t') :: rest =>
      if d <=? due then (d, t') :: enqueue due t rest else (due, t) :: q
  end.

(** ** Message display helpers *)

Definition hideMessage (p : Page) : Page :=
  set_message (fun m => mkMessage (msg_text m) (msg_class m) (msg_icon m) false) p.

(** ** Form switching logic *)

Definition switchToSignup (p : Page) : Page :=
  set_login reset_login (hideMessage (set_active false true p)).

Definition switchToLogin (p : Page) : Page :=
  let p1 := set_active true false p in
  let p2 := hideMessage p1 in
  let p3 := set_signup reset_signup p2 in
  let p4 := set_signup (set_department (set_disabled true)) p3 in
  set_signup (set_department set_placeholder_only) p4.

(** What a timer does when it fires. *)
Definition run_task (t : Task) (p : Page) : Page :=
  match t with
  | TaskHideMessage => hideMessage p
  | TaskSwitchToLogin => switchToLogin p
  | TaskRedirect target =>
      match ToString target with
      | Some url => set_location url p
      | None => p
      end
  | TaskOpacityOne => set_signup (set_department (set_opacity "1")) p
  end.

(** Fire, in order, the timers due at or before [target]. *)
Fixpoint fire (target : Z) (q : list (Z * Task)) (p : Page) : Page * list (Z * Task) :=
  match q with
  | [] => (p, [])
  | (due, t) :: rest =>
      if due <=? target then fire target rest (run_task t p) else (p, q)
  end.

(** Let [dt] milliseconds pass with no other event. *)
Definition advance (dt : Z) (w : World) : World :=
  let target := clock w + dt in
  let '(p, q) := fire target (timers w) (page w) in
  mkWorld p target q.

(** ** Computations over the world that may throw *)

Definition M (A : Type) : Type := World -> World * Result A.

#[global] Instance M_ret : MRet M := fun A a w => (w, Ok a).

#[global] Instance M_bind : MBind M := fun A B f m w =>
  match m w with
  | (w', Ok a) => f a w'
  | (w', Throw e) => (w', Throw e)
  end.

Definition throw {A : Type} (e : JsError) : M A := fun w => (w, Throw e).

Definition lift {A : Type} (r : Result A) : M A := fun w => (w, r).

Definition try_catch {A : Type} (body : M A) (handler : JsError -> M A) : M A :=
  fun w =>
    match body w with
    | (w', Throw e) => handler e w'
    | done => done
    end.

Definition gets {A : Type} (f : Page -> A) : M A := fun w => (w, Ok (f (page w))).

Definition update (f : Page -> Page) : M unit :=
  fun w => (mkWorld (f (page w)) (clock w) (timers w), Ok tt).

Definition setTimeout (t : Task) (delay : Z) : M unit :=
  fun w => (mkWorld (page w) (clock w) (enqueue (clock w + delay) t (timers w)), Ok tt).

Definition showMessage (text type : string) : M unit :=
  update (set_message (fun m =>
    mkMessage text ("message " +:+ type)
      (if String.eqb type "success" then "fas fa-check-circle"
       else if String.eqb type "error" then "fas fa-exclamation-circle"
       else msg_icon m)
      true));;
  (* Auto-hide after 5 seconds *)
  setTimeout TaskHideMessage 5000.

(** ** Button loading state helpers *)

Definition loading_state (isLoading : bool) (b : Button) : Button :=
  if isLoading then mkButton true true "Processing..." (btn_in_loginForm b)
  else mkButton false false
         (if btn_in_loginForm b then "Sign In" else "Create Account")
         (btn_in_loginForm b).

Inductive SubmitButton : Type := OfLoginForm | OfSignupForm.

Definition showLoadingState (button : SubmitButton) (isLoading : bool) : M unit :=
  match button with
  | OfLoginForm => update (set_login (set_loginButton (loading_state isLoading)))
  | OfSignupForm => update (set_signup (set_signupButton (loading_state isLoading)))
  end.

(** ** Department data for the dropdown *)

Definition departmentData : gmap string (list string) :=
  <["UG" := ["ECONOMICS"; "ENGLISH"; "GEOGRAPHY"; "HINDI"; "HISTORY";
             "PHILOSOPHY"; "POLITICAL SCIENCE"; "PSYCHOLOGY"; "URDU";
             "BOTANY"; "CHEMISTRY"; "MATHEMATICS"; "PHYSICS"; "ZOOLOGY";
             "BCA"; "BBA"; "BED"]]>
  (<["PG" := ["ECONOMICS"; "GEOGRAPHY"; "HINDI"; "HISTORY";
              "POLITICAL SCIENCE"; "PHYSICS"; "CHEMISTRY"]]> ∅).

(** The names every object literal answers to through its prototype. *)
Definition Object_prototype_names : list string :=
  ["constructor"; "toString"; "toLocaleString"; "valueOf"; "hasOwnProperty";
   "isPrototypeOf"; "propertyIsEnumerable"; "__proto__"; "__defineGetter__";
   "__defineSetter__"; "__lookupGetter__"; "__lookupSetter__"].

(** What [departmentData[key]] evaluates to: one of the two department
    lists, a function or object inherited from the prototype, or undefined. *)
Inductive PropertyRead : Type :=
| OwnList (depts : list string)
| InheritedMember
| NoMember.

Definition departmentData_read (key : string) : PropertyRead :=
  match departmentData !! key with
  | Some depts => OwnList depts
  | None =>
      if bool_decide (key ∈ Object_prototype_names) then InheritedMember
      else NoMember
  end.

Definition read_truthy (r : PropertyRead) : bool :=
  match r with
  | OwnList _ | InheritedMember => true
  | NoMember => false
  end.

(** [courseSelect.value] *)
Definition selected_course (p : Page) : string := select_value (course (signup p)).

(** ** Token management helpers *)

Definition gettoken (p : Page) : option string := localStorage p !! "token".

Definition removetoken (p : Page) : Page := set_localStorage (delete "token") p.

(** [!!gettoken()] *)
Definition isUserLoggedIn (p : Page) : bool :=
  match gettoken p with
  | Some t => nonempty t
  | None => false
  end.

(** ** What the network can answer *)

Record Response : Type := mkResponse {
  resp_status : Z;
  (** what [response.json()] settles to *)
  resp_json : Result JsVal
}.

(** [response.ok] *)
Definition response_ok (r : Response) : bool :=
  (200 <=? resp_status r) && (resp_status r <=? 299).

Inductive FetchOutcome : Type :=
| FetchRejected (e : JsError)
| FetchResponded (r : Response).

(** How far a submit handler got before it gave up control. *)
Inductive Submit : Type :=
| Done (w : World)
| Pending (w : World)
| Crashed (w : World) (e : JsError).

Definition submit_world (s : Submit) : World :=
  match s with
  | Done w | Pending w | Crashed w _ => w
  end.

Record SignupData : Type := mkSignupData {
  d_name : string;
  d_fatherName : string;
  d_course : string;
  d_department : string;
  d_regNo : string;
  d_passingYear : string;
  d_password : string;
  d_confirmPassword : string;
  d_currentPosition : string;
  d_currentCompany : string
}.

Record ValidationResult : Type := mkValidation {
  isValid : bool;
  v_message : option string
}.

Definition API_BASE_URL : string := "https://setu.fit".

Definition connect_message : string :=
  "Unable to connect to server. Please check if the backend is running.".

(** ** The program over a given host *)

Section Program.

Variable host : Host.

Definition type_error (f : HostFault) : JsError :=
  mkError "TypeError" (type_error_message host f).

(** The conversion to a string where the program relies on it: a template
    literal, the argument of [Error], and a value handed to the page or to
    storage where a string is expected. *)
Definition to_text (v : JsVal) : Result string :=
  match ToString v with
  | Some text => Ok text
  | None => Throw (type_error NotPrimitive)
  end.

(** [v.key] for the property names this program reads ([message],
    [success], [token], [user], [name], [redirectUrl], [regNo]): only an
    object can carry one of them, and reading from null or undefined
    throws. *)
Definition get (v : JsVal) (key : string) : Result JsVal :=
  match v with
  | JUndefined | JNull => Throw (type_error (NullRead key))
  | JObj props => Ok (default JUndefined (prop_lookup key props))
  | _ => Ok JUndefined
  end.

(** [v?.key] *)
Definition get_optional (v : JsVal) (key : string) : Result JsVal :=
  match v with
  | JUndefined | JNull => Ok JUndefined
  | _ => get v key
  end.

(** *** Dynamic department dropdown *)

Definition handleCourseChange : M unit :=
  selectedCourse ← gets selected_course;
  (* Reset department options *)
  update (set_signup (set_department set_placeholder_only));;
  if nonempty selectedCourse && read_truthy (departmentData_read selectedCourse)
  then
    update (set_signup (set_department (set_disabled false)));;
    match departmentData_read selectedCourse with
    | OwnList depts =>
        update (set_signup (set_department
                  (fun d => fold_left (fun d dept => append_option dept d) depts d)))
    | _ => throw (type_error (NotAFunction "forEach"))
    end;;
    update (set_signup (set_department (set_opacity "0.5")));;
    setTimeout TaskOpacityOne 150
  else
    update (set_signup (set_department (set_disabled true))).

(** *** Local storage helpers *)

Definition getStoredUsers (p : Page) : Result JsVal :=
  match localStorage p !! "users" with
  | Some users => if nonempty users then JSON_parse host users else Ok (JArr [])
  | None => Ok (JArr [])
  end.

(** [items.find(user => user.regNo === regNo)] *)
Fixpoint find_regNo (regNo : string) (items : list JsVal) : Result JsVal :=
  match items with
  | [] => Ok JUndefined
  | user :: rest =>
      match get user "regNo" with
      | Throw e => Throw e
      | Ok r => if strict_eq_string r regNo then Ok user else find_regNo regNo rest
      end
  end.

(** [existingUsers.find(...)], whatever [existingUsers] turned out to be. *)
Definition users_find (existingUsers : JsVal) (regNo : string) : Result JsVal :=
  match existingUsers with
  | JArr items => find_regNo regNo items
  | JUndefined | JNull => Throw (type_error (NullRead "find"))
  | _ => Throw (type_error (NotAFunction "find"))
  end.

(** *** Signup data validation *)

Definition invalid (msg : string) : Result ValidationResult :=
  Ok (mkValidation false (Some msg)).

Definition validateSignupData (data : SignupData) (p : Page) : Result ValidationResult :=
  if negb (nonempty (d_name data)) || negb (nonempty (d_fatherName data))
     || negb (nonempty (d_course data)) || negb (nonempty (d_department data))
     || negb (nonempty (d_regNo data)) || negb (nonempty (d_passingYear data))
     || negb (nonempty (d_password data)) || negb (nonempty (d_confirmPassword data))
  then invalid "Please fill in all required fields"
  else if negb (validateRegistrationNumber (d_regNo data))
  then invalid "Invalid registration number format"
  else
    match getStoredUsers p with
    | Throw e => Throw e
    | Ok existingUsers =>
        match users_find existingUsers (d_regNo data) with
        | Throw e => Throw e
        | Ok found =>
            if truthy found
            then invalid "Registration number already exists"
            else if negb (validatePassingYear (d_passingYear data))
            then invalid "Year must be between 1970 and 2025"
            else if negb (validatePassword (d_password data))
            then invalid "Password must be at least 8 characters with letters and numbers"
            else if negb (String.eqb (d_password data) (d_confirmPassword data))
            then invalid "Passwords do not match"
            else Ok (mkValidation true None)
        end
    end.

(** *** API helper *)

(** The request [makeApiCall] hands to [fetch]. *)
Definition makeApiCall_request (endpoint method : string) (data : JsVal) : Request :=
  mkRequest (API_BASE_URL +:+ endpoint) method
            [("Content-Type", "application/json")]
            (if truthy data && (String.eqb method "POST" || String.eqb method "PUT")
             then Some data else None).

(** The rest of [makeApiCall], once [fetch] has settled. *)
Definition makeApiCall_settle (outcome : FetchOutcome) : M JsVal :=
  try_catch
    (response ← lift (match outcome with
                      | FetchRejected e => Throw e
                      | FetchResponded r => Ok r
                      end);
     result ← lift (resp_json response);
     if negb (response_ok response) then
       m ← lift (get result "message");
       text ← lift (to_text (or_else m
                       (JStr ("HTTP error! status: "
                              +:+ Js.Number_toString (resp_status response)))));
       throw (mkError "Error" text)
     else mret result)
    (fun error =>
       update (add_console ("API call failed: " +:+ err_message error));;
       throw error).

(** *** Form submission handlers *)

Definition loginData (p : Page) : string * string :=
  (Js.trim (value (loginRegNo (login p))), value (loginPassword (login p))).

Definition loginData_object (d : string * string) : JsVal :=
  JObj [("regNo", JStr (fst d)); ("password", JStr (snd d))].

(** [handleLogin] up to the point where it waits for the network. *)
Definition handleLogin_submit (w : World) : Submit :=
  let d := loginData (page w) in
  (* Validate required fields *)
  if negb (nonempty (fst d)) || negb (nonempty (snd d))
  then Done (showMessage "Please fill in all required fields" "error" w).1
  else if negb (validateRegistrationNumber (fst d))
  then Done (showMessage "Invalid registration number format" "error" w).1
  else
    Pending
      ((showLoadingState OfLoginForm true;;
        update (add_request
                  (makeApiCall_request "/api/auth/login" "POST" (loginData_object d))))
         w).1.

(** The [catch] clause shared in shape by both handlers. *)
Definition on_failure (button : SubmitButton) (fallback : string) (error : JsError) : M unit :=
  showLoadingState button false;;
  if Js.includes (err_message error) "fetch"
  then showMessage connect_message "error"
  else showMessage
         (if nonempty (err_message error) then err_message error else fallback)
         "error".

(** [handleLogin] from the moment [fetch] settles. *)
Definition handleLogin_settle (outcome : FetchOutcome) : M unit :=
  try_catch
    (response ← makeApiCall_settle outcome;
     showLoadingState OfLoginForm false;;
     success ← lift (get response "success");
     if truthy success then
       (* Store token for session management *)
       token ← lift (get response "token");
       (if truthy token
        then
          text ← lift (to_text token);
          update (set_localStorage (insert "token" text))
        else mret tt);;
       user ← lift (get response "user");
       userName ← lift (get_optional user "name");
       shownName ← lift (to_text (or_else userName (JStr "User")));
       showMessage ("Welcome back, " +:+ shownName +:+ "!") "success";;
       (* Redirect to dashboard after short delay *)
       redirectUrl ← lift (get response "redirectUrl");
       setTimeout (TaskRedirect (or_else redirectUrl (JStr "dashboard.html"))) 1500
     else
       m ← lift (get response "message");
       text ← lift (to_text (or_else m (JStr "Login failed")));
       showMessage text "error")
    (on_failure OfLoginForm "Login failed. Please try again.").

Definition handleLogin (outcome : FetchOutcome) (w : World) : World :=
  match handleLogin_submit w with
  | Pending w' => (handleLogin_settle outcome w').1
  | stopped => submit_world stopped
  end.

Definition field_or_empty (f : option Field) : string :=
  match f with
  | Some f => Js.trim (value f)
  | None => ""
  end.

Definition signupData (p : Page) : SignupData :=
  let s := signup p in
  mkSignupData (Js.trim (value (name s))) (Js.trim (value (fatherName s)))
               (select_value (course s)) (select_value (department s))
               (Js.trim (value (regNumber s))) (value (signupPassingYear s))
               (value (signupPassword s)) (value (confirmPassword s))
               (field_or_empty (currentPosition s)) (field_or_empty (currentCompany s)).

(** [const { confirmPassword, ...dataToSend } = signupData] *)
Definition dataToSend (d : SignupData) : JsVal :=
  JObj [("name", JStr (d_name d)); ("fatherName", JStr (d_fatherName d));
        ("course", JStr (d_course d)); ("department", JStr (d_department d));
        ("regNo", JStr (d_regNo d)); ("passingYear", JStr (d_passingYear d));
        ("password", JStr (d_password d));
        ("currentPosition", JStr (d_currentPosition d));
        ("currentCompany", JStr (d_currentCompany d))].

(** [handleSignup] up to the point where it waits for the network. *)
Definition handleSignup_submit (w : World) : Submit :=
  let d := signupData (page w) in
  (* Validate all signup fields *)
  match validateSignupData d (page w) with
  | Throw e => Crashed w e
  | Ok validationResult =>
      if negb (isValid validationResult)
      then Done (showMessage (default "undefined" (v_message validationResult)) "error" w).1
      else
        Pending
          ((showLoadingState OfSignupForm true;;
            update (add_request
                      (makeApiCall_request "/api/auth/register" "POST" (dataToSend d))))
             w).1
  end.

(** [handleSignup] from the moment [fetch] settles. *)
Definition handleSignup_settle (outcome : FetchOutcome) : M unit :=
  try_catch
    (response ← makeApiCall_settle outcome;
     showLoadingState OfSignupForm false;;
     success ← lift (get response "success");
     if truthy success then
       showMessage "Account created successfully! You can now sign in." "success";;
       (* Switch to login after short delay *)
       setTimeout TaskSwitchToLogin 2000
     else
       m ← lift (get response "message");
       text ← lift (to_text (or_else m (JStr "Signup failed")));
       showMessage text "error")
    (on_failure OfSignupForm "Signup failed. Please try again.").

Definition handleSignup (outcome : FetchOutcome) (w : World) : World :=
  match handleSignup_submit w with
  | Pending w' => (handleSignup_settle outcome w').1
  | stopped => submit_world stopped
  end.

End Program.

(** ** Vocabulary of the properties *)

(** Whether, after leading white space and one optional sign, a decimal
    digit comes next. *)
Definition has_leading_digit (s : string) : bool :=
  match (Js.split_sign (Js.trimStart s)).2 with
  | String c _ => Js.is_digit c
  | EmptyString => false
  end.

(** Step 1 of the composite validation: every required field is filled. *)
Definition required_present (d : SignupData) : bool :=
  nonempty (d_name d) && nonempty (d_fatherName d) && nonempty (d_course d)
  && nonempty (d_department d) && nonempty (d_regNo d) && nonempty (d_passingYear d)
  && nonempty (d_password d) && nonempty (d_confirmPassword d).

Definition duplicate_message : string := "Registration number already exists".

(** The six checks in the order the specification lists them, each with the
    message of its failure; [duplicate] says whether the registration number
    was found among the cached users. *)
Definition signup_checks (duplicate : bool) (d : SignupData) : list (bool * string) :=
  [ (required_present d, "Please fill in all required fields");
    (validateRegistrationNumber (d_regNo d), "Invalid registration number format");
    (negb duplicate, duplicate_message);
    (validatePassingYear (d_passingYear d), "Year must be between 1970 and 2025");
    (validatePassword (d_password d),
       "Password must be at least 8 characters with letters and numbers");
    (String.eqb (d_password d) (d_confirmPassword d), "Passwords do not match") ].

(** The outcome of running checks in order and stopping at the first that
    fails. *)
Fixpoint first_failure (checks : list (bool * string)) : ValidationResult :=
  match checks with
  | [] => mkValidation true None
  | (true, _) :: rest => first_failure rest
  | (false, msg) :: _ => mkValidation false (Some msg)
  end.

(** The timers whose firing conceals the message area. *)
Definition hides (t : Task) : bool :=
  match t with
  | TaskHideMessage | TaskSwitchToLogin => true
  | TaskRedirect _ | TaskOpacityOne => false
  end.

(** Whether a timer that conceals the message area is due by [target]. *)
Definition pending_hide (target : Z) (q : list (Z * Task)) : bool :=
  existsb (fun e => hides e.2 && (e.1 <=? target)) q.

(** The queue is in firing order. *)
Fixpoint queue_sorted (q : list (Z * Task)) : bool :=
  match q with
  | [] => true
  | e :: rest => forallb (fun e' => e.1 <=? e'.1) rest && queue_sorted rest
  end.

(** The messages a user can see. *)
Definition visible_messages (p : Page) : list string :=
  if msg_shown (message p) then [msg_text (message p)] else [].

(** Whether the duplicate check finds the registration number among the
    cached users; false also when the cache cannot be read. *)
Definition duplicate_found (host : Host) (d : SignupData) (p : Page) : bool :=
  match getStoredUsers host p with
  | Ok existingUsers =>
      match users_find host existingUsers (d_regNo d) with
      | Ok found => truthy found
      | Throw _ => false
      end
  | Throw _ => false
  end.

(** What the [catch] clause of a submit handler puts on screen. *)
Definition failure_text (fallback : string) (e : JsError) : string :=
  if Js.includes (err_message e) "fetch" then connect_message
  else if nonempty (err_message e) then err_message e else fallback.

(** The message area after an error message was shown. *)
Definition error_shown (text : string) : MessageArea :=
  mkMessage text "message error" "fas fa-exclamation-circle" true.

(** The state a user can observe: which form is active, the message area,
    and the signup form with its fields and department dropdown. *)
Definition observable (p : Page) : bool * bool * MessageArea * SignupForm :=
  (loginForm_active p, signupForm_active p, message p, signup p).

(** The option elements made for a list of departments. *)
Definition department_options (depts : list string) : list OptionEl :=
  map (fun dept => mkOption dept dept false) depts.

(** Whether the dropdown is disabled, and the options it holds, as the
    course decides them: the placeholder alone and disabled, or the
    placeholder followed by the departments of a course of the catalog. *)
Definition dropdown_for (selectedCourse : string) : bool * list OptionEl :=
  match departmentData !! selectedCourse with
  | Some depts => (false, placeholder :: department_options depts)
  | None => (true, [placeholder])
  end.

(** The values the course menu offers. *)
Definition offered_courses (p : Page) : list string :=
  map opt_value (sel_options (course (signup p))).

(** The [message] of a parsed body that is neither null nor undefined: the
    own property of an object, undefined for any other value. *)
Definition backend_message (body : JsVal) : JsVal :=
  match body with
  | JObj props => default JUndefined (prop_lookup "message" props)
  | _ => JUndefined
  end.

(** What the duplicate check raises instead of answering: the failure of
    reading the cached users, or of searching what was read. *)
Definition cache_fault (host : Host) (d : SignupData) (p : Page) : option JsError :=
  match getStoredUsers host p with
  | Throw e => Some e
  | Ok existingUsers =>
      match users_find host existingUsers (d_regNo d) with
      | Throw e => Some e
      | Ok _ => None
      end
  end.

(** ** Concrete hosts and pages used in the examples *)

Module Fixture.

(** The wording of one engine. *)
Definition engine_message (f : HostFault) : string :=
  match f with
  | NullRead prop => "Cannot read properties of null (reading '" +:+ prop +:+ "')"
  | NotAFunction prop => prop +:+ " is not a function"
  | NotPrimitive => "Cannot convert object to primitive value"
  end.

Definition syntax_error : JsError := mkError "SyntaxError" "Unexpected token".

Definition quote : string := String (ascii_of_nat 34) EmptyString.

(** The JSON text of a one-element user list. *)
Definition cached_users_text : string :=
  "[{" +:+ quote +:+ "regNo" +:+ quote +:+ ":" +:+ quote +:+ "AB1234" +:+ quote +:+ "}]".

(** A parser that reads that one document and rejects any other text. *)
Definition parse_cached_users (text : string) : Result JsVal :=
  if String.eqb text cached_users_text
  then Ok (JArr [JObj [("regNo", JStr "AB1234")]])
  else Throw syntax_error.

Definition host : Host := mkHost parse_cached_users engine_message.

Definition blank : Field := mkField "" "".
Definition typed (s : string) : Field := mkField s "".

Definition course_options : list OptionEl :=
  [mkOption "" "Select Course" false; mkOption "UG" "UG" false;
   mkOption "PG" "PG" false].

Definition course_select (index : nat) : Select :=
  mkSelect course_options index false "".

(** A course list offering one more option, selected. *)
Definition course_select_offering (extra : string) : Select :=
  mkSelect (course_options ++ [mkOption extra extra false]) 3 false "".

Definition department_select : Select := mkSelect [placeholder] 0 true "".

Definition login_button : Button := mkButton false false "Sign In" true.
Definition signup_button : Button := mkButton false false "Create Account" false.

Definition blank_signup : SignupForm :=
  mkSignupForm blank blank (course_select 0) department_select blank blank blank blank
               (Some blank) (Some blank) signup_button.

(** A signup form filled in by hand, department picked from the UG list. *)
Definition filled_signup (fullName regNo year password confirm : string) : SignupForm :=
  mkSignupForm (typed fullName) (typed "R. Kumar") (course_select 1)
               (mkSelect [placeholder; mkOption "PHYSICS" "PHYSICS" false] 1 false "1")
               (typed regNo) (typed year) (typed password) (typed confirm)
               (Some blank) (Some blank) signup_button.

Definition page_with (store : gmap string string) (l : LoginForm) (s : SignupForm) : Page :=
  mkPage store true false (mkMessage "" "message" "" false) l s "login.html" [] [].

Definition blank_login : LoginForm := mkLoginForm blank blank login_button.

Definition filled_login : LoginForm :=
  mkLoginForm (typed "AB1234") (typed "abc12345") login_button.

Definition world_of (p : Page) : World := mkWorld p 0 [].

Definition ok_response (body : JsVal) : FetchOutcome :=
  FetchResponded (mkResponse 200 (Ok body)).

(** A filled login form and a filled signup form on an empty store. *)
Definition ready : World :=
  world_of (page_with ∅ filled_login
              (filled_signup "A. Kumar" "CD5678" "2000" "abc12345" "abc12345")).

(** The same, the confirmation mistyped. *)
Definition mistyped : World :=
  world_of (page_with ∅ filled_login
              (filled_signup "A. Kumar" "CD5678" "2000" "abc12345" "abc12346")).

(** The confirmation mistyped and the name left empty. *)
Definition mistyped_unnamed : World :=
  world_of (page_with ∅ filled_login
              (filled_signup "" "CD5678" "2000" "abc12345" "abc12346")).

(** The confirmation mistyped, over a store whose users text is not JSON. *)
Definition mistyped_over_bad_cache : World :=
  world_of (page_with (<["users" := "oops"]> ∅) filled_login
              (filled_signup "A. Kumar" "CD5678" "2000" "abc12345" "abc12346")).

(** Nothing typed and no course chosen. *)
Definition untouched : World := world_of (page_with ∅ blank_login blank_signup).

(** A store whose cached users include the number being registered. *)
Definition already_cached : Page :=
  page_with (<["users" := cached_users_text]> ∅) blank_login
            (filled_signup "A. Kumar" "AB1234" "2000" "abc12345" "abc12345").

(** A store that holds the empty string as its token. *)
Definition empty_token : Page :=
  page_with (<["token" := ""]> ∅) blank_login blank_signup.

(** A page on which the course list offers, and has selected, one more
    option. *)
Definition offering (extra : string) : World :=
  world_of (page_with ∅ blank_login
              (mkSignupForm blank blank (course_select_offering extra) department_select
                            blank blank blank blank None None signup_button)).

Definition token_body : JsVal := JObj [("success", JBool true); ("token", JStr "xyz")].

Definition unreachable : JsError := mkError "TypeError" "Load failed".

End Fixture.

(** * The rest of the program *)

(** ** Regular expressions read as matchers *)

Module Regex.

(** One or more characters of the class, then whatever [k] accepts; the
    longer run is tried first, as the engine does. *)
Fixpoint plus_then (cls : ascii -> bool) (k : string -> bool) (s : string) : bool :=
  match s with
  | EmptyString => false
  | String c rest => cls c && (plus_then cls k rest || k rest)
  end.

(** The given character, then whatever [k] accepts. *)
Definition char_then (c : ascii) (k : string -> bool) (s : string) : bool :=
  match s with
  | EmptyString => false
  | String d rest => Ascii.eqb d c && k rest
  end.

(** The end of the input. *)
Definition at_end (s : string) : bool := String.eqb s "".

End Regex.

(** [[^\s@]] *)
Definition email_char (c : ascii) : bool :=
  negb (Js.is_space c) && negb (Ascii.eqb c "@").

(** [/^[^\s@]+@[^\s@]+\.[^\s@]+$/.test(email)] *)
Definition validateEmail (email : string) : bool :=
  Regex.plus_then email_char
    (Regex.char_then "@"
       (Regex.plus_then email_char
          (Regex.char_then "."
             (Regex.plus_then email_char Regex.at_end))))
    email.

(** ** Field feedback *)

(** An element of class error-message under the wrapper of an input. *)
Record ErrorDiv : Type := mkErrorDiv {
  ed_text : string;
  ed_color : string;
  ed_fontSize : string;
  ed_marginTop : string
}.

(** An input with its wrapper: the value and border colour of the input,
    the class list of the wrapper, and the error-message elements under the
    wrapper in document order. *)
Record FieldWidget : Type := mkWidget {
  w_value : string;
  w_borderColor : string;
  w_classes : gset string;
  w_errors : list ErrorDiv
}.

Definition validateField (isValid : bool) (errorMessage : string) (f : FieldWidget)
  : FieldWidget :=
  let classes := w_classes f ∖ {["error"; "success"]} in
  (* Remove any previous error message *)
  let errors := tail (w_errors f) in
  if String.eqb (Js.trim (w_value f)) "" then
    (* Skip empty fields *)
    mkWidget (w_value f) (w_borderColor f) classes errors
  else if isValid then
    mkWidget (w_value f) "#48bb78" (classes ∪ {["success"]}) errors
  else
    mkWidget (w_value f) "#f56565" (classes ∪ {["error"]})
             (errors ++ [mkErrorDiv errorMessage "#f56565" "0.8rem" "5px"]).

(** The blur listeners that [setupRealTimeValidation] attaches. *)
Definition blur_registrationNumber (f : FieldWidget) : FieldWidget :=
  validateField (validateRegistrationNumber (w_value f))
                "Invalid registration number format" f.

Definition blur_passingYear (f : FieldWidget) : FieldWidget :=
  validateField (validatePassingYear (w_value f))
                "Year must be between 1970 and 2025" f.

Definition blur_password (f : FieldWidget) : FieldWidget :=
  validateField (validatePassword (w_value f))
                "Password must be at least 8 characters with letters and numbers" f.

(** [password] is the value of the password input when the confirmation
    loses focus. *)
Definition blur_confirmPassword (password : string) (f : FieldWidget) : FieldWidget :=
  validateField (String.eqb (w_value f) password) "Passwords do not match" f.

(** ** Password show/hide toggle *)

(** A password input and the class list of the icon next to it. *)
Record PasswordInput : Type := mkPasswordInput {
  pw_type : string;
  pw_icon : gset string
}.

Definition togglePassword (i : PasswordInput) : PasswordInput :=
  if String.eqb (pw_type i) "password"
  then mkPasswordInput "text" (pw_icon i ∖ {["fa-eye"]} ∪ {["fa-eye-slash"]})
  else mkPasswordInput "password" (pw_icon i ∖ {["fa-eye-slash"]} ∪ {["fa-eye"]}).

(** ** The factorial program at the end of the file *)

Module Fact.

(** A Java [int]: the integer of the same residue modulo 2^32 that lies in
    -2^31 .. 2^31 - 1. *)
Definition wrap (z : Z) : Z := (z + 2 ^ 31) mod 2 ^ 32 - 2 ^ 31.

Definition max_int : Z := 2 ^ 31 - 1.

(** The loop [for (int i = ...; i <= n; i++) result *= i], from the given
    [i] and [result]; [None] when [fuel] iterations did not reach the exit. *)
Fixpoint loop (fuel : nat) (i result n : Z) : option Z :=
  match fuel with
  | O => None
  | S fuel' =>
      if i <=? n then loop fuel' (wrap (i + 1)) (wrap (result * i)) n
      else Some result
  end.

(** One turn of the loop on the pair of [i] and [result]. *)
Definition turn (s : Z * Z) : Z * Z := (wrap (s.1 + 1), wrap (s.2 * s.1)).

(** [factorial(n)], run for at most [fuel] turns of the loop. *)
Definition factorial (fuel : nat) (n : Z) : option Z := loop fuel 1 1 n.

(** The line [main] prints for the number read, when it prints one. *)
Definition main (fuel : nat) (num : Z) : option string :=
  (* Check if the number is negative *)
  if num <? 0 then Some "Factorial cannot be calculated for negative numbers."
  else
    match factorial fuel num with
    | Some f => Some ("Factorial of " +:+ Js.Z_to_string num +:+ " is " +:+ Js.Z_to_string f)
    | None => None
    end.

End Fact.

(** ** Vocabulary of the further properties *)

(** Some character of the string is in the class. *)
Fixpoint some_char (p : ascii -> bool) (s : string) : bool :=
  match s with
  | EmptyString => false
  | String c rest => p c || some_char p rest
  end.

(** The mathematical factorial. *)
Fixpoint fact (n : nat) : Z :=
  match n with
  | O => 1
  | S m => Z.of_nat n * fact m
  end.

(** The two form switches. *)
Inductive Switch : Type := ToLogin | ToSignup.

Definition switch_to (m : Switch) (p : Page) : Page :=
  match m with
  | ToLogin => switchToLogin p
  | ToSignup => switchToSignup p
  end.

(** A run of switches, first to last. *)
Definition switch_all (ms : list Switch) (p : Page) : Page :=
  fold_left (fun q m => switch_to m q) ms p.

(** The local checks of [handleLogin]. *)
Definition login_accepted (p : Page) : bool :=
  nonempty (loginData p).1 && nonempty (loginData p).2
  && validateRegistrationNumber (loginData p).1.

(** The request a login submission sends. *)
Definition login_request (p : Page) : Request :=
  mkRequest "https://setu.fit/api/auth/login" "POST"
            [("Content-Type", "application/json")]
            (Some (JObj [("regNo", JStr (Js.trim (value (loginRegNo (login p)))));
                         ("password", JStr (value (loginPassword (login p))))])).

(** The body of a response the handlers treat as a success: the status is
    in the success range, the body parsed, and its [success] is truthy. *)
Definition accepted_body (host : Host) (outcome : FetchOutcome) : option JsVal :=
  match outcome with
  | FetchResponded r =>
      match resp_json r with
      | Ok body =>
          match get host body "success" with
          | Ok success => if response_ok r && truthy success then Some body else None
          | Throw _ => None
          end
      | Throw _ => None
      end
  | FetchRejected _ => None
  end.

(** The token a login response makes the handler store, if any: the string
    form of a truthy token that has one. *)
Definition granted_token (host : Host) (outcome : FetchOutcome) : option string :=
  match accepted_body host outcome with
  | Some body =>
      match get host body "token" with
      | Ok token => if truthy token then ToString token else None
      | Throw _ => None
      end
  | None => None
  end.

(** Storing the token of the body does not fail: the token is falsy, or it
    has a string form. *)
Definition token_kept (host : Host) (body : JsVal) : bool :=
  match get host body "token" with
  | Ok token =>
      negb (truthy token) || match ToString token with Some _ => true | None => false end
  | Throw _ => true
  end.

(** What a successful login assigns to the location. *)
Definition redirect_target (host : Host) (body : JsVal) : JsVal :=
  match get host body "redirectUrl" with
  | Ok url => or_else url (JStr "dashboard.html")
  | Throw _ => JStr "dashboard.html"
  end.

(** Whom a successful login greets. *)
Definition greeted_name (host : Host) (body : JsVal) : JsVal :=
  match get host body "user" with
  | Ok user =>
      match get_optional host user "name" with
      | Ok userName => or_else userName (JStr "User")
      | Throw _ => JStr "User"
      end
  | Throw _ => JStr "User"
  end.

(** The greeting of a successful login, when the name has a string form. *)
Definition welcome_text (host : Host) (body : JsVal) : option string :=
  match ToString (greeted_name host body) with
  | Some shownName => Some ("Welcome back, " +:+ shownName +:+ "!")
  | None => None
  end.

(** The body and the greeting of a response that the login handler carries
    through as a success: the body is accepted, its token can be kept and
    the greeting can be made. *)
Definition greeting (host : Host) (outcome : FetchOutcome) : option (JsVal * string) :=
  match accepted_body host outcome with
  | Some body =>
      if token_kept host body
      then match welcome_text host body with
           | Some text => Some (body, text)
           | None => None
           end
      else None
  | None => None
  end.

Definition is_redirect (t : Task) : bool :=
  match t with
  | TaskRedirect _ => true
  | _ => false
  end.

(** Every text input of the two forms holds the value the markup gave it;
    the two career inputs count when the page has them. *)
Definition fields_at_default (p : Page) : Prop :=
  let at_default (f : Field) := value f = defaultValue f in
  at_default (loginRegNo (login p)) /\ at_default (loginPassword (login p))
  /\ at_default (name (signup p)) /\ at_default (fatherName (signup p))
  /\ at_default (regNumber (signup p)) /\ at_default (signupPassingYear (signup p))
  /\ at_default (signupPassword (signup p)) /\ at_default (confirmPassword (signup p))
  /\ from_option at_default True (currentPosition (signup p))
  /\ from_option at_default True (currentCompany (signup p)).

(** What a reset gives each input of the signup form other than the
    department dropdown. *)
Definition signup_defaults (s : SignupForm)
  : Field * Field * Select * Field * Field * Field * Field
    * option Field * option Field :=
  (reset_field (name s), reset_field (fatherName s), reset_select (course s),
   reset_field (regNumber s), reset_field (signupPassingYear s),
   reset_field (signupPassword s), reset_field (confirmPassword s),
   reset_field <$> currentPosition s, reset_field <$> currentCompany s).

(** The inputs of [s] are those of [origin] after a reset: every text input,
    the career inputs included, holds its default value, and the course menu
    has its default selection. *)
Definition signup_reset_from (origin s : SignupForm) : Prop :=
  name s = reset_field (name origin)
  /\ fatherName s = reset_field (fatherName origin)
  /\ course s = reset_select (course origin)
  /\ regNumber s = reset_field (regNumber origin)
  /\ signupPassingYear s = reset_field (signupPassingYear origin)
  /\ signupPassword s = reset_field (signupPassword origin)
  /\ confirmPassword s = reset_field (confirmPassword origin)
  /\ currentPosition s = reset_field <$> currentPosition origin
  /\ currentCompany s = reset_field <$> currentCompany origin.

(** What the user entered into the signup form. *)
Definition signup_inputs (s : SignupForm)
  : Field * Field * Select * Select * Field * Field * Field * Field
    * option Field * option Field :=
  (name s, fatherName s, course s, department s, regNumber s, signupPassingYear s,
   signupPassword s, confirmPassword s, currentPosition s, currentCompany s).

(** The wrapper carries at most one error message and not both marks. *)
Definition tidy (f : FieldWidget) : Prop :=
  (length (w_errors f) <= 1)%nat
  /\ ~ ("error" ∈ w_classes f /\ "success" ∈ w_classes f).

(** One blur on a field: the verdict of its validator and the message. *)
Definition feedback_all (calls : list (bool * string)) (f : FieldWidget) : FieldWidget :=
  fold_left (fun g call => validateField call.1 call.2 g) calls f.

Module Sample.

(** A login form whose registration number was typed with blanks around. *)
Definition padded_login : World :=
  Fixture.world_of (Fixture.page_with ∅
    (mkLoginForm (Fixture.typed "  AB1234 ") (Fixture.typed "abc12345") Fixture.login_button)
    Fixture.blank_signup).

(** A login form holding blanks only as its registration number. *)
Definition blank_number_login : World :=
  Fixture.world_of (Fixture.page_with ∅
    (mkLoginForm (Fixture.typed "   ") (Fixture.typed "abc12345") Fixture.login_button)
    Fixture.blank_signup).

(** A filled signup form over a store whose users text does not parse. *)
Definition corrupt_cache : World :=
  Fixture.world_of (Fixture.page_with (<["users" := "oops"]> ∅) Fixture.blank_login
    (Fixture.filled_signup "A. Kumar" "CD5678" "2000" "abc12345" "abc12345")).

Definition granted : FetchOutcome :=
  Fixture.ok_response
    (JObj [("success", JBool true); ("token", JStr "xyz");
           ("user", JObj [("name", JStr "Asha")]); ("redirectUrl", JStr "home.html")]).

Definition refused : FetchOutcome :=
  Fixture.ok_response (JObj [("success", JBool false); ("message", JStr "Wrong password")]).

Definition registered : FetchOutcome :=
  Fixture.ok_response (JObj [("success", JBool true)]).

Definition untouched_widget (text : string) : FieldWidget := mkWidget text "" ∅ [].

Definition masked : PasswordInput := mkPasswordInput "password" {["fas"; "fa-eye"]}.

End Sample.

(** * Properties *)

(** The four callbacks, the redirect split by whether its target has a
    string form. *)
Ltac by_task t :=
  let target := fresh "target" in
  destruct t as [| |target|]; cbn [run_task];
  [| |destruct (ToString target)|].

(** ** Passing year *)

Section PassingYear.

Local Ltac by_cases c := destruct c as [[] [] [] [] [] [] [] []]; try discriminate; try reflexivity.

Lemma digit_not_space c : Js.is_digit c = true -> Js.is_space c = false.
Proof. by_cases c. Qed.

Lemma digit_not_sign c s : Js.is_digit c = true -> Js.split_sign (String c s) = (1, String c s).
Proof. by_cases c. Qed.

Lemma digit_not_radix_mark c : Js.is_digit c = true -> Js.char_in "xX" c = false.
Proof. by_cases c. Qed.

Lemma digit_value_decimal c : Js.is_digit c = true -> Js.digit_value 10 c = Some (Js.code c - 48).
Proof. intros H. unfold Js.digit_value. now rewrite H. Qed.

Lemma digit_value_not_digit c : Js.is_digit c = false -> Js.digit_value 10 c = None.
Proof. intros H. unfold Js.digit_value. now rewrite H. Qed.

Lemma read_digits_numeral s : forall acc,
  Js.all_chars Js.is_digit s = true ->
  Js.read_digits 10 (Some acc) s
  = Some (acc * 10 ^ Z.of_nat (String.length s) + decimal_value s).
Proof.
  induction s as [|c rest IH]; intros acc Hall;
    cbn [Js.all_chars Js.read_digits decimal_value String.length] in *.
  - f_equal. change (10 ^ Z.of_nat 0) with 1. lia.
  - apply andb_true_iff in Hall as [Hc Hrest].
    rewrite (digit_value_decimal _ Hc), (IH _ Hrest). f_equal.
    cbn [default]. rewrite Nat2Z.inj_succ, Z.pow_succ_r by lia. unfold id. ring.
Qed.

Lemma split_radix_numeral s :
  Js.all_chars Js.is_digit s = true -> Js.split_radix s = (10, s).
Proof.
  destruct s as [|c [|x rest]]; [reflexivity | intros _; by_cases c |].
  simpl. intros H. apply andb_true_iff in H as [_ H].
  apply andb_true_iff in H as [Hx _].
  unfold Js.split_radix.
  assert (Hm := digit_not_radix_mark _ Hx). simpl in Hm.
  destruct c as [[] [] [] [] [] [] [] []]; try reflexivity.
  simpl. now rewrite Hm.
Qed.

Lemma parseInt_numeral s :
  is_decimal_numeral s = true -> Js.parseInt s = Some (decimal_value s).
Proof.
  unfold is_decimal_numeral. intros H. apply andb_true_iff in H as [Hall Hne].
  destruct s as [|c rest]; [discriminate|].
  assert (Hc : Js.is_digit c = true) by (simpl in Hall; now apply andb_true_iff in Hall).
  unfold Js.parseInt.
  replace (Js.trimStart (String c rest)) with (String c rest)
    by (simpl; now rewrite (digit_not_space _ Hc)).
  rewrite (digit_not_sign _ _ Hc), (split_radix_numeral _ Hall).
  simpl in Hall. apply andb_true_iff in Hall as [_ Hrest].
  simpl Js.read_digits. rewrite (digit_value_decimal _ Hc).
  rewrite (read_digits_numeral _ _ Hrest). simpl. f_equal.
  destruct (_ + decimal_value rest); reflexivity.
Qed.

Lemma parseInt_no_leading_digit s :
  has_leading_digit s = false -> Js.parseInt s = None.
Proof.
  unfold has_leading_digit, Js.parseInt.
  destruct (Js.split_sign (Js.trimStart s)) as [sign s1]. simpl.
  destruct s1 as [|c rest]; [reflexivity|]. intros Hc.
  assert (Hr : Js.split_radix (String c rest) = (10, String c rest)).
  { unfold Js.split_radix. destruct rest as [|x rest]; by_cases c. }
  rewrite Hr. simpl. now rewrite (digit_value_not_digit _ Hc).
Qed.

End PassingYear.

Example passing_year_1970 : validatePassingYear "1970" = true.
Proof. reflexivity. Qed.

Example passing_year_2026 : validatePassingYear "2026" = false.
Proof. reflexivity. Qed.

Example passing_year_letters : validatePassingYear "abcd" = false.
Proof. reflexivity. Qed.

Example passing_year_hexadecimal : validatePassingYear "0x7D0" = true.
Proof. reflexivity. Qed.

Example passing_year_fraction : validatePassingYear "2025.9" = true.
Proof. reflexivity. Qed.

Example registration_numbers :
  validateRegistrationNumber "AB1234" = true
  /\ validateRegistrationNumber "AB12" = false
  /\ validateRegistrationNumber "AB-1234" = false.
Proof. repeat split. Qed.

Example passwords :
  validatePassword "abc12345" = true
  /\ validatePassword "abcdefgh" = false
  /\ validatePassword "short1" = false.
Proof. repeat split. Qed.

(** C3 (as amended).  [validatePassingYear] judges a year by the integer
    [parseInt] reads from its leading numeral: the result is true exactly
    when that integer exists and lies in 1970..2025.  Hence, for a plain
    decimal numeral it is true exactly when 1970 <= y <= 2025, and input in
    which no digit follows the optional white space and sign evaluates to
    false; no input raises an error, the function being total. *)
Theorem validatePassingYear_reads_leading_numeral (y : string) :
  (is_decimal_numeral y = true ->
     (validatePassingYear y = true <-> 1970 <= decimal_value y <= 2025))
  /\ (has_leading_digit y = false -> validatePassingYear y = false)
  /\ (validatePassingYear y = true <->
        exists n, Js.parseInt y = Some n /\ 1970 <= n <= 2025).
Proof.
  assert (Hgen : validatePassingYear y = true <->
                 exists n, Js.parseInt y = Some n /\ 1970 <= n <= 2025).
  { unfold validatePassingYear. destruct (Js.parseInt y) as [n|].
    - rewrite andb_true_iff, !Z.leb_le. split.
      + intros H. exists n. split; [reflexivity | lia].
      + intros (m & Hm & H). injection Hm as ->. lia.
    - split; [discriminate | intros (m & Hm & _); discriminate]. }
  split; [| split; [| exact Hgen]].
  - intros Hnum. rewrite Hgen, (parseInt_numeral _ Hnum). split.
    + intros (n & Hn & H). injection Hn as ->. exact H.
    + intros H. eexists. split; [reflexivity | exact H].
  - intros Hlead. unfold validatePassingYear.
    now rewrite (parseInt_no_leading_digit _ Hlead).
Qed.

(** The theorem at the year 2025 and at the text abcd. *)
Lemma validatePassingYear_witness :
  (validatePassingYear "2025" = true <-> 1970 <= decimal_value "2025" <= 2025)
  /\ validatePassingYear "abcd" = false.
Proof.
  split.
  - apply (proj1 (validatePassingYear_reads_leading_numeral "2025")). reflexivity.
  - apply (proj1 (proj2 (validatePassingYear_reads_leading_numeral "abcd"))). reflexivity.
Defined.

(** The text 2000abc is not numeric, yet it is accepted: its leading
    numeral 2000 is what [parseInt] returns. *)
Lemma validatePassingYear_accepts_trailing_text :
  ~ (validatePassingYear "2000abc" = true <->
     is_decimal_numeral "2000abc" = true /\ 1970 <= decimal_value "2000abc" <= 2025).
Proof. intros [H _]. destruct (H eq_refl) as [Hnum _]. discriminate Hnum. Qed.


(** ** The handlers *)

Lemma loading_state_twice (a : bool) (b : Button) :
  loading_state false (loading_state a b) = loading_state false b.
Proof. destruct a, b as [? ? ? []]; reflexivity. Qed.

Lemma strict_eq_string_true (v : JsVal) (s : string) :
  strict_eq_string v s = true -> v = JStr s.
Proof.
  destruct v; simpl; try discriminate.
  intros H. apply String.eqb_eq in H. now subst.
Qed.

Lemma nonempty_true (s : string) : nonempty s = true <-> s <> "".
Proof.
  unfold nonempty. rewrite negb_true_iff. split.
  - intros H ->. discriminate.
  - intros H. destruct (String.eqb_spec s ""); [contradiction | reflexivity].
Qed.

Lemma first_failure_invalid (checks : list (bool * string)) :
  isValid (first_failure checks) = false ->
  exists msg, first_failure checks = mkValidation false (Some msg)
              /\ In (false, msg) checks.
Proof.
  induction checks as [|[[] msg] rest IH]; simpl; intros H.
  - discriminate.
  - destruct (IH H) as (m & Hm & Hin). eauto.
  - eauto.
Qed.

Section Handlers.

Variable host : Host.

Local Ltac run :=
  unfold handleLogin_settle, handleSignup_settle, makeApiCall_settle, on_failure,
    showMessage, showLoadingState;
  unfold try_catch, mbind, M_bind, lift, mret, M_ret, throw, update, setTimeout, gets;
  cbn beta iota.

Local Ltac branch :=
  match goal with
  | |- context [match ?x with _ => _ end] =>
      lazymatch x with
      | context [match _ with _ => _ end] => fail
      | _ => destruct x eqn:?
      end
  end.

Local Ltac cases := repeat (branch; cbn -[loading_state]).

Lemma get_optional_total (v : JsVal) (key : string) :
  exists r, get_optional host v key = Ok r.
Proof. destruct v; simpl; eauto. Qed.

Lemma get_ok_inv (v r : JsVal) (key : string) :
  get host v key = Ok r -> forall key', exists r', get host v key' = Ok r'.
Proof. destruct v; simpl; intros H key'; try discriminate; eauto. Qed.

(** *** What settling a request leaves behind *)

Lemma handleLogin_settle_button (outcome : FetchOutcome) (w : World) :
  loginButton (login (page (handleLogin_settle host outcome w).1))
  = loading_state false (loginButton (login (page w))).
Proof. run. cases; rewrite ?loading_state_twice; reflexivity. Qed.

Lemma handleSignup_settle_button (outcome : FetchOutcome) (w : World) :
  signupButton (signup (page (handleSignup_settle host outcome w).1))
  = loading_state false (signupButton (signup (page w))).
Proof. run. cases; rewrite ?loading_state_twice; reflexivity. Qed.

Lemma handleSignup_settle_storage (outcome : FetchOutcome) (w : World) :
  localStorage (page (handleSignup_settle host outcome w).1) = localStorage (page w).
Proof. run. cases; reflexivity. Qed.

Lemma handleLogin_settle_rejected (e : JsError) (w : World) :
  message (page (handleLogin_settle host (FetchRejected e) w).1)
  = error_shown (failure_text "Login failed. Please try again." e).
Proof. unfold failure_text, error_shown. run. cases; reflexivity. Qed.

Lemma handleSignup_settle_rejected (e : JsError) (w : World) :
  message (page (handleSignup_settle host (FetchRejected e) w).1)
  = error_shown (failure_text "Signup failed. Please try again." e).
Proof. unfold failure_text, error_shown. run. cases; reflexivity. Qed.

(** A submission that stops before the request does not touch the button. *)
Lemma handleLogin_submit_button (w : World) :
  match handleLogin_submit w with
  | Pending _ => True
  | stopped => loginButton (login (page (submit_world stopped)))
               = loginButton (login (page w))
  end.
Proof. unfold handleLogin_submit. run. cases; reflexivity. Qed.

Lemma handleSignup_submit_button (w : World) :
  match handleSignup_submit host w with
  | Pending _ => True
  | stopped => signupButton (signup (page (submit_world stopped)))
               = signupButton (signup (page w))
  end.
Proof. unfold handleSignup_submit. run. cases; try reflexivity; exact I. Qed.

(** *** Session token *)

(** C1 (as amended).  When a login submission that passed the local checks
    receives a response in the success range whose body has a truthy
    [success] and the token xyz, the token is stored: afterwards [gettoken]
    returns xyz and [isUserLoggedIn] returns true.  For every state of the
    store, [isUserLoggedIn] is true exactly when [gettoken] returns a
    non-empty string; so it equals [gettoken() !== null] in every state in
    which the stored token is not the empty string. *)
Theorem login_success_stores_token (w w' : World) (status : Z) (body success : JsVal) :
  handleLogin_submit w = Pending w' ->
  200 <= status <= 299 ->
  get host body "success" = Ok success ->
  truthy success = true ->
  get host body "token" = Ok (JStr "xyz") ->
  let p := page (handleLogin host (FetchResponded (mkResponse status (Ok body))) w) in
  gettoken p = Some "xyz" /\ isUserLoggedIn p = true
  /\ (forall q : Page,
        (isUserLoggedIn q = true <-> exists t, gettoken q = Some t /\ t <> "")
        /\ (gettoken q <> Some "" ->
            isUserLoggedIn q = bool_decide (gettoken q <> None))).
Proof.
  intros Hsub Hst Hs Ht Htok. unfold handleLogin. rewrite Hsub.
  assert (Hok : response_ok (mkResponse status (Ok body)) = true).
  { unfold response_ok. simpl. apply andb_true_iff. rewrite !Z.leb_le. lia. }
  destruct (get_ok_inv _ _ _ Hs "user") as [user Hu].
  destruct (get_optional_total user "name") as [userName Hn].
  destruct (get_ok_inv _ _ _ Hs "redirectUrl") as [url Hr].
  assert (Hp : gettoken (page (handleLogin_settle host
             (FetchResponded (mkResponse status (Ok body))) w').1) = Some "xyz").
  { run. rewrite Hok. cbn. rewrite Hs, Ht, Htok. cbn. rewrite Hu, Hn. cbn.
    destruct (to_text host (or_else userName (JStr "User"))); cbn; rewrite ?Hr;
      cases; unfold gettoken; cbn; apply lookup_insert_eq. }
  cbn zeta. split; [exact Hp|]. split; [unfold isUserLoggedIn; now rewrite Hp|].
  intros q. unfold isUserLoggedIn. destruct (gettoken q) as [t|]; split.
  - rewrite nonempty_true. split.
    + intros H. exists t. now split.
    + intros (t' & Ht' & Hne). now injection Ht' as ->.
  - intros Hne. rewrite bool_decide_eq_true_2 by discriminate.
    apply nonempty_true. intros ->. now apply Hne.
  - split; [discriminate | intros (t' & Ht' & _); discriminate].
  - intros _. symmetry. apply bool_decide_eq_false_2. intros H. now apply H.
Qed.

(** *** API client *)

(** C5 (as amended).  A call whose transport failed fails with the
    transport error.  A call that got a response parses the body as JSON
    first: a parse failure propagates as the failure of the call whatever
    the status.  When the body parsed and the status is outside the success
    range the call fails: with the TypeError of reading [message] from it
    when the body is null (or undefined), and otherwise with an error
    carrying the backend message, as a string, if that message is truthy
    (with a TypeError if it is truthy and has no string form) and else the
    text HTTP error! status: followed by the numeric status.
    When the body parsed and the status is in the success range the call
    returns the parsed body. *)
Theorem makeApiCall_contract (r : Response) (w : World) :
  let result := (makeApiCall_settle host (FetchResponded r) w).2 in
  (forall e, resp_json r = Throw e -> result = Throw e)
  /\ (forall body,
        resp_json r = Ok body -> response_ok r = false ->
        (body = JNull \/ body = JUndefined ->
         result = Throw (mkError "TypeError"
                           (type_error_message host (NullRead "message"))))
        /\ (body <> JNull -> body <> JUndefined ->
            result
            = Throw (if truthy (backend_message body)
                     then match ToString (backend_message body) with
                          | Some text => mkError "Error" text
                          | None => mkError "TypeError"
                                      (type_error_message host NotPrimitive)
                          end
                     else mkError "Error"
                            ("HTTP error! status: "
                             +:+ Js.Number_toString (resp_status r)))))
  /\ (forall body, resp_json r = Ok body -> response_ok r = true -> result = Ok body)
  /\ (forall e, (makeApiCall_settle host (FetchRejected e) w).2 = Throw e).
Proof.
  cbn zeta. split; [|split; [|split]].
  - intros e He. run. now rewrite He.
  - intros body Hb Hn. split.
    + intros [-> | ->]; run; rewrite Hb, Hn; reflexivity.
    + intros Hnull Hundef. run. rewrite Hb, Hn. cbn. unfold or_else, to_text.
      destruct body as [| | | | |items|props]; try contradiction; cbn;
        try reflexivity.
      destruct (truthy (default JUndefined (prop_lookup "message" props)));
        [|reflexivity].
      now destruct (ToString (default JUndefined (prop_lookup "message" props))).
  - intros body Hb Hy. run. now rewrite Hb, Hy.
  - intros e. reflexivity.
Qed.

(** *** Failure paths of the submit handlers *)

(** C6 (as amended).  When the transport fails during a login or signup
    submission, the handler shows the connectivity message if the text of
    the error contains the word fetch, and otherwise the text of the error
    itself (the generic fallback of the form when that text is empty).
    Whatever the outcome of a request that was issued, failure or not, the
    submit control ends enabled and out of its loading state; a submission
    that stops before any request leaves the control as it was. *)
Theorem transport_failure_feedback (e : JsError) (outcome : FetchOutcome) (w : World) :
  (forall w', handleLogin_submit w = Pending w' ->
     message (page (handleLogin host (FetchRejected e) w))
       = error_shown (failure_text "Login failed. Please try again." e)
     /\ let b := loginButton (login (page (handleLogin host outcome w))) in
        btn_disabled b = false /\ btn_loading b = false)
  /\ (forall w', handleSignup_submit host w = Pending w' ->
     message (page (handleSignup host (FetchRejected e) w))
       = error_shown (failure_text "Signup failed. Please try again." e)
     /\ let b := signupButton (signup (page (handleSignup host outcome w))) in
        btn_disabled b = false /\ btn_loading b = false)
  /\ ((forall w', handleLogin_submit w <> Pending w') ->
      loginButton (login (page (handleLogin host outcome w)))
      = loginButton (login (page w)))
  /\ ((forall w', handleSignup_submit host w <> Pending w') ->
      signupButton (signup (page (handleSignup host outcome w)))
      = signupButton (signup (page w))).
Proof.
  split; [|split; [|split]].
  - intros w' Hsub. unfold handleLogin. rewrite Hsub. split.
    + apply handleLogin_settle_rejected.
    + cbn zeta. rewrite handleLogin_settle_button. split; reflexivity.
  - intros w' Hsub. unfold handleSignup. rewrite Hsub. split.
    + apply handleSignup_settle_rejected.
    + cbn zeta. rewrite handleSignup_settle_button. split; reflexivity.
  - intros Hnp. unfold handleLogin.
    pose proof (handleLogin_submit_button w) as Hb.
    destruct (handleLogin_submit w) as [w'|w'|w' err]; cbn in *;
      [exact Hb | now destruct (Hnp w') | exact Hb].
  - intros Hnp. unfold handleSignup.
    pose proof (handleSignup_submit_button w) as Hb.
    destruct (handleSignup_submit host w) as [w'|w'|w' err]; cbn in *;
      [exact Hb | now destruct (Hnp w') | exact Hb].
Qed.

(** *** Signup *)

Lemma required_present_negb (d : SignupData) :
  negb (nonempty (d_name d)) || negb (nonempty (d_fatherName d))
  || negb (nonempty (d_course d)) || negb (nonempty (d_department d))
  || negb (nonempty (d_regNo d)) || negb (nonempty (d_passingYear d))
  || negb (nonempty (d_password d)) || negb (nonempty (d_confirmPassword d))
  = negb (required_present d).
Proof.
  unfold required_present.
  destruct (nonempty (d_name d)), (nonempty (d_fatherName d)),
    (nonempty (d_course d)), (nonempty (d_department d)), (nonempty (d_regNo d)),
    (nonempty (d_passingYear d)), (nonempty (d_password d)),
    (nonempty (d_confirmPassword d)); reflexivity.
Qed.

(** The validation is the ordered, short-circuiting run of the six checks. *)
Lemma validateSignupData_order (d : SignupData) (p : Page) (r : ValidationResult) :
  validateSignupData host d p = Ok r ->
  r = first_failure (signup_checks (duplicate_found host d p) d).
Proof.
  unfold validateSignupData, duplicate_found, signup_checks, invalid, duplicate_message.
  rewrite required_present_negb.
  destruct (required_present d); cbn; [|congruence].
  destruct (validateRegistrationNumber (d_regNo d)); cbn; [|congruence].
  destruct (getStoredUsers host p) as [users|]; [|discriminate].
  destruct (users_find host users (d_regNo d)) as [found|]; [|discriminate].
  destruct (truthy found); cbn; [congruence|].
  destruct (validatePassingYear (d_passingYear d)); cbn; [|congruence].
  destruct (validatePassword (d_password d)); cbn; [|congruence].
  destruct (String.eqb (d_password d) (d_confirmPassword d)); cbn; congruence.
Qed.

Lemma first_failure_mismatch (dup : bool) (d : SignupData) :
  d_password d <> d_confirmPassword d ->
  isValid (first_failure (signup_checks dup d)) = false.
Proof.
  intros Hne. unfold signup_checks. cbn.
  destruct (String.eqb_spec (d_password d) (d_confirmPassword d)); [contradiction|].
  repeat match goal with |- context [if ?b then _ else _] => destruct b; cbn end;
    reflexivity.
Qed.

Lemma handleSignup_submit_storage (w : World) :
  localStorage (page (submit_world (handleSignup_submit host w)))
  = localStorage (page w).
Proof. unfold handleSignup_submit. run. cases; reflexivity. Qed.

Lemma fire_storage (target : Z) (q : list (Z * Task)) : forall p,
  localStorage (fire target q p).1 = localStorage p.
Proof.
  induction q as [|[due t] rest IH]; intros p; cbn; [reflexivity|].
  destruct (due <=? target); [|reflexivity].
  rewrite IH. by_task t; reflexivity.
Qed.

Lemma advance_storage (dt : Z) (w : World) :
  localStorage (page (advance dt w)) = localStorage (page w).
Proof.
  unfold advance. pose proof (fire_storage (clock w + dt) (timers w) (page w)) as H.
  destruct (fire _ _ _). exact H.
Qed.

Lemma handleSignup_storage (outcome : FetchOutcome) (w : World) :
  localStorage (page (handleSignup host outcome w)) = localStorage (page w).
Proof.
  unfold handleSignup. pose proof (handleSignup_submit_storage w) as H.
  destruct (handleSignup_submit host w); cbn in *; try exact H.
  now rewrite handleSignup_settle_storage.
Qed.

(** C9.  A signup submission never writes to the token store, whatever the
    response, success included: the stored token, and with it the results
    of [gettoken] and [isUserLoggedIn], are the same after the handler has
    run, and remain so when the timers it scheduled (the switch back to the
    login form among them) have fired. *)
Theorem signup_leaves_token_store (outcome : FetchOutcome) (w : World) (dt : Z) :
  let after := page (handleSignup host outcome w) in
  let later := page (advance dt (handleSignup host outcome w)) in
  localStorage after = localStorage (page w)
  /\ gettoken after = gettoken (page w)
  /\ isUserLoggedIn after = isUserLoggedIn (page w)
  /\ localStorage later = localStorage (page w)
  /\ gettoken later = gettoken (page w)
  /\ isUserLoggedIn later = isUserLoggedIn (page w).
Proof.
  cbn zeta. unfold isUserLoggedIn, gettoken.
  rewrite advance_storage, handleSignup_storage. repeat split.
Qed.

(** The duplicate check answers exactly when reading and searching the
    cached users raise nothing. *)
Lemma validateSignupData_throws (d : SignupData) (p : Page) (e : JsError) :
  required_present d = true -> validateRegistrationNumber (d_regNo d) = true ->
  cache_fault host d p = Some e ->
  validateSignupData host d p = Throw e.
Proof.
  intros H1 H2. unfold cache_fault, validateSignupData.
  rewrite required_present_negb, H1, H2. cbn.
  destruct (getStoredUsers host p) as [users|e1]; [|congruence].
  destruct (users_find host users (d_regNo d)) as [found|e1]; congruence.
Qed.

Lemma validateSignupData_answers (d : SignupData) (p : Page) :
  required_present d = false \/ validateRegistrationNumber (d_regNo d) = false
  \/ cache_fault host d p = None ->
  validateSignupData host d p
  = Ok (first_failure (signup_checks (duplicate_found host d p) d)).
Proof.
  intros H.
  assert (Hok : exists r, validateSignupData host d p = Ok r).
  { unfold validateSignupData, invalid. rewrite required_present_negb.
    destruct (required_present d); cbn; [|eauto].
    destruct (validateRegistrationNumber (d_regNo d)); cbn; [|eauto].
    destruct H as [H | [H | H]]; try discriminate H.
    unfold cache_fault in H.
    destruct (getStoredUsers host p) as [users|]; [|discriminate H].
    destruct (users_find host users (d_regNo d)) as [found|]; [|discriminate H].
    repeat match goal with |- context [if ?b then _ else _] => destruct b end; eauto. }
  destruct Hok as [r Hr]. rewrite Hr. f_equal. now apply validateSignupData_order.
Qed.

(** C4 (as amended).  A signup submission in which the password differs from
    its confirmation issues no network call.  Composite validation runs its
    six checks in the fixed order and stops at the first that fails; the
    handler shows the message of that check and of no other.  So the message
    is Passwords do not match when the five checks before the comparison
    pass, and the message of the earlier failing check otherwise.  One case
    shows no message at all: when the first two checks pass and the
    duplicate check cannot read or search the cached users, validation
    throws, the handler stops with that error and the page stays as it
    was. *)
Theorem signup_mismatch_is_local (outcome : FetchOutcome) (w : World) :
  d_password (signupData (page w)) <> d_confirmPassword (signupData (page w)) ->
  let d := signupData (page w) in
  requests (page (handleSignup host outcome w)) = requests (page w)
  /\ (forall w', handleSignup_submit host w <> Pending w')
  /\ (required_present d = false \/ validateRegistrationNumber (d_regNo d) = false
      \/ cache_fault host d (page w) = None ->
      exists msg,
        validateSignupData host d (page w) = Ok (mkValidation false (Some msg))
        /\ first_failure (signup_checks (duplicate_found host d (page w)) d)
           = mkValidation false (Some msg)
        /\ handleSignup host outcome w = (showMessage msg "error" w).1
        /\ message (page (handleSignup host outcome w)) = error_shown msg
        /\ (required_present d = true ->
            validateRegistrationNumber (d_regNo d) = true ->
            duplicate_found host d (page w) = false ->
            validatePassingYear (d_passingYear d) = true ->
            validatePassword (d_password d) = true ->
            msg = "Passwords do not match"))
  /\ (forall e,
        required_present d = true -> validateRegistrationNumber (d_regNo d) = true ->
        cache_fault host d (page w) = Some e ->
        validateSignupData host d (page w) = Throw e
        /\ handleSignup_submit host w = Crashed w e
        /\ handleSignup host outcome w = w).
Proof.
  intros Hne. cbn zeta.
  assert (Hinv : forall r, validateSignupData host (signupData (page w)) (page w) = Ok r ->
                 isValid r = false).
  { intros r Hr. rewrite (validateSignupData_order _ _ _ Hr).
    now apply first_failure_mismatch. }
  assert (Hnp : forall w', handleSignup_submit host w <> Pending w').
  { intros w'. unfold handleSignup_submit.
    destruct (validateSignupData host (signupData (page w)) (page w)) as [r|] eqn:Hr;
      [|discriminate].
    rewrite (Hinv r eq_refl). discriminate. }
  split; [|split; [exact Hnp|split]].
  - unfold handleSignup. unfold handleSignup_submit in *.
    destruct (validateSignupData host (signupData (page w)) (page w)) as [r|] eqn:Hr;
      [|reflexivity].
    rewrite (Hinv r eq_refl). reflexivity.
  - intros Hruns. pose proof (validateSignupData_answers _ _ Hruns) as Hr.
    destruct (first_failure_invalid _ (first_failure_mismatch
                (duplicate_found host (signupData (page w)) (page w)) _ Hne))
      as (msg & Hmsg & _).
    exists msg. rewrite Hmsg in Hr. split; [exact Hr|]. split; [exact Hmsg|].
    assert (Hrun : handleSignup host outcome w = (showMessage msg "error" w).1).
    { unfold handleSignup, handleSignup_submit. rewrite Hr. reflexivity. }
    split; [exact Hrun|]. split; [rewrite Hrun; reflexivity|].
    intros H1 H2 H3 H4 H5. unfold signup_checks in Hmsg.
    rewrite H1, H2, H3, H4, H5 in Hmsg.
    destruct (String.eqb (d_password (signupData (page w)))
                         (d_confirmPassword (signupData (page w))));
      cbn in Hmsg; [discriminate|]. now injection Hmsg as <-.
  - intros e H1 H2 Hf. pose proof (validateSignupData_throws _ _ _ H1 H2 Hf) as Hr.
    split; [exact Hr|].
    unfold handleSignup, handleSignup_submit. rewrite Hr. split; reflexivity.
Qed.

(** *** The local cache of users *)

Lemma find_regNo_found (regNo : string) (items : list JsVal) (found : JsVal) :
  find_regNo host regNo items = Ok found -> truthy found = true ->
  In found items /\ get host found "regNo" = Ok (JStr regNo).
Proof.
  induction items as [|user rest IH]; cbn [find_regNo]; intros Hf Ht.
  - injection Hf as <-. discriminate.
  - destruct (get host user "regNo") as [r|] eqn:Hg; [|discriminate].
    destruct (strict_eq_string r regNo) eqn:He.
    + injection Hf as <-. apply strict_eq_string_true in He as ->.
      split; [now left | exact Hg].
    + destruct (IH Hf Ht) as [Hin Hget]. split; [now right | exact Hget].
Qed.

(** C10.  When the key users is absent from storage, [getStoredUsers]
    returns the empty list and validation does not answer Registration
    number already exists.  Validation answers that only when storage holds
    a users text whose parse is a list containing an entry whose [regNo] is
    the submitted registration number. *)
Theorem duplicate_check_needs_cached_entry (d : SignupData) (p : Page) :
  (localStorage p !! "users" = None ->
     getStoredUsers host p = Ok (JArr [])
     /\ validateSignupData host d p <> invalid duplicate_message)
  /\ (validateSignupData host d p = invalid duplicate_message ->
      exists text items user,
        localStorage p !! "users" = Some text
        /\ JSON_parse host text = Ok (JArr items)
        /\ In user items
        /\ get host user "regNo" = Ok (JStr (d_regNo d))).
Proof.
  assert (Hdup : validateSignupData host d p = invalid duplicate_message ->
      exists text items user,
        localStorage p !! "users" = Some text
        /\ JSON_parse host text = Ok (JArr items)
        /\ In user items
        /\ get host user "regNo" = Ok (JStr (d_regNo d))).
  { unfold validateSignupData, invalid, duplicate_message.
    rewrite required_present_negb.
    destruct (negb (required_present d)); [discriminate|].
    destruct (negb (validateRegistrationNumber (d_regNo d))); [discriminate|].
    destruct (getStoredUsers host p) as [users|] eqn:Hu; [|discriminate].
    destruct (users_find host users (d_regNo d)) as [found|] eqn:Hf; [|discriminate].
    destruct (truthy found) eqn:Ht.
    - intros _. unfold getStoredUsers in Hu.
      destruct (localStorage p !! "users") as [text|] eqn:Hl.
      + destruct (nonempty text).
        * destruct users; try discriminate.
          destruct (find_regNo_found _ _ _ Hf Ht) as [Hin Hget].
          exists text, items, found. auto.
        * injection Hu as <-. cbn in Hf. injection Hf as <-. discriminate.
      + injection Hu as <-. cbn in Hf. injection Hf as <-. discriminate.
    - repeat match goal with |- context [if ?b then _ else _] => destruct b end;
        discriminate. }
  split; [|exact Hdup].
  intros Hnone. split.
  - unfold getStoredUsers. now rewrite Hnone.
  - intros H. destruct (Hdup H) as (text & _ & _ & Hl & _). congruence.
Qed.
End Handlers.

(** ** Numbers as text *)

Section Numbers.

Local Open Scope Z_scope.

(** A decimal of two to the 53 or more denotes a double of that size. *)
Lemma to_double_large (m y : Z) :
  2 ^ 53 <= m -> Js.to_double m = Some y -> 2 ^ 53 <= y.
Proof.
  intros Hm. unfold Js.to_double.
  destruct (m <? 2 ^ 53) eqn:Hlt; [apply Z.ltb_lt in Hlt; lia|].
  assert (Hlog : 53 <= Z.log2 m).
  { rewrite <- (Z.log2_pow2 53) by lia. apply Z.log2_le_mono. exact Hm. }
  set (shift := Z.log2 m - 52). assert (Hs : 1 <= shift) by (unfold shift; lia).
  assert (Hq : 2 ^ 52 <= Z.shiftr m shift).
  { rewrite Z.shiftr_div_pow2 by lia. apply Z.div_le_lower_bound; [lia|].
    rewrite Z.mul_comm, <- Z.pow_add_r by lia. replace (52 + shift) with (Z.log2 m)
      by (unfold shift; lia).
    apply Z.log2_spec. lia. }
  assert (Hp : 2 <= 2 ^ shift).
  { change 2 with (2 ^ 1) at 1. apply Z.pow_le_mono_r; lia. }
  cbn zeta.
  match goal with |- context [Z.shiftl ?q shift] =>
    assert (Hq' : 2 ^ 52 <= q)
      by (destruct ((_ <? _) || _); lia);
    generalize dependent q
  end.
  intros q Hq'. rewrite Z.shiftl_mul_pow2 by lia.
  destruct (q * 2 ^ shift <? 2 ^ 1024); [|discriminate].
  intros H. injection H as <-. nia.
Qed.

(** Below two to the 53 only the integer itself reads back as it. *)
Lemma candidate_small (x p v : Z) :
  0 <= x < 2 ^ 53 -> 0 < p -> Js.candidate x p = Some v -> v = x.
Proof.
  intros Hx Hp. unfold Js.candidate.
  set (lo := x / p * p).
  assert (Hlo : 0 <= lo <= x).
  { unfold lo. split; [apply Z.mul_nonneg_nonneg; [apply Z.div_pos|]; lia|].
    rewrite Z.mul_comm. apply Z.mul_div_le. exact Hp. }
  assert (Hhi : x < lo + p).
  { unfold lo. pose proof (Z.mod_pos_bound x p Hp).
    pose proof (Z.div_mod x p ltac:(lia)). lia. }
  assert (Hrlo : Js.reads_as x lo = (lo =? x)).
  { unfold Js.reads_as, Js.to_double.
    destruct (lo <? 2 ^ 53) eqn:Hlt; [reflexivity|]. apply Z.ltb_ge in Hlt. lia. }
  assert (Hrhi : Js.reads_as x (lo + p) = false).
  { unfold Js.reads_as. destruct (Js.to_double (lo + p)) as [y|] eqn:Hy; [|reflexivity].
    apply Z.eqb_neq. destruct (Z_lt_le_dec (lo + p) (2 ^ 53)) as [Hlt | Hge].
    - unfold Js.to_double in Hy. apply Z.ltb_lt in Hlt. rewrite Hlt in Hy.
      injection Hy as <-. lia.
    - pose proof (to_double_large _ _ Hge Hy). lia. }
  cbn zeta. rewrite Hrlo, Hrhi.
  destruct (lo =? x) eqn:He; [|discriminate].
  apply Z.eqb_eq in He. intros H. injection H as <-. exact He.
Qed.

Lemma shortest_small (x : Z) (e : nat) :
  0 <= x < 2 ^ 53 -> Js.shortest x e = x.
Proof.
  intros Hx. induction e as [|e IH]; cbn [Js.shortest].
  - destruct (Js.candidate x (10 ^ Z.of_nat 0)) as [v|] eqn:Hc; [|reflexivity].
    apply (candidate_small x _ v Hx) in Hc; [exact Hc | reflexivity].
  - destruct (Js.candidate x (10 ^ Z.of_nat (S e))) as [v|] eqn:Hc; [|exact IH].
    apply (candidate_small x _ v Hx) in Hc; [exact Hc|].
    apply Z.pow_pos_nonneg; lia.
Qed.

(** The decimal chosen for a double reads back as that double. *)
Lemma shortest_reads_back (x : Z) (e : nat) :
  Js.to_double x = Some x -> Js.reads_as x (Js.shortest x e) = true.
Proof.
  intros Hx.
  assert (Hself : Js.reads_as x x = true).
  { unfold Js.reads_as. rewrite Hx. apply Z.eqb_refl. }
  assert (Hc : forall p v, Js.candidate x p = Some v -> Js.reads_as x v = true).
  { intros p v. unfold Js.candidate. cbn zeta.
    destruct (Js.reads_as x (x / p * p)) eqn:H1,
             (Js.reads_as x (x / p * p + p)) eqn:H2; try discriminate;
      repeat match goal with |- context [if ?b then _ else _] => destruct b end;
      intros H; injection H as <-; assumption. }
  induction e as [|e IH]; cbn [Js.shortest].
  - destruct (Js.candidate x (10 ^ Z.of_nat 0)) as [v|] eqn:Hv; [|exact Hself].
    exact (Hc _ _ Hv).
  - destruct (Js.candidate x (10 ^ Z.of_nat (S e))) as [v|] eqn:Hv; [|exact IH].
    exact (Hc _ _ Hv).
Qed.

(** An integer of magnitude below two to the 53 prints as its decimal
    numeral. *)
Lemma Number_toString_safe (n : Z) :
  - 2 ^ 53 < n < 2 ^ 53 -> Js.Number_toString n = Js.Z_to_string n.
Proof.
  intros Hn.
  assert (Hm : forall m, 0 <= m < 2 ^ 53 -> Js.magnitude_to_string m = Js.Z_to_string m).
  { intros m Hm. unfold Js.magnitude_to_string, Js.to_double.
    destruct (m <? 2 ^ 53) eqn:Hlt; [|apply Z.ltb_ge in Hlt; lia].
    cbn zeta. rewrite shortest_small by exact Hm.
    destruct (m <? 10 ^ 21) eqn:Hb; [reflexivity|]. apply Z.ltb_ge in Hb. lia. }
  unfold Js.Number_toString. destruct (n <? 0) eqn:Hneg.
  - apply Z.ltb_lt in Hneg. rewrite Hm by lia.
    destruct n as [|q|q]; try lia. reflexivity.
  - apply Z.ltb_ge in Hneg. apply Hm. lia.
Qed.

End Numbers.

(** Integers up to two to the 53 print as their numerals; beyond, the text is
    that of the nearest double, and from ten to the 21 on it carries an
    exponent. *)
Example number_texts :
  map Js.Number_toString
      [0; -7; 404; 2 ^ 53; 2 ^ 53 + 1; 2 ^ 60; 10 ^ 21 - 65537; 10 ^ 21;
       - 10 ^ 21; 2 ^ 70; 10 ^ 23; 2 ^ 1024]
  = ["0"; "-7"; "404"; "9007199254740992"; "9007199254740992";
     "1152921504606847000"; "999999999999999900000"; "1e+21"; "-1e+21";
     "1.1805916207174113e+21"; "1e+23"; "Infinity"].
Proof. vm_compute. reflexivity. Qed.

Example values_as_text :
  map ToString [JNull; JBool true; JNum (10 ^ 21); JStr "xyz"; JObj [];
                JObj [("valueOf", JNum 1)];
                JArr [JNum 1; JNull; JArr [JStr "a"; JNum 2]]; JArr []]
  = [Some "null"; Some "true"; Some "1e+21"; Some "xyz"; Some "[object Object]";
     Some "[object Object]"; Some "1,,a,2"; Some ""].
Proof. vm_compute. reflexivity. Qed.

(** An object that has a [toString] of its own has no string form, nor has
    an array that holds one. *)
Example values_without_text :
  map ToString [JObj [("toString", JStr "x")];
                JArr [JNum 1; JObj [("name", JStr "n"); ("toString", JNull)]]]
  = [None; None].
Proof. reflexivity. Qed.

(** ** The handlers on concrete submissions *)

(** A token that is a number is stored as the text of that number. *)
Example numeric_token_stored :
  gettoken (page (handleLogin Fixture.host
                    (Fixture.ok_response
                       (JObj [("success", JBool true); ("token", JNum (10 ^ 21))]))
                    Fixture.ready))
  = Some "1e+21".
Proof. vm_compute. reflexivity. Qed.



Lemma login_success_witness :
  let p := page (handleLogin Fixture.host
                   (FetchResponded (mkResponse 200 (Ok Fixture.token_body)))
                   Fixture.ready) in
  gettoken p = Some "xyz" /\ isUserLoggedIn p = true.
Proof.
  destruct (login_success_stores_token Fixture.host Fixture.ready
              (submit_world (handleLogin_submit Fixture.ready)) 200
              Fixture.token_body (JBool true)) as (Htoken & Hin & _);
    [reflexivity | lia | reflexivity | reflexivity | reflexivity |].
  split; [exact Htoken | exact Hin].
Defined.

(** A store that holds the empty string as its token: [gettoken] is not
    null, yet [isUserLoggedIn] is false. *)
Lemma empty_token_is_not_a_session :
  ~ (isUserLoggedIn Fixture.empty_token
     = bool_decide (gettoken Fixture.empty_token <> None)).
Proof. vm_compute. discriminate. Qed.

(** That store arises from a login whose response carries an empty list as
    its token: the list is truthy and its string form is empty. *)
Example empty_token_reachable :
  let p := page (handleLogin Fixture.host
                   (Fixture.ok_response (JObj [("success", JBool true); ("token", JArr [])]))
                   Fixture.ready) in
  gettoken p = Some "" /\ isUserLoggedIn p = false.
Proof. split; reflexivity. Qed.

Lemma makeApiCall_contract_witness :
  (makeApiCall_settle Fixture.host
     (FetchResponded (mkResponse 401 (Ok (JObj [("message", JStr "Invalid credentials")]))))
     Fixture.ready).2
  = Throw (mkError "Error" "Invalid credentials")
  /\ (makeApiCall_settle Fixture.host
        (FetchResponded (mkResponse 404 (Ok (JObj [])))) Fixture.ready).2
     = Throw (mkError "Error" "HTTP error! status: 404")
  /\ (makeApiCall_settle Fixture.host
        (FetchResponded (mkResponse 500 (Ok JNull))) Fixture.ready).2
     = Throw (mkError "TypeError" "Cannot read properties of null (reading 'message')").
Proof.
  split; [|split].
  - apply (proj2 (proj1 (proj2 (makeApiCall_contract Fixture.host
             (mkResponse 401 (Ok (JObj [("message", JStr "Invalid credentials")])))
             Fixture.ready))
           (JObj [("message", JStr "Invalid credentials")]) eq_refl eq_refl));
      discriminate.
  - apply (proj2 (proj1 (proj2 (makeApiCall_contract Fixture.host
             (mkResponse 404 (Ok (JObj []))) Fixture.ready))
           (JObj []) eq_refl eq_refl));
      discriminate.
  - apply (proj1 (proj1 (proj2 (makeApiCall_contract Fixture.host
             (mkResponse 500 (Ok JNull)) Fixture.ready))
           JNull eq_refl eq_refl)).
    now left.
Defined.

(** A 502 whose body is not JSON: the status is outside the success range
    and the backend supplied no message, yet the error is the parse error
    and not the generic one naming the status. *)
Lemma http_status_lost_to_parse_failure :
  let r := mkResponse 502 (Throw Fixture.syntax_error) in
  ~ (response_ok r = false ->
     exists e, (makeApiCall_settle Fixture.host (FetchResponded r) Fixture.ready).2 = Throw e
               /\ err_message e = "HTTP error! status: 502").
Proof.
  cbn zeta. intros H. destruct (H eq_refl) as (e & He & Hm).
  vm_compute in He. injection He as <-. discriminate Hm.
Qed.

Lemma transport_failure_witness :
  (message (page (handleLogin Fixture.host
                    (FetchRejected (mkError "TypeError" "Failed to fetch")) Fixture.ready))
   = error_shown connect_message
   /\ btn_disabled (loginButton (login (page
        (handleLogin Fixture.host (FetchRejected Fixture.unreachable) Fixture.ready)))) = false)
  /\ (message (page (handleSignup Fixture.host
                    (FetchRejected (mkError "TypeError" "Failed to fetch")) Fixture.ready))
      = error_shown connect_message
      /\ btn_disabled (signupButton (signup (page
           (handleSignup Fixture.host (FetchRejected Fixture.unreachable) Fixture.ready)))) = false).
Proof.
  pose proof (transport_failure_feedback Fixture.host
                (mkError "TypeError" "Failed to fetch")
                (FetchRejected Fixture.unreachable) Fixture.ready) as (Hl & Hs & _).
  specialize (Hl (submit_world (handleLogin_submit Fixture.ready)) eq_refl).
  specialize (Hs (submit_world (handleSignup_submit Fixture.host Fixture.ready)) eq_refl).
  cbn zeta in *. split; split; solve [apply Hl | apply Hs].
Defined.

(** A transport failure whose error text does not contain the word fetch:
    the text shown is that of the error, not the connectivity message. *)
Lemma transport_failure_without_fetch :
  ~ (msg_text (message (page (handleLogin Fixture.host
                                (FetchRejected Fixture.unreachable) Fixture.ready)))
     = connect_message).
Proof. vm_compute. discriminate. Qed.

Lemma signup_mismatch_witness :
  requests (page (handleSignup Fixture.host (Fixture.ok_response Fixture.token_body)
                    Fixture.mistyped)) = []
  /\ message (page (handleSignup Fixture.host (Fixture.ok_response Fixture.token_body)
                      Fixture.mistyped))
     = error_shown "Passwords do not match"
  /\ handleSignup Fixture.host (Fixture.ok_response Fixture.token_body)
       Fixture.mistyped_over_bad_cache
     = Fixture.mistyped_over_bad_cache.
Proof.
  assert (Hne : d_password (signupData (page Fixture.mistyped))
                <> d_confirmPassword (signupData (page Fixture.mistyped)))
    by (vm_compute; discriminate).
  assert (Hne' : d_password (signupData (page Fixture.mistyped_over_bad_cache))
                 <> d_confirmPassword (signupData (page Fixture.mistyped_over_bad_cache)))
    by (vm_compute; discriminate).
  pose proof (signup_mismatch_is_local Fixture.host
                (Fixture.ok_response Fixture.token_body) Fixture.mistyped Hne)
    as (Hreq & _ & Hval & _).
  pose proof (signup_mismatch_is_local Fixture.host
                (Fixture.ok_response Fixture.token_body) Fixture.mistyped_over_bad_cache Hne')
    as (_ & _ & _ & Hthrows).
  split; [exact Hreq|]. split.
  - destruct (Hval (or_intror (or_intror eq_refl)))
      as (msg & _ & _ & _ & Hshown & Hlast).
    rewrite Hshown. f_equal. apply Hlast; reflexivity.
  - exact (proj2 (proj2 (Hthrows Fixture.syntax_error eq_refl eq_refl eq_refl))).
Defined.

(** The same submission over a users text that is not JSON: validation
    throws at the duplicate check and the page is left as it was, no
    message shown. *)
Example signup_mismatch_unreadable_cache :
  handleSignup_submit Fixture.host Fixture.mistyped_over_bad_cache
  = Crashed Fixture.mistyped_over_bad_cache Fixture.syntax_error
  /\ handleSignup Fixture.host (Fixture.ok_response Fixture.token_body)
       Fixture.mistyped_over_bad_cache
     = Fixture.mistyped_over_bad_cache
  /\ msg_shown (message (page (handleSignup Fixture.host
                                 (Fixture.ok_response Fixture.token_body)
                                 Fixture.mistyped_over_bad_cache))) = false.
Proof. repeat split. Qed.

(** The passwords differ and the name is empty: the message shown is that of
    the first check, not Passwords do not match. *)
Lemma signup_mismatch_with_empty_name :
  ~ (d_password (signupData (page Fixture.mistyped_unnamed))
       <> d_confirmPassword (signupData (page Fixture.mistyped_unnamed)) ->
     msg_text (message (page (handleSignup Fixture.host
                                (Fixture.ok_response Fixture.token_body)
                                Fixture.mistyped_unnamed)))
     = "Passwords do not match").
Proof.
  intros H. assert (Hne : d_password (signupData (page Fixture.mistyped_unnamed))
       <> d_confirmPassword (signupData (page Fixture.mistyped_unnamed)))
    by (vm_compute; discriminate).
  specialize (H Hne). vm_compute in H. discriminate H.
Qed.

Lemma duplicate_check_witness :
  (getStoredUsers Fixture.host (page Fixture.ready) = Ok (JArr [])
   /\ validateSignupData Fixture.host (signupData (page Fixture.ready)) (page Fixture.ready)
      <> invalid duplicate_message)
  /\ exists text items user,
       localStorage Fixture.already_cached !! "users" = Some text
       /\ JSON_parse Fixture.host text = Ok (JArr items)
       /\ In user items
       /\ get Fixture.host user "regNo"
          = Ok (JStr (d_regNo (signupData Fixture.already_cached))).
Proof.
  split.
  - apply (proj1 (duplicate_check_needs_cached_entry Fixture.host
                    (signupData (page Fixture.ready)) (page Fixture.ready))).
    reflexivity.
  - apply (proj2 (duplicate_check_needs_cached_entry Fixture.host
                    (signupData Fixture.already_cached) Fixture.already_cached)).
    reflexivity.
Defined.

(** ** The message area and its timers *)

Lemma run_task_shown (t : Task) (p : Page) :
  msg_shown (message (run_task t p)) = msg_shown (message p) && negb (hides t).
Proof. by_task t; cbn; rewrite ?andb_false_r, ?andb_true_r; reflexivity. Qed.

Lemma run_task_text (t : Task) (p : Page) :
  msg_text (message (run_task t p)) = msg_text (message p).
Proof. by_task t; reflexivity. Qed.

Lemma fire_text (target : Z) (q : list (Z * Task)) : forall p,
  msg_text (message (fire target q p).1) = msg_text (message p).
Proof.
  induction q as [|[due t] rest IH]; intros p; cbn; [reflexivity|].
  destruct (due <=? target); [|reflexivity].
  now rewrite IH, run_task_text.
Qed.

Lemma pending_hide_cons (target due : Z) (t : Task) (q : list (Z * Task)) :
  pending_hide target ((due, t) :: q)
  = hides t && (due <=? target) || pending_hide target q.
Proof. reflexivity. Qed.

Lemma pending_hide_later (target due : Z) (q : list (Z * Task)) :
  target < due -> forallb (fun e => due <=? e.1) q = true ->
  pending_hide target q = false.
Proof.
  intros Hlt. induction q as [|[d t] rest IH]; [reflexivity|].
  rewrite pending_hide_cons. cbn [forallb fst].
  intros H. apply andb_true_iff in H as [Hd Hrest]. apply Z.leb_le in Hd.
  rewrite (IH Hrest), orb_false_r.
  replace (d <=? target) with false by (symmetry; apply Z.leb_gt; lia).
  apply andb_false_r.
Qed.

(** On a queue in firing order, the message area is visible after the due
    timers have fired exactly when it was visible before and none of the
    fired timers conceals it. *)
Lemma fire_shown (target : Z) (q : list (Z * Task)) : forall p,
  queue_sorted q = true ->
  msg_shown (message (fire target q p).1)
  = msg_shown (message p) && negb (pending_hide target q).
Proof.
  induction q as [|[due t] rest IH]; intros p Hs.
  - cbn. now rewrite andb_true_r.
  - rewrite pending_hide_cons. cbn [fire queue_sorted fst] in *.
    apply andb_true_iff in Hs as [Hhead Hrest].
    destruct (due <=? target) eqn:Hdue.
    + rewrite (IH _ Hrest), run_task_shown, andb_true_r, negb_orb.
      now rewrite andb_assoc.
    + apply Z.leb_gt in Hdue.
      rewrite (pending_hide_later _ _ _ Hdue Hhead), andb_false_r. cbn.
      now rewrite andb_true_r.
Qed.

Lemma existsb_enqueue (f : Z * Task -> bool) (due : Z) (t : Task) (q : list (Z * Task)) :
  existsb f (enqueue due t q) = f (due, t) || existsb f q.
Proof.
  induction q as [|[d t'] rest IH]; cbn.
  - reflexivity.
  - destruct (d <=? due); cbn; [|reflexivity].
    rewrite IH. now destruct (f (d, t')), (f (due, t)).
Qed.

Lemma forallb_enqueue (f : Z * Task -> bool) (due : Z) (t : Task) (q : list (Z * Task)) :
  forallb f (enqueue due t q) = f (due, t) && forallb f q.
Proof.
  induction q as [|[d t'] rest IH]; cbn.
  - reflexivity.
  - destruct (d <=? due); cbn; [|reflexivity].
    rewrite IH. now destruct (f (d, t')), (f (due, t)).
Qed.

Lemma forallb_weaken (a b : Z) (q : list (Z * Task)) :
  a <= b -> forallb (fun e => b <=? e.1) q = true ->
  forallb (fun e => a <=? e.1) q = true.
Proof.
  intros Hab. induction q as [|[d t] rest IH]; cbn; [reflexivity|].
  intros H. apply andb_true_iff in H as [Hd Hrest]. apply Z.leb_le in Hd.
  rewrite (IH Hrest), andb_true_r. apply Z.leb_le. lia.
Qed.

(** Scheduling a timer keeps the queue in firing order. *)
Lemma enqueue_sorted (due : Z) (t : Task) (q : list (Z * Task)) :
  queue_sorted q = true -> queue_sorted (enqueue due t q) = true.
Proof.
  induction q as [|[d t'] rest IH]; cbn; [reflexivity|].
  intros H. apply andb_true_iff in H as [Hhead Hrest].
  destruct (d <=? due) eqn:Hd; cbn.
  - rewrite forallb_enqueue, Hhead, (IH Hrest). cbn. now rewrite Hd.
  - apply Z.leb_gt in Hd. rewrite Hhead, Hrest, !andb_true_r.
    apply andb_true_iff. split; [apply Z.leb_le; lia|].
    apply (forallb_weaken due d); [lia | exact Hhead].
Qed.

(** Letting time pass keeps it in firing order too. *)
Lemma fire_sorted (target : Z) (q : list (Z * Task)) : forall p,
  queue_sorted q = true -> queue_sorted (fire target q p).2 = true.
Proof.
  induction q as [|[due t] rest IH]; intros p Hs; cbn in *; [reflexivity|].
  destruct (due <=? target); [|exact Hs].
  apply andb_true_iff in Hs as [_ Hrest]. now apply IH.
Qed.

Lemma showMessage_sorted (text kind : string) (w : World) :
  queue_sorted (timers w) = true ->
  queue_sorted (timers (showMessage text kind w).1) = true.
Proof. apply enqueue_sorted. Qed.

Lemma advance_sorted (dt : Z) (w : World) :
  queue_sorted (timers w) = true -> queue_sorted (timers (advance dt w)) = true.
Proof.
  intros Hs. unfold advance.
  pose proof (fire_sorted (clock w + dt) (timers w) (page w) Hs) as H.
  destruct (fire _ _ _). exact H.
Qed.

Lemma enqueue_length (due : Z) (t : Task) (q : list (Z * Task)) :
  length (enqueue due t q) = S (length q).
Proof.
  induction q as [|[d t'] rest IH]; cbn; [reflexivity|].
  destruct (d <=? due); cbn; [now rewrite IH | reflexivity].
Qed.

(** C2 (as amended).  There is one message area, so at most one message is
    visible at any time.  A [showMessage] call does not replace a pending
    auto-hide timer: it adds its own, due 5 seconds later, to those already
    pending.  The message it shows is therefore visible [dt] milliseconds
    later exactly when [dt] is below 5000 and no timer that was already
    pending and conceals the message area is due by then; it stays for the
    full 5 seconds only when no such timer is pending. *)
Theorem showMessage_auto_hide (text kind : string) (w : World) (dt : Z) :
  queue_sorted (timers w) = true ->
  let shown := (showMessage text kind w).1 in
  let later := page (advance dt shown) in
  (length (visible_messages later) <= 1)%nat
  /\ msg_text (message later) = text
  /\ timers shown = enqueue (clock w + 5000) TaskHideMessage (timers w)
  /\ length (timers shown) = S (length (timers w))
  /\ msg_shown (message later)
     = (dt <? 5000) && negb (pending_hide (clock w + dt) (timers w)).
Proof.
  intros Hs. cbn zeta.
  assert (Hq : timers (showMessage text kind w).1
               = enqueue (clock w + 5000) TaskHideMessage (timers w)) by reflexivity.
  split; [unfold visible_messages; destruct (msg_shown _); cbn; lia|].
  unfold advance. rewrite Hq.
  pose proof (fire_text (clock (showMessage text kind w).1 + dt)
                (enqueue (clock w + 5000) TaskHideMessage (timers w))
                (page (showMessage text kind w).1)) as Htext.
  pose proof (fire_shown (clock (showMessage text kind w).1 + dt)
                (enqueue (clock w + 5000) TaskHideMessage (timers w))
                (page (showMessage text kind w).1) (enqueue_sorted _ _ _ Hs)) as Hshown.
  destruct (fire _ _ _) as [p q]. cbn [fst page] in *.
  split; [exact Htext|]. split; [reflexivity|].
  split; [apply enqueue_length|].
  rewrite Hshown. unfold pending_hide. rewrite existsb_enqueue.
  change (msg_shown (message (page (showMessage text kind w).1))) with true.
  change (clock (showMessage text kind w).1) with (clock w). cbn.
  replace (clock w + 5000 <=? clock w + dt) with (negb (dt <? 5000)).
  - now destruct (dt <? 5000).
  - destruct (Z.ltb_spec dt 5000); cbn; symmetry;
      [apply Z.leb_gt | apply Z.leb_le]; lia.
Qed.

Lemma showMessage_auto_hide_witness :
  let shown := (showMessage "Saved" "success" Fixture.ready).1 in
  msg_shown (message (page (advance 4999 shown))) = true
  /\ msg_shown (message (page (advance 5000 shown))) = false.
Proof.
  cbn zeta. split.
  - destruct (showMessage_auto_hide "Saved" "success" Fixture.ready 4999 eq_refl)
      as (_ & _ & _ & _ & H). exact H.
  - destruct (showMessage_auto_hide "Saved" "success" Fixture.ready 5000 eq_refl)
      as (_ & _ & _ & _ & H). exact H.
Defined.

(** A second message shown 3 seconds after a first one is concealed 2
    seconds later, by the timer of the first. *)
Lemma second_message_hidden_early :
  let first := (showMessage "Saved" "success" Fixture.ready).1 in
  let second := (showMessage "Login failed" "error" (advance 3000 first)).1 in
  ~ (forall dt, 0 <= dt < 5000 ->
       msg_shown (message (page (advance dt second))) = true).
Proof.
  cbn zeta. intros H. specialize (H 2000 ltac:(lia)). vm_compute in H. discriminate H.
Qed.

(** ** The department dropdown *)

Lemma append_options (depts : list string) : forall d : Select,
  fold_left (fun d dept => append_option dept d) depts d
  = mkSelect (sel_options d ++ department_options depts) (sel_index d)
             (sel_disabled d) (sel_opacity d).
Proof.
  induction depts as [|dept rest IH]; intros [opts i dis op]; cbn.
  - now rewrite app_nil_r.
  - rewrite IH. cbn. now rewrite <- app_assoc.
Qed.

Lemma departmentData_read_empty : departmentData_read "" = NoMember.
Proof. reflexivity. Qed.

Section CourseChange.

Variable host : Host.

Local Ltac run :=
  unfold handleCourseChange, mbind, M_bind, gets, update, setTimeout, throw;
  cbn beta iota.

(** A course of the catalog: the dropdown is enabled and holds the
    placeholder followed by the departments of that course, in order. *)
Lemma handleCourseChange_known (w : World) (depts : list string) :
  departmentData !! selected_course (page w) = Some depts ->
  department (signup (page (handleCourseChange host w).1))
  = mkSelect (placeholder :: department_options depts) 0 false "0.5"
  /\ (handleCourseChange host w).2 = Ok tt.
Proof.
  intros Hd.
  assert (Hr : departmentData_read (selected_course (page w)) = OwnList depts)
    by (unfold departmentData_read; now rewrite Hd).
  assert (Hn : nonempty (selected_course (page w)) = true).
  { apply nonempty_true. intros He. rewrite He in Hd. discriminate Hd. }
  run. rewrite Hr, Hn. cbn. rewrite append_options. split; reflexivity.
Qed.

(** No course, or a name that [departmentData] does not answer to: the
    dropdown is disabled and holds the placeholder only. *)
Lemma handleCourseChange_unknown (w : World) :
  departmentData_read (selected_course (page w)) = NoMember ->
  department (signup (page (handleCourseChange host w).1))
  = mkSelect [placeholder] 0 true (sel_opacity (department (signup (page w))))
  /\ (handleCourseChange host w).2 = Ok tt.
Proof. intros Hr. run. rewrite Hr, andb_false_r. split; reflexivity. Qed.

(** A name every object inherits from its prototype, such as constructor:
    the lookup in [departmentData] yields a truthy value that is no list,
    so the handler enables the dropdown, which holds the placeholder only,
    and then throws. *)
Lemma handleCourseChange_inherited_name (w : World) :
  departmentData_read (selected_course (page w)) = InheritedMember ->
  department (signup (page (handleCourseChange host w).1))
  = mkSelect [placeholder] 0 false (sel_opacity (department (signup (page w))))
  /\ (handleCourseChange host w).2 = Throw (type_error host (NotAFunction "forEach")).
Proof.
  intros Hr.
  assert (Hn : nonempty (selected_course (page w)) = true).
  { apply nonempty_true. intros He. rewrite He in Hr. discriminate Hr. }
  run. rewrite Hr, Hn. split; reflexivity.
Qed.

(** The value of a menu is the empty string or the value of one of its
    options. *)
Lemma select_value_offered (s : Select) :
  select_value s = "" \/ select_value s ∈ map opt_value (sel_options s).
Proof.
  unfold select_value. destruct (sel_options s !! sel_index s) as [o|] eqn:Ho.
  - right. apply list_elem_of_In, in_map, list_elem_of_In.
    now apply list_elem_of_lookup_2 in Ho.
  - now left.
Qed.

Lemma selected_course_read (w : World) :
  Forall (fun c => c ∉ Object_prototype_names) (offered_courses (page w)) ->
  departmentData_read (selected_course (page w))
  = match departmentData !! selected_course (page w) with
    | Some depts => OwnList depts
    | None => NoMember
    end.
Proof.
  intros Hmenu. unfold departmentData_read.
  destruct (departmentData !! selected_course (page w)); [reflexivity|].
  destruct (bool_decide (selected_course (page w) ∈ Object_prototype_names)) eqn:Hb;
    [|reflexivity].
  destruct (select_value_offered (course (signup (page w)))) as [He | Hin].
  - unfold selected_course in Hb. rewrite He in Hb. vm_compute in Hb. discriminate Hb.
  - apply bool_decide_eq_true_1 in Hb. rewrite Forall_forall in Hmenu.
    now destruct (Hmenu _ Hin).
Qed.

(** C7.  The markup of the course menu is not part of the program text; the
    theorem asks of it only that none of its options is named like a member
    every object inherits (constructor, toString and the like), which holds
    of a menu that offers the placeholder and the two courses.  Then after
    every course-change event the enabled state and the options of the department
    dropdown are a function of the selected course alone: an empty or
    unknown course leaves the dropdown disabled with the placeholder as its
    only option, a course of the catalog leaves it enabled with the
    placeholder followed by exactly the departments of that course.  So
    every option of the dropdown is the placeholder or a department of the
    selected course, and the option shown is the placeholder. *)
Theorem handleCourseChange_recomputes (w : World) :
  Forall (fun c => c ∉ Object_prototype_names) (offered_courses (page w)) ->
  let selectedCourse := selected_course (page w) in
  let d := department (signup (page (handleCourseChange host w).1)) in
  (handleCourseChange host w).2 = Ok tt
  /\ (sel_disabled d, sel_options d) = dropdown_for selectedCourse
  /\ (selectedCourse = "" \/ departmentData !! selectedCourse = None ->
      sel_disabled d = true /\ sel_options d = [placeholder])
  /\ (forall depts, departmentData !! selectedCourse = Some depts ->
        sel_disabled d = false
        /\ sel_options d = placeholder :: department_options depts)
  /\ (forall o, o ∈ sel_options d ->
        o = placeholder
        \/ exists depts dept, departmentData !! selectedCourse = Some depts
                              /\ dept ∈ depts /\ o = mkOption dept dept false)
  /\ select_value d = "".
Proof.
  intros Hmenu. cbn zeta. pose proof (selected_course_read w Hmenu) as Hread.
  unfold dropdown_for.
  destruct (departmentData !! selected_course (page w)) as [depts|] eqn:Hd.
  - destruct (handleCourseChange_known w depts Hd) as [-> ->]. cbn.
    split; [reflexivity|]. split; [reflexivity|]. split.
    { intros [He | Hn]; [|discriminate Hn]. rewrite He in Hd. discriminate Hd. }
    split.
    { intros depts' Heq. injection Heq as <-. split; reflexivity. }
    split; [|reflexivity].
    intros o [-> | Ho]%elem_of_cons; [now left | right].
    apply list_elem_of_In, in_map_iff in Ho as (dept & <- & Hin).
    exists depts, dept. split; [reflexivity|]. split; [|reflexivity].
    now apply list_elem_of_In.
  - destruct (handleCourseChange_unknown w Hread) as [-> ->]. cbn.
    split; [reflexivity|]. split; [reflexivity|]. split; [split; reflexivity|].
    split; [intros depts' Heq; discriminate Heq|]. split; [|reflexivity].
    intros o Ho. left. now apply list_elem_of_singleton in Ho.
Qed.

End CourseChange.

(** The courses of the catalog, on a concrete page. *)
Example handleCourseChange_PG :
  sel_options (department (signup (page
     (handleCourseChange Fixture.host (Fixture.offering "PG")).1)))
  = placeholder :: department_options
      ["ECONOMICS"; "GEOGRAPHY"; "HINDI"; "HISTORY"; "POLITICAL SCIENCE";
       "PHYSICS"; "CHEMISTRY"].
Proof. reflexivity. Qed.

(** On the page as the markup has it, with UG chosen and with nothing
    chosen. *)
Lemma handleCourseChange_recomputes_witness :
  (let d := department (signup (page (handleCourseChange Fixture.host Fixture.ready).1)) in
   sel_disabled d = false /\ length (sel_options d) = 18%nat /\ select_value d = "")
  /\ (let d := department (signup (page
                  (handleCourseChange Fixture.host Fixture.untouched).1)) in
      sel_disabled d = true /\ sel_options d = [placeholder]).
Proof.
  assert (Hready : Forall (fun c => c ∉ Object_prototype_names)
                     (offered_courses (page Fixture.ready)))
    by (apply (bool_decide_unpack _); vm_compute; exact I).
  assert (Hblank : Forall (fun c => c ∉ Object_prototype_names)
                     (offered_courses (page Fixture.untouched)))
    by (apply (bool_decide_unpack _); vm_compute; exact I).
  split.
  - destruct (handleCourseChange_recomputes Fixture.host Fixture.ready Hready)
      as (_ & _ & _ & Hknown & _ & Hshown).
    destruct (Hknown _ eq_refl) as [Hdis Hopts]. cbn zeta in *.
    rewrite Hdis, Hopts. split; [reflexivity|]. split; [reflexivity | exact Hshown].
  - destruct (handleCourseChange_recomputes Fixture.host Fixture.untouched Hblank)
      as (_ & _ & Hnone & _).
    exact (Hnone (or_introl eq_refl)).
Defined.

(** The lookup through the prototype chain, at a course menu that offers
    the option constructor. *)
Example handleCourseChange_constructor :
  let r := handleCourseChange Fixture.host (Fixture.offering "constructor") in
  department (signup (page r.1)) = mkSelect [placeholder] 0 false ""
  /\ r.2 = Throw (mkError "TypeError" "forEach is not a function").
Proof.
  exact (handleCourseChange_inherited_name Fixture.host
           (Fixture.offering "constructor") eq_refl).
Qed.

(** ** Switching forms *)

(** C8.  Calling [switchToLogin] twice in a row leaves the page exactly as
    calling it once does, from any starting state; in particular the active
    form, the message area, the contents of the signup fields and the
    department dropdown (disabled, placeholder only) are the same. *)
Theorem switchToLogin_idempotent (p : Page) :
  switchToLogin (switchToLogin p) = switchToLogin p
  /\ observable (switchToLogin (switchToLogin p)) = observable (switchToLogin p)
  /\ department (signup (switchToLogin p))
     = mkSelect [placeholder] 0 true (sel_opacity (department (signup p)))
  /\ loginForm_active (switchToLogin p) = true
  /\ signupForm_active (switchToLogin p) = false
  /\ msg_shown (message (switchToLogin p)) = false.
Proof.
  assert (H : switchToLogin (switchToLogin p) = switchToLogin p).
  { destruct p as [store la sa msg lf sf href reqs cons].
    destruct sf as [n f c d r y pw cp pos comp btn].
    unfold switchToLogin. cbn.
    destruct pos, comp; reflexivity. }
  split; [exact H|]. rewrite H. repeat split.
Qed.

(** * Further properties *)

(** ** Strings *)

Section Strings.

Local Ltac by_cases c := destruct c as [[] [] [] [] [] [] [] []]; try discriminate; try reflexivity.

Lemma append_cons (a : ascii) (s t : string) : String a s +:+ t = String a (s +:+ t).
Proof. reflexivity. Qed.

Lemma append_empty_r (s : string) : s +:+ "" = s.
Proof. induction s as [|a s IH]; [reflexivity|]. now rewrite append_cons, IH. Qed.

Lemma append_assoc (s t u : string) : (s +:+ t) +:+ u = s +:+ (t +:+ u).
Proof. induction s as [|a s IH]; [reflexivity|]. now rewrite !append_cons, IH. Qed.

Lemma rev_app_append (s t : string) : String.rev_app s t = String.rev s +:+ t.
Proof.
  unfold String.rev. revert t.
  induction s as [|a s IH]; intros t; cbn [String.rev_app]; [reflexivity|].
  rewrite IH, (IH (String a "")), append_assoc. reflexivity.
Qed.

Lemma rev_cons (a : ascii) (s : string) : String.rev (String a s) = String.rev s +:+ String a "".
Proof. unfold String.rev at 1. cbn [String.rev_app]. apply rev_app_append. Qed.

Lemma rev_append (s t : string) : String.rev (s +:+ t) = String.rev t +:+ String.rev s.
Proof.
  induction s as [|a s IH].
  - change ("" +:+ t) with t. now rewrite append_empty_r.
  - now rewrite append_cons, !rev_cons, IH, append_assoc.
Qed.

Lemma rev_involutive (s : string) : String.rev (String.rev s) = s.
Proof.
  induction s as [|a s IH]; [reflexivity|].
  now rewrite rev_cons, rev_append, IH.
Qed.

Lemma all_chars_append (p : ascii -> bool) (s t : string) :
  Js.all_chars p (s +:+ t) = Js.all_chars p s && Js.all_chars p t.
Proof.
  induction s as [|a s IH]; [reflexivity|].
  rewrite append_cons. cbn [Js.all_chars]. now rewrite IH, andb_assoc.
Qed.

Lemma all_chars_rev (p : ascii -> bool) (s : string) :
  Js.all_chars p (String.rev s) = Js.all_chars p s.
Proof.
  induction s as [|a s IH]; [reflexivity|].
  rewrite rev_cons, all_chars_append, IH. cbn. now rewrite andb_true_r, andb_comm.
Qed.

Lemma all_chars_impl (p q : ascii -> bool) (s : string) :
  (forall c, p c = true -> q c = true) ->
  Js.all_chars p s = true -> Js.all_chars q s = true.
Proof.
  intros Hpq. induction s as [|a s IH]; [reflexivity|]. cbn.
  intros H. apply andb_true_iff in H as [Ha Hs]. now rewrite (Hpq _ Ha), IH.
Qed.

Lemma trimStart_blanks (pad s : string) :
  Js.all_chars Js.is_space pad = true -> Js.trimStart (pad +:+ s) = Js.trimStart s.
Proof.
  induction pad as [|a pad IH]; [reflexivity|]. cbn [Js.all_chars].
  intros H. apply andb_true_iff in H as [Ha Hp].
  rewrite append_cons. cbn [Js.trimStart]. now rewrite Ha, IH.
Qed.

Lemma trimStart_solid (s : string) :
  Js.all_chars (fun c => negb (Js.is_space c)) s = true -> Js.trimStart s = s.
Proof.
  destruct s as [|a s]; [reflexivity|]. cbn.
  intros H. apply andb_true_iff in H as [Ha _].
  apply negb_true_iff in Ha. now rewrite Ha.
Qed.

(** Trimming removes the blanks around a text that holds none. *)
Lemma trim_padded (pad1 pad2 s : string) :
  Js.all_chars Js.is_space pad1 = true ->
  Js.all_chars Js.is_space pad2 = true ->
  Js.all_chars (fun c => negb (Js.is_space c)) s = true ->
  Js.trim (pad1 +:+ s +:+ pad2) = s.
Proof.
  intros H1 H2 Hs. unfold Js.trim, Js.trimEnd.
  rewrite (trimStart_blanks _ _ H1).
  destruct s as [|a s].
  - change ("" +:+ pad2) with pad2.
    replace (Js.trimStart pad2) with "".
    + reflexivity.
    + rewrite <- (append_empty_r pad2), (trimStart_blanks _ _ H2). reflexivity.
  - assert (Hfirst : Js.trimStart (String a s +:+ pad2) = String a s +:+ pad2).
    { rewrite append_cons. cbn [Js.trimStart]. cbn in Hs.
      apply andb_true_iff in Hs as [Ha _]. apply negb_true_iff in Ha. now rewrite Ha. }
    rewrite Hfirst, rev_append, trimStart_blanks by (now rewrite all_chars_rev).
    rewrite trimStart_solid by (now rewrite all_chars_rev).
    apply rev_involutive.
Qed.

Lemma trim_blanks (pad : string) :
  Js.all_chars Js.is_space pad = true -> Js.trim pad = "".
Proof.
  intros H. rewrite <- (append_empty_r pad).
  change (pad +:+ "") with (pad +:+ "" +:+ ""). now apply trim_padded.
Qed.

Lemma alnum_not_space (c : ascii) :
  Js.is_alpha c || Js.is_digit c = true -> negb (Js.is_space c) = true.
Proof. by_cases c. Qed.

Lemma password_char_not_terminator (c : ascii) :
  password_char c = true -> Js.is_line_terminator c = false.
Proof. by_cases c. Qed.

Lemma space_not_alnum (c : ascii) :
  Js.is_space c = true -> Js.is_alpha c || Js.is_digit c = false.
Proof. by_cases c. Qed.

End Strings.

(** ** Validators *)

Lemma dot_star_then_some_char (q : ascii -> bool) (s : string) :
  Js.all_chars password_char s = true ->
  Js.dot_star_then q s = some_char q s.
Proof.
  induction s as [|c rest IH]; [reflexivity|]. cbn.
  intros H. apply andb_true_iff in H as [Hc Hrest].
  destruct (q c); [reflexivity|].
  now rewrite (password_char_not_terminator _ Hc), IH.
Qed.

(** X1.  The password pattern accepts exactly the texts of at least eight
    characters, all of them letters, digits or one of the listed symbols,
    among which there is a letter and there is a digit. *)
Theorem validatePassword_meaning (password : string) :
  validatePassword password
  = Js.all_chars password_char password
    && some_char Js.is_alpha password
    && some_char Js.is_digit password
    && (8 <=? Z.of_nat (String.length password)).
Proof.
  unfold validatePassword.
  destruct (Js.all_chars password_char password) eqn:Hall.
  - now rewrite !(dot_star_then_some_char _ _ Hall), andb_true_r.
  - now rewrite andb_false_r.
Qed.

Lemma plus_then_spec (cls : ascii -> bool) (k : string -> bool) (s : string) :
  Regex.plus_then cls k s = true <->
  exists a b, s = a +:+ b /\ a <> "" /\ Js.all_chars cls a = true /\ k b = true.
Proof.
  induction s as [|c rest IH]; cbn [Regex.plus_then].
  - split; [discriminate|]. intros (a & b & Hs & Ha & _).
    destruct a; [contradiction | discriminate].
  - rewrite andb_true_iff, orb_true_iff, IH. split.
    + intros [Hc [(a & b & -> & Ha & Hall & Hk) | Hk]].
      * exists (String c a), b. repeat split; try done. cbn. now rewrite Hc.
      * exists (String c ""), rest. repeat split; try done. cbn. now rewrite Hc.
    + intros (a & b & Hs & Ha & Hall & Hk).
      destruct a as [|c' a]; [contradiction|].
      rewrite append_cons in Hs. injection Hs as <- ->.
      cbn in Hall. apply andb_true_iff in Hall as [Hc Hall].
      split; [exact Hc|]. destruct a as [|c'' a].
      * right. exact Hk.
      * left. exists (String c'' a), b. repeat split; done.
Qed.

Lemma char_then_spec (c : ascii) (k : string -> bool) (s : string) :
  Regex.char_then c k s = true <-> exists b, s = String c b /\ k b = true.
Proof.
  destruct s as [|d rest]; cbn.
  - split; [discriminate | intros (b & Hb & _); discriminate].
  - rewrite andb_true_iff. split.
    + intros [Hd Hk]. apply Ascii.eqb_eq in Hd as ->. eauto.
    + intros (b & Hb & Hk). injection Hb as -> ->. split; [apply Ascii.eqb_refl | exact Hk].
Qed.

(** X2.  The email pattern accepts exactly the texts made of a local part, an at
    sign, a domain part, a dot and a last part, the three parts non-empty
    and free of white space and at signs. *)
Theorem validateEmail_meaning (email : string) :
  validateEmail email = true <->
  exists local domain last,
    email = local +:+ "@" +:+ domain +:+ "." +:+ last
    /\ local <> "" /\ domain <> "" /\ last <> ""
    /\ Js.all_chars email_char local = true
    /\ Js.all_chars email_char domain = true
    /\ Js.all_chars email_char last = true.
Proof.
  unfold validateEmail. rewrite plus_then_spec. split.
  - intros (l & r1 & -> & Hl & Hal & H1).
    apply char_then_spec in H1 as (r2 & -> & H2).
    apply plus_then_spec in H2 as (d & r3 & -> & Hd & Had & H3).
    apply char_then_spec in H3 as (r4 & -> & H4).
    apply plus_then_spec in H4 as (t & r5 & -> & Ht & Hat & H5).
    apply String.eqb_eq in H5 as ->. rewrite append_empty_r.
    exists l, d, t. repeat split; done.
  - intros (l & d & t & -> & Hl & Hd & Ht & Hal & Had & Hat).
    exists l, ("@" +:+ d +:+ "." +:+ t). repeat split; try done.
    apply char_then_spec. exists (d +:+ "." +:+ t). split; [reflexivity|].
    apply plus_then_spec. exists d, ("." +:+ t). repeat split; try done.
    apply char_then_spec. exists t. split; [reflexivity|].
    apply plus_then_spec. exists t, "". repeat split; try done.
    now rewrite append_empty_r.
Qed.

Example emails :
  validateEmail "asha@lnd.ac.in" = true
  /\ validateEmail "asha@lnd" = false
  /\ validateEmail "asha kumar@lnd.in" = false
  /\ validateEmail "a@b@c.in" = false
  /\ validateEmail "asha@.in" = false.
Proof. repeat split. Qed.

(** ** Timers *)

(** A timer that has just come due fires after everything else that is due. *)
Lemma fire_enqueue_due (due : Z) (t : Task) (q : list (Z * Task)) : forall p,
  fire due (enqueue due t q) p
  = (run_task t (fire due q p).1, (fire due q p).2).
Proof.
  induction q as [|[d t'] rest IH]; intros p; cbn.
  - now rewrite Z.leb_refl.
  - destruct (d <=? due) eqn:Hd; cbn.
    + rewrite Hd. apply IH.
    + now rewrite Z.leb_refl, Hd.
Qed.

(** A timer that is not due yet changes nothing of what fires. *)
Lemma fire_enqueue_later (target due : Z) (t : Task) (q : list (Z * Task)) : forall p,
  target < due ->
  (fire target (enqueue due t q) p).1 = (fire target q p).1.
Proof.
  intros p Hlt. revert p.
  assert (Hdue : (due <=? target) = false) by (apply Z.leb_gt; lia).
  induction q as [|[d t'] rest IH]; intros p; cbn.
  - now rewrite Hdue.
  - destruct (d <=? due) eqn:Hd; cbn.
    + destruct (d <=? target); [apply IH | reflexivity].
    + rewrite Hdue.
      replace (d <=? target) with false; [reflexivity|].
      symmetry. apply Z.leb_gt. apply Z.leb_gt in Hd. lia.
Qed.

Lemma fire_location (target : Z) (q : list (Z * Task)) : forall p,
  forallb (fun e => negb (is_redirect e.2)) q = true ->
  location_href (fire target q p).1 = location_href p.
Proof.
  induction q as [|[d t] rest IH]; intros p; cbn; [reflexivity|].
  intros H. apply andb_true_iff in H as [Ht Hrest].
  destruct (d <=? target); [|reflexivity].
  rewrite (IH _ Hrest). destruct t; try reflexivity. discriminate Ht.
Qed.

Lemma advance_page (dt : Z) (w : World) :
  page (advance dt w) = (fire (clock w + dt) (timers w) (page w)).1.
Proof. unfold advance. now destruct (fire _ _ _). Qed.

(** ** Login *)

Section Login.

Variable host : Host.

Local Ltac run :=
  unfold handleLogin_settle, handleSignup_settle, makeApiCall_settle, on_failure,
    showMessage, showLoadingState;
  unfold try_catch, mbind, M_bind, lift, mret, M_ret, throw, update, setTimeout, gets;
  cbn beta iota.

Local Ltac branch :=
  match goal with
  | |- context [match ?x with _ => _ end] =>
      lazymatch x with
      | context [match _ with _ => _ end] => fail
      | _ => destruct x eqn:?
      end
  end.

Local Ltac cases := repeat (branch; cbn -[loading_state]).

Lemma get_total_after (v r : JsVal) (key : string) :
  get host v key = Ok r -> forall key', exists r', get host v key' = Ok r'.
Proof. destruct v; simpl; intros H key'; try discriminate; eauto. Qed.

Lemma get_optional_ok (v : JsVal) (key : string) :
  exists r, get_optional host v key = Ok r.
Proof. destruct v; simpl; eauto. Qed.

Lemma accepted_body_inv (outcome : FetchOutcome) (body : JsVal) :
  accepted_body host outcome = Some body ->
  exists r success,
    outcome = FetchResponded r /\ resp_json r = Ok body
    /\ response_ok r = true
    /\ get host body "success" = Ok success /\ truthy success = true.
Proof.
  unfold accepted_body. destruct outcome as [e|r]; [discriminate|].
  destruct (resp_json r) as [b|] eqn:Hj; [|discriminate].
  destruct (get host b "success") as [s|] eqn:Hs; [|discriminate].
  destruct (response_ok r) eqn:Hok; [|discriminate].
  destruct (truthy s) eqn:Ht; [|discriminate].
  intros H. injection H as <-. exists r, s. auto.
Qed.

Lemma handleLogin_settle_requests (outcome : FetchOutcome) (w : World) :
  requests (page (handleLogin_settle host outcome w).1) = requests (page w).
Proof. run. cases; reflexivity. Qed.

Lemma handleLogin_settle_location (outcome : FetchOutcome) (w : World) :
  location_href (page (handleLogin_settle host outcome w).1) = location_href (page w).
Proof. run. cases; reflexivity. Qed.

Lemma handleLogin_settle_clock (outcome : FetchOutcome) (w : World) :
  clock (handleLogin_settle host outcome w).1 = clock w.
Proof. run. cases; reflexivity. Qed.

Lemma handleLogin_submit_accepted (w : World) :
  login_accepted (page w) = true ->
  handleLogin_submit w
  = Pending (mkWorld (add_request (login_request (page w))
                        (set_login (set_loginButton (loading_state true)) (page w)))
                     (clock w) (timers w)).
Proof.
  unfold login_accepted, handleLogin_submit. intros H.
  apply andb_true_iff in H as [H Hv]. apply andb_true_iff in H as [Hr Hp].
  rewrite Hr, Hp, Hv. reflexivity.
Qed.

Lemma handleLogin_submit_rejected (w : World) :
  login_accepted (page w) = false ->
  handleLogin_submit w
  = Done (showMessage
            (if nonempty (loginData (page w)).1 && nonempty (loginData (page w)).2
             then "Invalid registration number format"
             else "Please fill in all required fields") "error" w).1.
Proof.
  unfold login_accepted, handleLogin_submit.
  destruct (nonempty (loginData (page w)).1), (nonempty (loginData (page w)).2);
    cbn; try reflexivity.
  intros ->. reflexivity.
Qed.

(** X3.  A login submission sends exactly one request when the registration
    number, trimmed, and the password are filled in and the number has the
    required form, and none otherwise, whatever the network answers. *)
Theorem login_sends_one_request (outcome : FetchOutcome) (w : World) :
  requests (page (handleLogin host outcome w))
  = requests (page w)
    ++ (if login_accepted (page w) then [login_request (page w)] else []).
Proof.
  unfold handleLogin. destruct (login_accepted (page w)) eqn:Hacc.
  - rewrite (handleLogin_submit_accepted _ Hacc), handleLogin_settle_requests.
    reflexivity.
  - rewrite (handleLogin_submit_rejected _ Hacc). cbn. now rewrite app_nil_r.
Qed.

(** X4.  The token store after a login submission: the token of the response is
    written, as a string, when the submission was sent and the response is a
    success that carries a truthy token with a string form; in every other
    case the store is untouched. *)
Theorem login_store_effect (outcome : FetchOutcome) (w : World) :
  localStorage (page (handleLogin host outcome w))
  = match granted_token host outcome with
    | Some token =>
        if login_accepted (page w)
        then <["token" := token]> (localStorage (page w))
        else localStorage (page w)
    | None => localStorage (page w)
    end.
Proof.
  unfold handleLogin. destruct (login_accepted (page w)) eqn:Hacc.
  - rewrite (handleLogin_submit_accepted _ Hacc).
    unfold granted_token, accepted_body.
    destruct outcome as [e|r].
    { run. cases; reflexivity. }
    destruct (resp_json r) as [body|e] eqn:Hj.
    2:{ run. rewrite Hj. cases; reflexivity. }
    destruct (get host body "success") as [s|e] eqn:Hs.
    2:{ run. rewrite Hj. cbn. destruct (response_ok r); cbn.
        - rewrite Hs. cases; reflexivity.
        - cases; reflexivity. }
    destruct (response_ok r) eqn:Hok; cbn [andb].
    2:{ run. rewrite Hj, Hok. cbn. cases; reflexivity. }
    destruct (truthy s) eqn:Ht.
    2:{ run. rewrite Hj, Hok. cbn. rewrite Hs, Ht. cases; reflexivity. }
    destruct (get_total_after _ _ _ Hs "token") as [tok Htok].
    destruct (get_total_after _ _ _ Hs "user") as [user Hu].
    destruct (get_optional_ok user "name") as [nm Hn].
    destruct (get_total_after _ _ _ Hs "redirectUrl") as [url Hr].
    rewrite Htok. run. rewrite Hj, Hok. cbn. rewrite Hs, Ht, Htok. unfold to_text.
    destruct (truthy tok); cbn; [destruct (ToString tok); cbn|];
      rewrite ?Hu, ?Hn; cbn;
      try (destruct (ToString (or_else nm (JStr "User"))); cbn; rewrite ?Hr; cbn);
      cases; reflexivity.
  - rewrite (handleLogin_submit_rejected _ Hacc).
    destruct (granted_token host outcome); reflexivity.
Qed.

Lemma handleLogin_settle_success
    (outcome : FetchOutcome) (body : JsVal) (text : string) (w : World) :
  greeting host outcome = Some (body, text) ->
  let after := (handleLogin_settle host outcome w).1 in
  timers after
  = enqueue (clock w + 1500) (TaskRedirect (redirect_target host body))
      (enqueue (clock w + 5000) TaskHideMessage (timers w))
  /\ message (page after)
     = mkMessage text "message success" "fas fa-check-circle" true.
Proof.
  unfold greeting. destruct (accepted_body host outcome) as [b|] eqn:H; [|discriminate].
  destruct (accepted_body_inv _ _ H) as (r & s & -> & Hj & Hok & Hs & Ht).
  destruct (get_total_after _ _ _ Hs "token") as [tok Htok].
  destruct (get_total_after _ _ _ Hs "user") as [user Hu].
  destruct (get_optional_ok user "name") as [nm Hn].
  destruct (get_total_after _ _ _ Hs "redirectUrl") as [url Hr].
  unfold token_kept, welcome_text, greeted_name, redirect_target.
  rewrite Htok, Hu, Hn.
  destruct (truthy tok) eqn:Htt; cbn [negb orb].
  - destruct (ToString tok) as [stored|] eqn:Hst; [|discriminate].
    destruct (ToString (or_else nm (JStr "User"))) as [shown|] eqn:Hsh; [|discriminate].
    intros Hg. injection Hg as <- <-. rewrite Hr.
    run. rewrite Hj, Hok. cbn. rewrite Hs, Ht, Htok. unfold to_text.
    rewrite Htt, Hst. cbn. rewrite Hu, Hn. cbn. rewrite Hsh. cbn. rewrite Hr.
    split; reflexivity.
  - destruct (ToString (or_else nm (JStr "User"))) as [shown|] eqn:Hsh; [|discriminate].
    intros Hg. injection Hg as <- <-. rewrite Hr.
    run. rewrite Hj, Hok. cbn. rewrite Hs, Ht, Htok. unfold to_text.
    rewrite Htt. cbn. rewrite Hu, Hn. cbn. rewrite Hsh. cbn. rewrite Hr.
    split; reflexivity.
Qed.

Lemma handleLogin_settle_failure (outcome : FetchOutcome) (w : World) :
  greeting host outcome = None ->
  let after := (handleLogin_settle host outcome w).1 in
  timers after = enqueue (clock w + 5000) TaskHideMessage (timers w)
  /\ msg_shown (message (page after)) = true
  /\ msg_class (message (page after)) = "message error"
  /\ msg_icon (message (page after)) = "fas fa-exclamation-circle".
Proof.
  unfold greeting, accepted_body. destruct outcome as [e|r].
  { intros _. run. cases; repeat split. }
  destruct (resp_json r) as [body|e] eqn:Hj.
  2:{ intros _. run. rewrite Hj. cases; repeat split. }
  destruct (response_ok r) eqn:Hok.
  2:{ intros _. run. rewrite Hj, Hok. cbn. cases; repeat split. }
  destruct (get host body "success") as [s|e] eqn:Hs.
  2:{ intros _. run. rewrite Hj, Hok. cbn. rewrite Hs. cases; repeat split. }
  cbn [andb]. destruct (truthy s) eqn:Ht.
  2:{ intros _. run. rewrite Hj, Hok. cbn. rewrite Hs, Ht. cases; repeat split. }
  destruct (get_total_after _ _ _ Hs "token") as [tok Htok].
  destruct (get_total_after _ _ _ Hs "user") as [user Hu].
  destruct (get_optional_ok user "name") as [nm Hn].
  unfold token_kept, welcome_text, greeted_name. rewrite Htok, Hu, Hn.
  intros Hg. run. rewrite Hj, Hok. cbn. rewrite Hs, Ht, Htok. unfold to_text.
  destruct (truthy tok); cbn in *.
  - destruct (ToString tok); cbn in *; [|cases; repeat split].
    rewrite Hu, Hn. cbn.
    destruct (ToString (or_else nm (JStr "User"))); [discriminate Hg|].
    cbn. cases; repeat split.
  - rewrite Hu, Hn. cbn.
    destruct (ToString (or_else nm (JStr "User"))); [discriminate Hg|].
    cbn. cases; repeat split.
Qed.

(** The text shown when a conversion to a string fails inside the [try]. *)
Lemma handleLogin_settle_inconvertible (outcome : FetchOutcome) (body : JsVal) (w : World) :
  accepted_body host outcome = Some body ->
  greeting host outcome = None ->
  msg_text (message (page (handleLogin_settle host outcome w).1))
  = failure_text "Login failed. Please try again." (type_error host NotPrimitive).
Proof.
  intros H. unfold greeting. rewrite H.
  destruct (accepted_body_inv _ _ H) as (r & s & -> & Hj & Hok & Hs & Ht).
  destruct (get_total_after _ _ _ Hs "token") as [tok Htok].
  destruct (get_total_after _ _ _ Hs "user") as [user Hu].
  destruct (get_optional_ok user "name") as [nm Hn].
  unfold token_kept, welcome_text, greeted_name, failure_text. rewrite Htok, Hu, Hn.
  intros Hg. run. rewrite Hj, Hok. cbn. rewrite Hs, Ht, Htok. unfold to_text.
  destruct (truthy tok); cbn in *.
  - destruct (ToString tok); cbn in *; [|cases; reflexivity].
    rewrite Hu, Hn. cbn.
    destruct (ToString (or_else nm (JStr "User"))); [discriminate Hg|].
    cbn. cases; reflexivity.
  - rewrite Hu, Hn. cbn.
    destruct (ToString (or_else nm (JStr "User"))); [discriminate Hg|].
    cbn. cases; reflexivity.
Qed.

(** X5.  A successful login greets the user by the name the server sent (User
    when it sent none), leaves the location alone at first, and 1500
    milliseconds later navigates to the address the server sent, or to
    dashboard.html when it sent none.  Name and address are taken as
    strings; an address that has no string form leaves the location as it
    is. *)
Theorem login_success_outcome
    (outcome : FetchOutcome) (body : JsVal) (text : string) (w : World) :
  login_accepted (page w) = true ->
  greeting host outcome = Some (body, text) ->
  let after := handleLogin host outcome w in
  welcome_text host body = Some text
  /\ message (page after)
     = mkMessage text "message success" "fas fa-check-circle" true
  /\ location_href (page after) = location_href (page w)
  /\ (forall url, ToString (redirect_target host body) = Some url ->
        location_href (page (advance 1500 after)) = url)
  /\ (forall dt,
        dt < 1500 \/ (dt = 1500 /\ ToString (redirect_target host body) = None) ->
        forallb (fun e => negb (is_redirect e.2)) (timers w) = true ->
        location_href (page (advance dt after)) = location_href (page w)).
Proof.
  intros Hacc Hbody. cbn zeta. unfold handleLogin.
  rewrite (handleLogin_submit_accepted _ Hacc).
  set (w0 := mkWorld _ (clock w) (timers w)).
  destruct (handleLogin_settle_success outcome body text w0 Hbody) as [Htimers Hmsg].
  pose proof (handleLogin_settle_location outcome w0) as Hloc.
  pose proof (handleLogin_settle_clock outcome w0) as Hclock.
  cbn zeta in *. change (clock w0) with (clock w) in *.
  change (timers w0) with (timers w) in *.
  change (location_href (page w0)) with (location_href (page w)) in Hloc.
  split.
  { unfold greeting in Hbody.
    destruct (accepted_body host outcome) as [b|]; [|discriminate].
    destruct (token_kept host b); [|discriminate].
    destruct (welcome_text host b) as [t|] eqn:Hw; [|discriminate].
    injection Hbody as <- <-. exact Hw. }
  split; [exact Hmsg|]. split; [exact Hloc|]. split.
  - intros url Hurl.
    rewrite advance_page, Hclock, Htimers, fire_enqueue_due. cbn [fst run_task].
    now rewrite Hurl.
  - intros dt [Hdt | [-> Hnone]] Hq.
    + rewrite advance_page, Hclock, Htimers, !fire_enqueue_later by lia.
      now rewrite fire_location.
    + rewrite advance_page, Hclock, Htimers, fire_enqueue_due. cbn [fst run_task].
      rewrite Hnone, fire_enqueue_later by lia. now rewrite fire_location.
Qed.

(** X6.  A login that is sent and does not succeed, for whatever reason, shows an
    error message, schedules nothing but the hiding of that message, and so
    never navigates; when the server answered with a falsy [success], the
    text is the message of the server, or Login failed if it sent none.  A
    token, a user name or a message that has no string form makes the login
    fail with the text of the engine's TypeError. *)
Theorem login_failure_outcome (outcome : FetchOutcome) (w : World) :
  login_accepted (page w) = true ->
  greeting host outcome = None ->
  let after := handleLogin host outcome w in
  timers after = enqueue (clock w + 5000) TaskHideMessage (timers w)
  /\ msg_shown (message (page after)) = true
  /\ msg_class (message (page after)) = "message error"
  /\ (forall dt,
        forallb (fun e => negb (is_redirect e.2)) (timers w) = true ->
        location_href (page (advance dt after)) = location_href (page w))
  /\ (forall r body success m,
        outcome = FetchResponded r -> response_ok r = true ->
        resp_json r = Ok body -> get host body "success" = Ok success ->
        truthy success = false ->
        get host body "message" = Ok m ->
        msg_text (message (page after))
        = match ToString (or_else m (JStr "Login failed")) with
          | Some text => text
          | None => failure_text "Login failed. Please try again."
                      (type_error host NotPrimitive)
          end)
  /\ (forall body,
        accepted_body host outcome = Some body ->
        msg_text (message (page after))
        = failure_text "Login failed. Please try again."
            (type_error host NotPrimitive)).
Proof.
  intros Hacc Hbody. cbn zeta. unfold handleLogin.
  rewrite (handleLogin_submit_accepted _ Hacc).
  set (w0 := mkWorld _ (clock w) (timers w)).
  destruct (handleLogin_settle_failure outcome w0 Hbody) as (Htimers & Hshown & Hclass & _).
  pose proof (handleLogin_settle_location outcome w0) as Hloc.
  pose proof (handleLogin_settle_clock outcome w0) as Hclock.
  cbn zeta in *. change (clock w0) with (clock w) in *.
  change (timers w0) with (timers w) in *.
  change (location_href (page w0)) with (location_href (page w)) in Hloc.
  split; [exact Htimers|]. split; [exact Hshown|]. split; [exact Hclass|].
  split; [|split].
  - intros dt Hq. rewrite advance_page, Htimers, fire_location; [exact Hloc|].
    clear -Hq. induction (timers w) as [|[d t] rest IH]; cbn in *.
    + reflexivity.
    + apply andb_true_iff in Hq as [Ht Hrest].
      destruct (d <=? clock w + 5000); cbn; rewrite ?Ht, ?IH; auto.
  - intros r b s m -> Hok Hj Hs Ht Hm. unfold failure_text.
    run. rewrite Hj, Hok. cbn. rewrite Hs, Ht, Hm. unfold to_text.
    destruct (ToString (or_else m (JStr "Login failed"))); cbn; cases; reflexivity.
  - intros body Hb. now apply handleLogin_settle_inconvertible with (body := body).
Qed.

Lemma marked_error (classes : gset string) :
  "error" ∈ classes ∖ {["error"; "success"]} ∪ {["error"]}.
Proof. apply elem_of_union_r, elem_of_singleton. reflexivity. Qed.

Lemma marked_success (classes : gset string) :
  "success" ∈ classes ∖ {["error"; "success"]} ∪ {["success"]}.
Proof. apply elem_of_union_r, elem_of_singleton. reflexivity. Qed.

Lemma not_marked_success (classes : gset string) :
  "success" ∉ classes ∖ {["error"; "success"]} ∪ {["error"]}.
Proof.
  intros H. apply elem_of_union in H as [H|H].
  - apply elem_of_difference in H as [_ H]. apply H.
    apply elem_of_union_r, elem_of_singleton. reflexivity.
  - apply elem_of_singleton in H. discriminate H.
Qed.

Lemma not_marked_error (classes : gset string) :
  "error" ∉ classes ∖ {["error"; "success"]} ∪ {["success"]}.
Proof.
  intros H. apply elem_of_union in H as [H|H].
  - apply elem_of_difference in H as [_ H]. apply H.
    apply elem_of_union_l, elem_of_singleton. reflexivity.
  - apply elem_of_singleton in H. discriminate H.
Qed.

Lemma unmarked (classes : gset string) (mark : string) :
  mark = "error" \/ mark = "success" -> mark ∉ classes ∖ {["error"; "success"]}.
Proof.
  intros Hm H. apply elem_of_difference in H as [_ H]. apply H.
  destruct Hm as [-> | ->].
  - apply elem_of_union_l, elem_of_singleton. reflexivity.
  - apply elem_of_union_r, elem_of_singleton. reflexivity.
Qed.

Lemma blanks_not_alnum (pad : string) :
  pad <> "" -> Js.all_chars Js.is_space pad = true ->
  Js.all_chars (fun c => Js.is_alpha c || Js.is_digit c) pad = false.
Proof.
  destruct pad as [|c pad]; [contradiction|]. cbn. intros _ H.
  apply andb_true_iff in H as [Hc _]. now rewrite (space_not_alnum _ Hc).
Qed.

(** X7.  White space around the registration number is dropped before the number
    is checked and sent: a well-formed number typed with blanks around it is
    sent without them.  The blur feedback judges the text as typed, blanks
    included, and marks the same field as an error. *)
Theorem login_trims_registration_number
    (outcome : FetchOutcome) (w : World) (pad1 s pad2 : string) (f : FieldWidget) :
  value (loginRegNo (login (page w))) = pad1 +:+ s +:+ pad2 ->
  Js.all_chars Js.is_space pad1 = true ->
  Js.all_chars Js.is_space pad2 = true ->
  validateRegistrationNumber s = true ->
  value (loginPassword (login (page w))) <> "" ->
  requests (page (handleLogin host outcome w))
  = requests (page w)
    ++ [mkRequest "https://setu.fit/api/auth/login" "POST"
          [("Content-Type", "application/json")]
          (Some (JObj [("regNo", JStr s);
                       ("password", JStr (value (loginPassword (login (page w)))))]))]
  /\ (w_value f = pad1 +:+ s +:+ pad2 -> pad1 <> "" \/ pad2 <> "" ->
      "error" ∈ w_classes (blur_registrationNumber f)
      /\ "success" ∉ w_classes (blur_registrationNumber f)).
Proof.
  intros Hv H1 H2 Hs Hp.
  assert (Halnum : Js.all_chars (fun c => Js.is_alpha c || Js.is_digit c) s = true).
  { unfold validateRegistrationNumber in Hs. now apply andb_true_iff in Hs as [Hs _]. }
  assert (Hsolid : Js.all_chars (fun c => negb (Js.is_space c)) s = true).
  { apply (all_chars_impl _ _ _ alnum_not_space Halnum). }
  assert (Htrim : Js.trim (pad1 +:+ s +:+ pad2) = s) by now apply trim_padded.
  assert (Hne : s <> "").
  { intros ->. discriminate Hs. }
  split.
  - unfold handleLogin.
    assert (Hacc : login_accepted (page w) = true).
    { unfold login_accepted, loginData. cbn [fst snd]. rewrite Hv, Htrim, Hs.
      rewrite andb_true_r. apply andb_true_iff. split; now apply nonempty_true. }
    rewrite (handleLogin_submit_accepted _ Hacc), handleLogin_settle_requests.
    unfold login_request. rewrite Hv, Htrim. reflexivity.
  - intros Hf Hpad. unfold blur_registrationNumber, validateField.
    rewrite Hf, Htrim.
    destruct (String.eqb_spec s ""); [contradiction|].
    assert (Hbad : validateRegistrationNumber (pad1 +:+ s +:+ pad2) = false).
    { unfold validateRegistrationNumber.
      rewrite !all_chars_append, Halnum.
      destruct Hpad as [Hpad|Hpad]; rewrite (blanks_not_alnum _ Hpad) by assumption;
        cbn; rewrite ?andb_false_r; reflexivity. }
    rewrite Hbad. cbn. split; [apply marked_error | apply not_marked_success].
Qed.

(** X8.  A registration number made of white space only counts as missing, and so
    does an empty password: the submission stops at the first check, with
    its message and nothing else. *)
Theorem login_blank_rejected (outcome : FetchOutcome) (w : World) :
  Js.all_chars Js.is_space (value (loginRegNo (login (page w)))) = true
  \/ value (loginPassword (login (page w))) = "" ->
  handleLogin host outcome w
  = (showMessage "Please fill in all required fields" "error" w).1.
Proof.
  intros H. unfold handleLogin.
  assert (Hempty : nonempty (loginData (page w)).1 && nonempty (loginData (page w)).2 = false).
  { unfold loginData. cbn [fst snd]. destruct H as [H|H].
    - now rewrite (trim_blanks _ H).
    - rewrite H. apply andb_false_r. }
  assert (Hacc : login_accepted (page w) = false).
  { unfold login_accepted. now rewrite Hempty. }
  rewrite (handleLogin_submit_rejected _ Hacc), Hempty. reflexivity.
Qed.

End Login.

Lemma login_success_example :
  let after := handleLogin Fixture.host Sample.granted Fixture.ready in
  msg_text (message (page after)) = "Welcome back, Asha!"
  /\ location_href (page after) = "login.html"
  /\ location_href (page (advance 1500 after)) = "home.html".
Proof.
  destruct (login_success_outcome Fixture.host Sample.granted
              (JObj [("success", JBool true); ("token", JStr "xyz");
                     ("user", JObj [("name", JStr "Asha")]);
                     ("redirectUrl", JStr "home.html")])
              "Welcome back, Asha!"
              Fixture.ready eq_refl eq_refl) as (_ & Hm & Hl & Hr & _).
  cbn zeta in *. split; [now rewrite Hm | split; [exact Hl | now apply Hr]].
Defined.

Lemma login_failure_example :
  let after := handleLogin Fixture.host Sample.refused Fixture.ready in
  msg_text (message (page after)) = "Wrong password"
  /\ timers after = [(5000, TaskHideMessage)]
  /\ location_href (page (advance 60000 after)) = "login.html".
Proof.
  destruct (login_failure_outcome Fixture.host Sample.refused Fixture.ready
              eq_refl eq_refl) as (Ht & _ & _ & Hl & Hm & _).
  cbn zeta in *. split; [|split].
  - apply (Hm (mkResponse 200 (Ok (JObj [("success", JBool false);
                                         ("message", JStr "Wrong password")])))
              (JObj [("success", JBool false); ("message", JStr "Wrong password")])
              (JBool false) (JStr "Wrong password")); reflexivity.
  - exact Ht.
  - apply Hl. reflexivity.
Defined.

(** A user name that has no string form: the token is stored, and the login
    ends as a failure that shows the engine's message and does not
    navigate. *)
Example login_name_without_text :
  let after := handleLogin Fixture.host
                 (Fixture.ok_response
                    (JObj [("success", JBool true); ("token", JStr "xyz");
                           ("user", JObj [("name", JObj [("toString", JNull)])])]))
                 Fixture.ready in
  gettoken (page after) = Some "xyz"
  /\ message (page after) = error_shown "Cannot convert object to primitive value"
  /\ timers after = [(5000, TaskHideMessage)].
Proof. repeat split. Qed.

Lemma login_trims_example :
  requests (page (handleLogin Fixture.host Sample.granted Sample.padded_login))
  = [mkRequest "https://setu.fit/api/auth/login" "POST"
       [("Content-Type", "application/json")]
       (Some (JObj [("regNo", JStr "AB1234"); ("password", JStr "abc12345")]))]
  /\ "error" ∈ w_classes (blur_registrationNumber (Sample.untouched_widget "  AB1234 ")).
Proof.
  destruct (login_trims_registration_number Fixture.host Sample.granted
              Sample.padded_login "  " "AB1234" " "
              (Sample.untouched_widget "  AB1234 ")) as [Hreq Hblur];
    try reflexivity; [discriminate|].
  split; [exact Hreq|]. apply Hblur; [reflexivity | left; discriminate].
Defined.

Lemma login_blank_example :
  msg_text (message (page (handleLogin Fixture.host Sample.granted Sample.blank_number_login)))
  = "Please fill in all required fields"
  /\ requests (page (handleLogin Fixture.host Sample.granted Sample.blank_number_login)) = [].
Proof.
  rewrite (login_blank_rejected Fixture.host Sample.granted Sample.blank_number_login
             (or_introl eq_refl)).
  split; reflexivity.
Defined.

(** ** Signup *)

Lemma first_failure_valid (checks : list (bool * string)) :
  isValid (first_failure checks) = true -> forallb fst checks = true.
Proof.
  induction checks as [|[[] msg] rest IH]; cbn; intros H; try discriminate H; auto.
Qed.

Lemma switchToLogin_result (p : Page) :
  loginForm_active (switchToLogin p) = true
  /\ signupForm_active (switchToLogin p) = false
  /\ msg_shown (message (switchToLogin p)) = false
  /\ sel_disabled (department (signup (switchToLogin p))) = true
  /\ sel_options (department (signup (switchToLogin p))) = [placeholder]
  /\ value (name (signup (switchToLogin p))) = defaultValue (name (signup p))
  /\ value (regNumber (signup (switchToLogin p))) = defaultValue (regNumber (signup p))
  /\ value (signupPassword (signup (switchToLogin p)))
     = defaultValue (signupPassword (signup p))
  /\ value (confirmPassword (signup (switchToLogin p)))
     = defaultValue (confirmPassword (signup p)).
Proof. repeat split. Qed.

Lemma reset_field_twice (f : option Field) :
  reset_field <$> (reset_field <$> f) = reset_field <$> f.
Proof. now destruct f. Qed.

(** A timer that fires changes no default of the signup form. *)
Lemma run_task_defaults (t : Task) (p : Page) :
  signup_defaults (signup (run_task t p)) = signup_defaults (signup p).
Proof.
  by_task t; try reflexivity.
  unfold signup_defaults. cbn. now rewrite !reset_field_twice.
Qed.

Lemma fire_defaults (target : Z) (q : list (Z * Task)) : forall p,
  signup_defaults (signup (fire target q p).1) = signup_defaults (signup p).
Proof.
  induction q as [|[d t] rest IH]; intros p; cbn; [reflexivity|].
  destruct (d <=? target); [|reflexivity].
  now rewrite IH, run_task_defaults.
Qed.

Lemma switchToLogin_resets (origin : SignupForm) (p : Page) :
  signup_defaults (signup p) = signup_defaults origin ->
  signup_reset_from origin (signup (switchToLogin p)).
Proof.
  unfold signup_defaults, signup_reset_from. intros H.
  repeat match goal with
         | E : (_, _) = (_, _) |- _ => apply pair_equal_spec in E; destruct E
         end.
  cbn. repeat split; assumption.
Qed.

Section Signup.

Variable host : Host.

Local Ltac run :=
  unfold handleLogin_settle, handleSignup_settle, makeApiCall_settle, on_failure,
    showMessage, showLoadingState;
  unfold try_catch, mbind, M_bind, lift, mret, M_ret, throw, update, setTimeout, gets;
  cbn beta iota.

Local Ltac branch :=
  match goal with
  | |- context [match ?x with _ => _ end] =>
      lazymatch x with
      | context [match _ with _ => _ end] => fail
      | _ => destruct x eqn:?
      end
  end.

Local Ltac cases := repeat (branch; cbn -[loading_state]).

Lemma handleSignup_settle_requests (outcome : FetchOutcome) (w : World) :
  requests (page (handleSignup_settle host outcome w).1) = requests (page w).
Proof. run. cases; reflexivity. Qed.

Lemma handleSignup_settle_clock (outcome : FetchOutcome) (w : World) :
  clock (handleSignup_settle host outcome w).1 = clock w.
Proof. run. cases; reflexivity. Qed.

Lemma handleSignup_settle_defaults (outcome : FetchOutcome) (w : World) :
  signup_defaults (signup (page (handleSignup_settle host outcome w).1))
  = signup_defaults (signup (page w)).
Proof. run. cases; reflexivity. Qed.

Lemma handleSignup_settle_success (outcome : FetchOutcome) (body : JsVal) (w : World) :
  accepted_body host outcome = Some body ->
  let after := (handleSignup_settle host outcome w).1 in
  timers after
  = enqueue (clock w + 2000) TaskSwitchToLogin
      (enqueue (clock w + 5000) TaskHideMessage (timers w))
  /\ message (page after)
     = mkMessage "Account created successfully! You can now sign in."
                 "message success" "fas fa-check-circle" true.
Proof.
  intros H. unfold accepted_body in H. destruct outcome as [e|r]; [discriminate|].
  destruct (resp_json r) as [b|] eqn:Hj; [|discriminate].
  destruct (get host b "success") as [s|] eqn:Hs; [|discriminate].
  destruct (response_ok r) eqn:Hok; [|discriminate].
  destruct (truthy s) eqn:Ht; [|discriminate].
  run. rewrite Hj, Hok. cbn. rewrite Hs, Ht. split; reflexivity.
Qed.

Lemma handleSignup_submit_pending_inv (w w' : World) :
  handleSignup_submit host w = Pending w' ->
  validateSignupData host (signupData (page w)) (page w) = Ok (mkValidation true None)
  /\ w' = mkWorld (add_request
                     (makeApiCall_request "/api/auth/register" "POST"
                        (dataToSend (signupData (page w))))
                     (set_signup (set_signupButton (loading_state true)) (page w)))
                  (clock w) (timers w).
Proof.
  unfold handleSignup_submit.
  destruct (validateSignupData host (signupData (page w)) (page w)) as [r|] eqn:Hv;
    [|discriminate].
  destruct (isValid r) eqn:Hr; cbn; [|discriminate].
  intros H. injection H as <-. split; [|reflexivity].
  rewrite (validateSignupData_order _ _ _ _ Hv) in *.
  unfold signup_checks in *. cbn in *.
  repeat match goal with
         | |- context [if ?b then _ else _] => destruct b; cbn in *; try discriminate
         end.
  reflexivity.
Qed.

(** X9.  A registration request is sent only with data that passed all six
    checks: every required field is filled, the registration number and the
    passing year and the password are well-formed, the number is not among
    the cached users, and the password equals its confirmation.  The body
    carries the form data without the confirmation, and no other request is
    sent whatever the network answers. *)
Theorem signup_request_is_validated (outcome : FetchOutcome) (w w' : World) :
  handleSignup_submit host w = Pending w' ->
  let d := signupData (page w) in
  requests (page (handleSignup host outcome w))
  = requests (page w)
    ++ [mkRequest "https://setu.fit/api/auth/register" "POST"
          [("Content-Type", "application/json")] (Some (dataToSend d))]
  /\ get host (dataToSend d) "confirmPassword" = Ok JUndefined
  /\ get host (dataToSend d) "password" = Ok (JStr (d_confirmPassword d))
  /\ required_present d = true
  /\ validateRegistrationNumber (d_regNo d) = true
  /\ duplicate_found host d (page w) = false
  /\ validatePassingYear (d_passingYear d) = true
  /\ validatePassword (d_password d) = true.
Proof.
  intros Hsub. cbn zeta.
  destruct (handleSignup_submit_pending_inv _ _ Hsub) as [Hv ->].
  pose proof (validateSignupData_order _ _ _ _ Hv) as Hord.
  assert (Hall : forallb fst (signup_checks
             (duplicate_found host (signupData (page w)) (page w))
             (signupData (page w))) = true).
  { apply first_failure_valid. now rewrite <- Hord. }
  unfold signup_checks in Hall. cbn in Hall.
  repeat (apply andb_true_iff in Hall as [? Hall]).
  match goal with H : String.eqb _ _ = true |- _ => apply String.eqb_eq in H; rename H into Heq end.
  match goal with H : negb _ = true |- _ => apply negb_true_iff in H end.
  split.
  { unfold handleSignup. rewrite Hsub, handleSignup_settle_requests. reflexivity. }
  split; [reflexivity|]. split; [cbn; now rewrite Heq|].
  repeat split; assumption.
Qed.

(** X10.  When the users text in storage is not the JSON of a list, a submission
    whose fields are filled and whose registration number is well-formed
    ends in an uncaught error: nothing is shown, nothing is sent, and the
    page is left exactly as it was. *)
Theorem signup_unreadable_cache (outcome : FetchOutcome) (w : World) (text : string) :
  required_present (signupData (page w)) = true ->
  validateRegistrationNumber (d_regNo (signupData (page w))) = true ->
  localStorage (page w) !! "users" = Some text ->
  text <> "" ->
  (forall items, JSON_parse host text <> Ok (JArr items)) ->
  handleSignup host outcome w = w
  /\ exists e, handleSignup_submit host w = Crashed w e.
Proof.
  intros Hreq Hreg Hl Hne Hparse.
  assert (Hv : exists e, validateSignupData host (signupData (page w)) (page w) = Throw e).
  { unfold validateSignupData. rewrite required_present_negb, Hreq, Hreg. cbn.
    unfold getStoredUsers. rewrite Hl.
    apply nonempty_true in Hne. rewrite Hne.
    destruct (JSON_parse host text) as [v|e] eqn:Hp; [|eauto].
    destruct v; cbn; eauto. now destruct (Hparse items). }
  destruct Hv as [e Hv].
  unfold handleSignup, handleSignup_submit. rewrite Hv. split; [reflexivity | eauto].
Qed.

(** X11.  A successful registration shows the account-created message and, 2000
    milliseconds later, switches to the login form: the login form is the
    active one, the signup inputs are back at their defaults (every text
    input, the two career inputs included, and the course menu), the
    department dropdown is disabled with only its placeholder, and the
    message is hidden again, 3 seconds before its own timer. *)
Theorem signup_success_switches_to_login
    (outcome : FetchOutcome) (body : JsVal) (w w' : World) :
  handleSignup_submit host w = Pending w' ->
  accepted_body host outcome = Some body ->
  let after := handleSignup host outcome w in
  let later := page (advance 2000 after) in
  message (page after)
    = mkMessage "Account created successfully! You can now sign in."
                "message success" "fas fa-check-circle" true
  /\ loginForm_active later = true
  /\ signupForm_active later = false
  /\ msg_shown (message later) = false
  /\ sel_disabled (department (signup later)) = true
  /\ sel_options (department (signup later)) = [placeholder]
  /\ signup_reset_from (signup (page w)) (signup later).
Proof.
  intros Hsub Hbody. cbn zeta. unfold handleSignup. rewrite Hsub.
  destruct (handleSignup_submit_pending_inv _ _ Hsub) as [_ Hw'].
  destruct (handleSignup_settle_success outcome body w' Hbody) as [Htimers Hmsg].
  pose proof (handleSignup_settle_clock outcome w') as Hclock.
  pose proof (handleSignup_settle_defaults outcome w') as Hdef.
  cbn zeta in *. split; [exact Hmsg|].
  rewrite advance_page, Hclock, Htimers, fire_enqueue_due. cbn [fst run_task].
  set (p' := (fire _ _ _).1).
  pose proof (fire_defaults (clock w' + 2000)
                (enqueue (clock w' + 5000) TaskHideMessage (timers w'))
                (page (handleSignup_settle host outcome w').1)) as Hfire.
  fold p' in Hfire.
  destruct (switchToLogin_result p') as (S1 & S2 & S3 & S4 & S5 & _).
  repeat (split; [assumption|]).
  apply switchToLogin_resets. rewrite Hfire, Hdef, Hw'. reflexivity.
Qed.

(** X13.  Every course change puts the department selection back on the
    placeholder, so a submission made right after it, before a department is
    picked again, stops at the first check. *)
Theorem course_change_clears_department (outcome : FetchOutcome) (w : World) :
  let changed := (handleCourseChange host w).1 in
  select_value (department (signup (page changed))) = ""
  /\ handleSignup host outcome changed
     = (showMessage "Please fill in all required fields" "error" changed).1.
Proof.
  cbn zeta.
  assert (Hsel : select_value (department (signup (page (handleCourseChange host w).1))) = "").
  { unfold handleCourseChange, mbind, M_bind, gets, update, setTimeout, throw.
    cbn beta iota.
    destruct (nonempty (selected_course (page w))); cbn; [|reflexivity].
    destruct (departmentData_read (selected_course (page w))) as [depts| |]; cbn;
      try reflexivity.
    rewrite append_options. reflexivity. }
  split; [exact Hsel|].
  unfold handleSignup, handleSignup_submit.
  assert (Hv : validateSignupData host (signupData (page (handleCourseChange host w).1))
                 (page (handleCourseChange host w).1)
               = invalid "Please fill in all required fields").
  { unfold validateSignupData. rewrite required_present_negb.
    unfold required_present, signupData. cbn [d_department].
    rewrite Hsel. cbn. now rewrite !andb_false_r. }
  rewrite Hv. reflexivity.
Qed.

End Signup.

Lemma signup_request_example :
  requests (page (handleSignup Fixture.host Sample.registered Fixture.ready))
  = [mkRequest "https://setu.fit/api/auth/register" "POST"
       [("Content-Type", "application/json")]
       (Some (JObj [("name", JStr "A. Kumar"); ("fatherName", JStr "R. Kumar");
                    ("course", JStr "UG"); ("department", JStr "PHYSICS");
                    ("regNo", JStr "CD5678"); ("passingYear", JStr "2000");
                    ("password", JStr "abc12345");
                    ("currentPosition", JStr ""); ("currentCompany", JStr "")]))].
Proof.
  destruct (signup_request_is_validated Fixture.host Sample.registered Fixture.ready
              (submit_world (handleSignup_submit Fixture.host Fixture.ready)) eq_refl)
    as [Hreq _].
  exact Hreq.
Defined.

Lemma signup_unreadable_cache_example :
  handleSignup Fixture.host Sample.registered Sample.corrupt_cache = Sample.corrupt_cache.
Proof.
  apply (signup_unreadable_cache Fixture.host Sample.registered Sample.corrupt_cache "oops"
           eq_refl eq_refl eq_refl).
  - discriminate.
  - intros items H. vm_compute in H. discriminate H.
Defined.

Lemma signup_success_example :
  let after := handleSignup Fixture.host Sample.registered Fixture.ready in
  msg_shown (message (page after)) = true
  /\ loginForm_active (page (advance 2000 after)) = true
  /\ msg_shown (message (page (advance 2000 after))) = false.
Proof.
  destruct (signup_success_switches_to_login Fixture.host Sample.registered
              (JObj [("success", JBool true)]) Fixture.ready
              (submit_world (handleSignup_submit Fixture.host Fixture.ready))
              eq_refl eq_refl) as (Hm & Hl & _ & Hs & _).
  cbn zeta in *. split; [now rewrite Hm | split; [exact Hl | exact Hs]].
Defined.

(** ** Logging out *)

(** X15.  [removetoken] ends the session whatever the store held: no token is
    left and [isUserLoggedIn] is false, also right after a login of any
    outcome.  Every other key of the store, the cached users among them, is
    left alone, and removing twice is removing once. *)
Theorem removetoken_logs_out (host : Host) (outcome : FetchOutcome) (w : World) (p : Page) :
  gettoken (removetoken p) = None
  /\ isUserLoggedIn (removetoken p) = false
  /\ isUserLoggedIn (removetoken (page (handleLogin host outcome w))) = false
  /\ (forall key, key <> "token" ->
        localStorage (removetoken p) !! key = localStorage p !! key)
  /\ getStoredUsers host (removetoken p) = getStoredUsers host p
  /\ removetoken (removetoken p) = removetoken p.
Proof.
  assert (Hgone : forall q, gettoken (removetoken q) = None).
  { intros q. unfold gettoken, removetoken. cbn. apply lookup_delete_eq. }
  assert (Hout : forall q, isUserLoggedIn (removetoken q) = false).
  { intros q. unfold isUserLoggedIn. now rewrite Hgone. }
  repeat split; auto.
  - intros key Hkey. unfold removetoken. cbn. now apply lookup_delete_ne.
  - unfold getStoredUsers, removetoken. cbn. now rewrite lookup_delete_ne.
  - unfold removetoken, set_localStorage. cbn. f_equal.
    apply delete_id, lookup_delete_eq.
Qed.

(** ** Switching forms, again *)

Lemma switch_to_frame (m : Switch) (p : Page) :
  localStorage (switch_to m p) = localStorage p
  /\ requests (switch_to m p) = requests p
  /\ location_href (switch_to m p) = location_href p.
Proof. destruct m; repeat split. Qed.

Lemma switch_all_frame (ms : list Switch) : forall p,
  localStorage (switch_all ms p) = localStorage p
  /\ requests (switch_all ms p) = requests p
  /\ location_href (switch_all ms p) = location_href p.
Proof.
  unfold switch_all.
  induction ms as [|m ms IH]; intros p; cbn [fold_left]; [repeat split|].
  destruct (IH (switch_to m p)) as (H1 & H2 & H3).
  destruct (switch_to_frame m p) as (F1 & F2 & F3).
  now rewrite H1, H2, H3, F1, F2, F3.
Qed.

(** X16.  After any run of switches exactly one form is active, the one asked for
    last, and no message is visible; the token store, the requests sent and
    the location are what they were before the run. *)
Theorem switch_all_last (ms : list Switch) (m : Switch) (p : Page) :
  let q := switch_all (ms ++ [m]) p in
  loginForm_active q = match m with ToLogin => true | ToSignup => false end
  /\ signupForm_active q = negb (loginForm_active q)
  /\ msg_shown (message q) = false
  /\ localStorage q = localStorage p
  /\ requests q = requests p
  /\ location_href q = location_href p.
Proof.
  cbn zeta.
  destruct (switch_all_frame (ms ++ [m]) p) as (H1 & H2 & H3).
  rewrite H1, H2, H3. unfold switch_all. rewrite fold_left_app. cbn [fold_left].
  destruct m; repeat split.
Qed.

(** X17.  A switch resets the form it leaves and only that one: what was typed
    into the form being shown survives.  Going to the other form and back
    leaves every text input of both forms at its default, and switching to
    the signup form twice is switching once. *)
Theorem switch_resets_the_form_left (p : Page) :
  login (switchToLogin p) = login p
  /\ signup (switchToSignup p) = signup p
  /\ fields_at_default (switchToLogin (switchToSignup p))
  /\ fields_at_default (switchToSignup (switchToLogin p))
  /\ switchToSignup (switchToSignup p) = switchToSignup p.
Proof.
  unfold fields_at_default. cbn.
  repeat split;
    try (destruct (currentPosition (signup p)); cbn; exact I || reflexivity);
    destruct (currentCompany (signup p)); cbn; exact I || reflexivity.
Qed.

(** ** Field feedback *)

Lemma tail_short {A : Type} (l : list A) : (length l <= 1)%nat -> tail l = [].
Proof. destruct l as [|a [|b l]]; cbn; intros H; try reflexivity. lia. Qed.

Lemma validateField_tidy (isValid : bool) (msg : string) (f : FieldWidget) :
  tidy f -> tidy (validateField isValid msg f).
Proof.
  intros [Hlen _]. unfold tidy, validateField. rewrite (tail_short _ Hlen).
  destruct (String.eqb _ ""); [|destruct isValid]; cbn; split; try lia.
  - intros [H _]. revert H. apply unmarked. now left.
  - intros [H _]. revert H. apply not_marked_error.
  - intros [_ H]. revert H. apply not_marked_success.
Qed.

(** X18.  Starting from a wrapper with at most one error message, any run of
    feedback calls leaves at most one error message under the wrapper and
    never both the error and the success mark on it. *)
Theorem feedback_keeps_tidy (calls : list (bool * string)) (f : FieldWidget) :
  tidy f -> tidy (feedback_all calls f).
Proof.
  unfold feedback_all. revert f.
  induction calls as [|[v msg] calls IH]; intros f Hf; cbn [fold_left]; [exact Hf|].
  apply IH, validateField_tidy, Hf.
Qed.

Lemma feedback_keeps_tidy_witness :
  tidy (feedback_all [(false, "Invalid registration number format");
                      (false, "Invalid registration number format"); (true, "")]
                     (Sample.untouched_widget "AB12")).
Proof.
  apply feedback_keeps_tidy. split; [cbn; lia|].
  intros [H _]. cbn in H. now apply not_elem_of_empty in H.
Defined.

(** The precondition is needed: only the first error message found is
    removed, so a wrapper that came with two keeps two. *)
Example feedback_removes_one_message :
  let two := mkWidget "AB12" "" ∅
               [mkErrorDiv "a" "" "" ""; mkErrorDiv "b" "" "" ""] in
  length (w_errors (validateField false "Invalid registration number format" two)) = 2%nat.
Proof. reflexivity. Qed.

(** The verdict on a field that is not blank: a valid value gets the success
    mark and a green border and no new message, an invalid one the error
    mark, a red border and the message as the last one under the wrapper. *)
Theorem validateField_verdict (isValid : bool) (msg : string) (f : FieldWidget) :
  Js.trim (w_value f) <> "" ->
  let g := validateField isValid msg f in
  ("success" ∈ w_classes g <-> isValid = true)
  /\ ("error" ∈ w_classes g <-> isValid = false)
  /\ w_borderColor g = (if isValid then "#48bb78" else "#f56565")
  /\ w_errors g
     = tail (w_errors f)
       ++ (if isValid then [] else [mkErrorDiv msg "#f56565" "0.8rem" "5px"]).
Proof.
  intros Hne. cbn zeta. unfold validateField.
  destruct (String.eqb_spec (Js.trim (w_value f)) ""); [contradiction|].
  destruct isValid; cbn; repeat split; try done.
  - intros _. apply marked_success.
  - intros H. now apply not_marked_error in H.
  - now rewrite app_nil_r.
  - intros H. now apply not_marked_success in H.
  - intros _. apply marked_error.
Qed.

Lemma validateField_verdict_witness :
  let g := blur_registrationNumber (Sample.untouched_widget "AB12") in
  "error" ∈ w_classes g /\ w_borderColor g = "#f56565".
Proof.
  destruct (validateField_verdict (validateRegistrationNumber "AB12")
              "Invalid registration number format" (Sample.untouched_widget "AB12"))
    as (_ & He & Hb & _); [discriminate|].
  cbn zeta. split; [now apply He | exact Hb].
Defined.

Lemma validateField_on_blank (isValid : bool) (msg : string) (f : FieldWidget) :
  Js.trim (w_value f) = "" ->
  validateField isValid msg f
  = mkWidget (w_value f) (w_borderColor f)
             (w_classes f ∖ {["error"; "success"]}) (tail (w_errors f)).
Proof. intros H. unfold validateField. now rewrite H. Qed.

Lemma validateField_invalid (msg : string) (f : FieldWidget) :
  Js.trim (w_value f) <> "" ->
  validateField false msg f
  = mkWidget (w_value f) "#f56565"
             (w_classes f ∖ {["error"; "success"]} ∪ {["error"]})
             (tail (w_errors f) ++ [mkErrorDiv msg "#f56565" "0.8rem" "5px"]).
Proof.
  intros H. unfold validateField.
  destruct (String.eqb_spec (Js.trim (w_value f)) ""); [contradiction | reflexivity].
Qed.

(** X19.  A blank field is given no verdict: both marks are removed and no
    message is added, but the border keeps the colour of the last verdict.
    So a field marked invalid and then emptied shows no mark and no message
    and still has its red border. *)
Theorem validateField_blank
    (isValid isValid' : bool) (msg msg' blank : string) (f : FieldWidget) :
  Js.all_chars Js.is_space blank = true ->
  Js.trim (w_value f) <> "" ->
  (length (w_errors f) <= 1)%nat ->
  let marked := validateField false msg f in
  let emptied := mkWidget blank (w_borderColor marked) (w_classes marked) (w_errors marked) in
  let g := validateField isValid' msg' emptied in
  ("error" ∉ w_classes g) /\ ("success" ∉ w_classes g)
  /\ w_errors g = []
  /\ w_borderColor g = "#f56565"
  /\ w_borderColor (validateField isValid msg' (mkWidget blank (w_borderColor f)
                                                   (w_classes f) (w_errors f)))
     = w_borderColor f.
Proof.
  intros Hblank Hne Hlen. cbn zeta.
  rewrite !validateField_on_blank by (cbn [w_value]; now apply trim_blanks).
  rewrite (validateField_invalid _ _ Hne). cbn [w_classes w_errors w_borderColor].
  rewrite (tail_short _ Hlen). cbn [app tail]. repeat split.
  - apply unmarked. now left.
  - apply unmarked. now right.
  - rewrite validateField_on_blank by (cbn [w_value]; now apply trim_blanks).
    reflexivity.
Qed.

Lemma validateField_blank_witness :
  let marked := blur_registrationNumber (Sample.untouched_widget "AB12") in
  let g := blur_registrationNumber
             (mkWidget "" (w_borderColor marked) (w_classes marked) (w_errors marked)) in
  w_errors g = [] /\ w_borderColor g = "#f56565".
Proof.
  destruct (validateField_blank true (validateRegistrationNumber "")
              "Invalid registration number format"
              "Invalid registration number format" ""
              (Sample.untouched_widget "AB12") eq_refl)
    as (_ & _ & He & Hb & _); [discriminate | cbn; lia |].
  cbn zeta. split; [exact He | exact Hb].
Defined.

(** ** Password toggle *)

(** X20.  After a toggle the input type and the icon agree: a text input shows
    the slashed eye only, a password input the plain eye only, whatever the
    state before.  From a state in which they agree, toggling twice restores
    the input and the icon exactly. *)
Theorem togglePassword_agrees (i : PasswordInput) :
  let j := togglePassword i in
  ((pw_type j = "text" /\ "fa-eye-slash" ∈ pw_icon j /\ "fa-eye" ∉ pw_icon j)
   \/ (pw_type j = "password" /\ "fa-eye" ∈ pw_icon j /\ "fa-eye-slash" ∉ pw_icon j))
  /\ ((pw_type i = "password" /\ "fa-eye" ∈ pw_icon i /\ "fa-eye-slash" ∉ pw_icon i)
      \/ (pw_type i = "text" /\ "fa-eye-slash" ∈ pw_icon i /\ "fa-eye" ∉ pw_icon i) ->
      togglePassword (togglePassword i) = i).
Proof.
  cbn zeta. split.
  - unfold togglePassword. destruct (String.eqb (pw_type i) "password"); cbn.
    + left. repeat split.
      * apply elem_of_union_r, elem_of_singleton. reflexivity.
      * intros H. apply elem_of_union in H as [H|H].
        -- apply elem_of_difference in H as [_ H]. apply H, elem_of_singleton. reflexivity.
        -- apply elem_of_singleton in H. discriminate H.
    + right. repeat split.
      * apply elem_of_union_r, elem_of_singleton. reflexivity.
      * intros H. apply elem_of_union in H as [H|H].
        -- apply elem_of_difference in H as [_ H]. apply H, elem_of_singleton. reflexivity.
        -- apply elem_of_singleton in H. discriminate H.
  - assert (Hswap : forall (a b : string) (S : gset string),
               a ∈ S -> b ∉ S -> (S ∖ {[a]} ∪ {[b]}) ∖ {[b]} ∪ {[a]} = S).
    { intros a b S Ha Hb. apply set_eq. intros x.
      rewrite !elem_of_union, !elem_of_difference, !elem_of_union,
        !elem_of_difference, !elem_of_singleton.
      destruct (decide (x = a)), (decide (x = b)); subst; intuition congruence. }
    destruct i as [ty icon]. cbn.
    intros [(-> & Hin & Hout) | (-> & Hin & Hout)]; unfold togglePassword; cbn.
    + f_equal. now apply Hswap.
    + f_equal. now apply Hswap.
Qed.

Lemma togglePassword_witness :
  togglePassword (togglePassword Sample.masked) = Sample.masked.
Proof.
  apply (proj2 (togglePassword_agrees Sample.masked)). left.
  split; [reflexivity|]. split.
  - apply elem_of_union_r, elem_of_singleton. reflexivity.
  - intros H. apply elem_of_union in H as [H|H]; apply elem_of_singleton in H; discriminate H.
Defined.

(** ** The factorial program *)

Section Factorial.

Local Ltac numerals :=
  unfold Fact.wrap, Fact.max_int in *;
  change (2 ^ 31) with 2147483648 in *; change (2 ^ 32) with 4294967296 in *.

Lemma wrap_range (z : Z) : - 2 ^ 31 <= Fact.wrap z < 2 ^ 31.
Proof.
  numerals. pose proof (Z.mod_pos_bound (z + 2147483648) 4294967296). lia.
Qed.

Lemma wrap_small (z : Z) : - 2 ^ 31 <= z < 2 ^ 31 -> Fact.wrap z = z.
Proof. numerals. intros H. rewrite Z.mod_small by lia. lia. Qed.

Lemma loop_more_fuel (fuel : nat) : forall i result n r,
  Fact.loop fuel i result n = Some r ->
  forall extra, Fact.loop (fuel + extra) i result n = Some r.
Proof.
  induction fuel as [|fuel IH]; intros i result n r H extra; [discriminate|].
  cbn in *. destruct (i <=? n); [now apply IH | exact H].
Qed.

(** Below the largest [int] the loop ends, within the turns that remain up
    to [n], and what it returns is an [int]. *)
Lemma loop_terminates (k : nat) : forall i result n,
  n < Fact.max_int -> - 2 ^ 31 <= i <= n + 1 -> Z.to_nat (n + 1 - i) = k ->
  - 2 ^ 31 <= result < 2 ^ 31 ->
  exists r, Fact.loop (S k) i result n = Some r /\ - 2 ^ 31 <= r < 2 ^ 31.
Proof.
  induction k as [|k IH]; intros i result n Hn Hi Hk Hr; cbn [Fact.loop].
  - replace (i <=? n) with false by (symmetry; apply Z.leb_gt; lia). eauto.
  - replace (i <=? n) with true by (symmetry; apply Z.leb_le; lia).
    assert (Hw : Fact.wrap (i + 1) = i + 1).
    { apply wrap_small. numerals. lia. }
    rewrite Hw. apply IH; try lia. apply wrap_range.
Qed.

(** With the result at zero the loop returns zero. *)
Lemma loop_zero (fuel : nat) : forall i n r,
  Fact.loop fuel i 0 n = Some r -> r = 0.
Proof.
  induction fuel as [|fuel IH]; intros i n r; cbn; [discriminate|].
  destruct (i <=? n).
  - change (0 * i) with 0. change (Fact.wrap 0) with 0. apply IH.
  - now intros [= <-].
Qed.

(** The state after [k] turns of the loop. *)
Lemma loop_unroll (k : nat) : forall fuel i result n,
  - 2 ^ 31 <= i -> i + Z.of_nat k <= n + 1 -> n < Fact.max_int ->
  exists result',
    Fact.loop (k + fuel) i result n = Fact.loop fuel (i + Z.of_nat k) result' n
    /\ (result = 0 -> result' = 0)
    /\ result' = (Nat.iter k Fact.turn (i, result)).2.
Proof.
  induction k as [|k IH]; intros fuel i result n Hi Hk Hn.
  - exists result. cbn. rewrite Z.add_0_r. auto.
  - cbn [Nat.add Fact.loop].
    replace (i <=? n) with true by (symmetry; apply Z.leb_le; lia).
    assert (Hw : Fact.wrap (i + 1) = i + 1).
    { apply wrap_small. numerals. lia. }
    rewrite Hw.
    destruct (IH fuel (i + 1) (Fact.wrap (result * i)) n) as (r' & Hl & Hz & Hiter);
      try lia.
    exists r'. split; [|split].
    + rewrite Hl. f_equal. lia.
    + intros ->. apply Hz. reflexivity.
    + rewrite Hiter, <- Hw, Nat.iter_succ_r. reflexivity.
Qed.

Lemma fact_grows (m : nat) : (13 <= m)%nat -> 6227020800 <= fact m.
Proof.
  induction m as [|m IH]; [lia|]. intros H.
  destruct (Nat.eq_dec m 12%nat) as [->|Hm]; [vm_compute; discriminate|].
  assert (Hm' : 6227020800 <= fact m) by (apply IH; lia).
  cbn [fact]. nia.
Qed.

(** X21.  Up to 12 the program computes the factorial: given more turns than [n],
    [factorial(n)] returns n!, and [main] prints it. *)
Theorem factorial_exact (n : Z) (fuel : nat) :
  0 <= n <= 12 -> (Z.to_nat n < fuel)%nat ->
  Fact.factorial fuel n = Some (fact (Z.to_nat n))
  /\ Fact.main fuel n
     = Some ("Factorial of " +:+ Js.Z_to_string n +:+ " is "
             +:+ Js.Z_to_string (fact (Z.to_nat n))).
Proof.
  intros Hn Hfuel.
  assert (Hbase : Fact.factorial (S (Z.to_nat n)) n = Some (fact (Z.to_nat n))).
  { assert (Hk : (Z.to_nat n <= 12)%nat) by lia.
    rewrite <- (Z2Nat.id n) at 2 by lia.
    destruct (Z.to_nat n) as [|k]; [reflexivity|].
    do 12 (destruct k as [|k]; [reflexivity|]). lia. }
  assert (Hf : Fact.factorial fuel n = Some (fact (Z.to_nat n))).
  { replace fuel with (S (Z.to_nat n) + (fuel - S (Z.to_nat n)))%nat by lia.
    now apply loop_more_fuel. }
  split; [exact Hf|]. unfold Fact.main. rewrite Hf.
  now replace (n <? 0) with false by (symmetry; apply Z.ltb_ge; lia).
Qed.

Lemma factorial_exact_witness :
  Fact.factorial 20 10 = Some 3628800
  /\ Fact.main 20 10 = Some "Factorial of 10 is 3628800".
Proof. apply (factorial_exact 10 20); [lia | cbn; lia]. Defined.

(** X22.  From 13 on, below the largest [int], the program still returns, but not
    the factorial: the product has left the range of [int].  From 34 on it
    returns 0. *)
Theorem factorial_overflows (n : Z) :
  13 <= n < Fact.max_int ->
  exists r,
    Fact.factorial (S (Z.to_nat n)) n = Some r
    /\ - 2 ^ 31 <= r < 2 ^ 31
    /\ r <> fact (Z.to_nat n)
    /\ (34 <= n -> r = 0).
Proof.
  intros Hn.
  destruct (loop_terminates (Z.to_nat n) 1 1 n) as (r & Hr & Hrange);
    try (numerals; lia).
  exists r. split; [exact Hr|]. split; [exact Hrange|]. split.
  - pose proof (fact_grows (Z.to_nat n)) as Hg. numerals. lia.
  - intros H34.
    destruct (loop_unroll 34 (S (Z.to_nat n) - 34) 1 1 n) as (r' & Hl & _ & Hiter);
      try (numerals; lia).
    replace (34 + (S (Z.to_nat n) - 34))%nat with (S (Z.to_nat n)) in Hl by lia.
    unfold Fact.factorial in Hr. rewrite Hl in Hr.
    assert (Hz : r' = 0) by (rewrite Hiter; vm_compute; reflexivity).
    rewrite Hz in Hr. now apply loop_zero in Hr.
Qed.

Lemma factorial_overflows_witness :
  exists r, Fact.factorial 14 13 = Some r /\ r <> 6227020800.
Proof.
  destruct (factorial_overflows 13) as (r & Hr & _ & Hne & _).
  - unfold Fact.max_int. change (2 ^ 31) with 2147483648. lia.
  - exists r. split; [exact Hr | exact Hne].
Defined.

Example factorial_13 : Fact.factorial 14 13 = Some 1932053504.
Proof. reflexivity. Qed.

Lemma loop_at_max_int (fuel : nat) : forall i result,
  i <= Fact.max_int -> Fact.loop fuel i result Fact.max_int = None.
Proof.
  induction fuel as [|fuel IH]; intros i result Hi; cbn; [reflexivity|].
  replace (i <=? Fact.max_int) with true by (symmetry; now apply Z.leb_le).
  apply IH. pose proof (wrap_range (i + 1)). numerals. lia.
Qed.

(** X23.  For the largest [int] the loop never ends: the counter wraps around
    before it can exceed [n], so no number of turns yields a result. *)
Theorem factorial_diverges_at_max_int (fuel : nat) :
  Fact.factorial fuel Fact.max_int = None /\ Fact.main fuel Fact.max_int = None.
Proof.
  assert (H : Fact.factorial fuel Fact.max_int = None).
  { apply loop_at_max_int. numerals. lia. }
  split; [exact H|]. unfold Fact.main. rewrite H. reflexivity.
Qed.

End Factorial.

(** ** Signup and course change, continued *)

Section SignupFailure.

Variable host : Host.

Local Ltac run :=
  unfold handleLogin_settle, handleSignup_settle, makeApiCall_settle, on_failure,
    showMessage, showLoadingState;
  unfold try_catch, mbind, M_bind, lift, mret, M_ret, throw, update, setTimeout, gets;
  cbn beta iota.

Local Ltac branch :=
  match goal with
  | |- context [match ?x with _ => _ end] =>
      lazymatch x with
      | context [match _ with _ => _ end] => fail
      | _ => destruct x eqn:?
      end
  end.

Local Ltac cases := repeat (branch; cbn -[loading_state]).

Lemma handleSignup_settle_inputs (outcome : FetchOutcome) (w : World) :
  signup_inputs (signup (page (handleSignup_settle host outcome w).1))
  = signup_inputs (signup (page w)).
Proof. run. cases; reflexivity. Qed.

Lemma handleSignup_settle_failure (outcome : FetchOutcome) (w : World) :
  accepted_body host outcome = None ->
  let after := (handleSignup_settle host outcome w).1 in
  timers after = enqueue (clock w + 5000) TaskHideMessage (timers w)
  /\ msg_shown (message (page after)) = true
  /\ msg_class (message (page after)) = "message error".
Proof.
  unfold accepted_body. destruct outcome as [e|r].
  { intros _. run. cases; repeat split. }
  destruct (resp_json r) as [body|e] eqn:Hj.
  2:{ intros _. run. rewrite Hj. cases; repeat split. }
  destruct (response_ok r) eqn:Hok.
  2:{ intros _. run. rewrite Hj, Hok. cbn. cases; repeat split. }
  destruct (get host body "success") as [s|e] eqn:Hs.
  2:{ intros _. run. rewrite Hj, Hok. cbn. rewrite Hs. cases; repeat split. }
  cbn [andb]. destruct (truthy s) eqn:Ht; [discriminate|].
  intros _. run. rewrite Hj, Hok. cbn. rewrite Hs, Ht. cases; repeat split.
Qed.

(** X12.  A registration that is sent and does not succeed shows an error message
    and schedules nothing but the hiding of it, so the form is not switched;
    everything the user entered is still in the form.  When the server
    answered with a falsy [success], the text is the message of the server
    as a string, or Signup failed if it sent none; a message that has no
    string form is replaced by the text of the engine's TypeError. *)
Theorem signup_failure_outcome (outcome : FetchOutcome) (w w' : World) :
  handleSignup_submit host w = Pending w' ->
  accepted_body host outcome = None ->
  let after := handleSignup host outcome w in
  timers after = enqueue (clock w + 5000) TaskHideMessage (timers w)
  /\ msg_shown (message (page after)) = true
  /\ msg_class (message (page after)) = "message error"
  /\ signup_inputs (signup (page after)) = signup_inputs (signup (page w))
  /\ signupForm_active (page after) = signupForm_active (page w)
  /\ (forall r body success m,
        outcome = FetchResponded r -> response_ok r = true ->
        resp_json r = Ok body -> get host body "success" = Ok success ->
        get host body "message" = Ok m ->
        msg_text (message (page after))
        = match ToString (or_else m (JStr "Signup failed")) with
          | Some text => text
          | None => failure_text "Signup failed. Please try again."
                      (type_error host NotPrimitive)
          end).
Proof.
  intros Hsub Hbody. cbn zeta. unfold handleSignup. rewrite Hsub.
  destruct (handleSignup_submit_pending_inv _ _ _ Hsub) as [_ ->].
  set (w0 := mkWorld _ (clock w) (timers w)).
  destruct (handleSignup_settle_failure outcome w0 Hbody) as (Htimers & Hshown & Hclass).
  pose proof (handleSignup_settle_inputs outcome w0) as Hin.
  cbn zeta in *.
  split; [exact Htimers|]. split; [exact Hshown|]. split; [exact Hclass|].
  split; [exact Hin|]. split.
  - run. cases; reflexivity.
  - intros r b s m -> Hok Hj Hs Hm. unfold accepted_body in Hbody.
    rewrite Hj, Hs, Hok in Hbody. cbn in Hbody.
    destruct (truthy s) eqn:Ht; [discriminate|]. unfold failure_text.
    run. rewrite Hj, Hok. cbn. rewrite Hs, Ht, Hm. unfold to_text.
    destruct (ToString (or_else m (JStr "Signup failed"))); cbn; cases; reflexivity.
Qed.

(** X14.  For a course of the catalog the dropdown ends enabled, holding the
    placeholder and then the departments of that course in catalog order,
    whatever it held before, with the placeholder selected; it is shown
    half transparent and is fully opaque 150 milliseconds later. *)
Theorem course_change_known_course (w : World) (depts : list string) :
  departmentData !! selected_course (page w) = Some depts ->
  let changed := (handleCourseChange host w).1 in
  department (signup (page changed))
    = mkSelect (placeholder :: department_options depts) 0 false "0.5"
  /\ (handleCourseChange host w).2 = Ok tt
  /\ sel_opacity (department (signup (page (advance 150 changed)))) = "1"
  /\ (selected_course (page w) = "UG" \/ selected_course (page w) = "PG").
Proof.
  intros Hd. cbn zeta.
  destruct (handleCourseChange_known host w depts Hd) as [Hdept Hok].
  split; [exact Hdept|]. split; [exact Hok|]. split.
  - assert (Hr : departmentData_read (selected_course (page w)) = OwnList depts)
      by (unfold departmentData_read; now rewrite Hd).
    assert (Hn : nonempty (selected_course (page w)) = true).
    { apply nonempty_true. intros He. rewrite He in Hd. discriminate Hd. }
    assert (Ht : timers (handleCourseChange host w).1
                 = enqueue (clock w + 150) TaskOpacityOne (timers w)
                 /\ clock (handleCourseChange host w).1 = clock w).
    { unfold handleCourseChange, mbind, M_bind, gets, update, setTimeout, throw.
      cbn beta iota. rewrite Hr, Hn. split; reflexivity. }
    destruct Ht as [Ht Hc].
    rewrite advance_page, Hc, Ht, fire_enqueue_due. reflexivity.
  - unfold departmentData in Hd.
    destruct (decide (selected_course (page w) = "UG")) as [|Hug]; [now left|].
    destruct (decide (selected_course (page w) = "PG")) as [|Hpg]; [now right|].
    rewrite lookup_insert_ne, lookup_insert_ne, lookup_empty in Hd by congruence.
    discriminate Hd.
Qed.

End SignupFailure.

Lemma signup_failure_example :
  let after := handleSignup Fixture.host Sample.refused Fixture.ready in
  msg_text (message (page after)) = "Wrong password"
  /\ signup_inputs (signup (page after)) = signup_inputs (signup (page Fixture.ready))
  /\ timers after = [(5000, TaskHideMessage)].
Proof.
  destruct (signup_failure_outcome Fixture.host Sample.refused Fixture.ready
              (submit_world (handleSignup_submit Fixture.host Fixture.ready))
              eq_refl eq_refl) as (Ht & _ & _ & Hin & _ & Hm).
  cbn zeta in *. split; [|split; [exact Hin | exact Ht]].
  apply (Hm (mkResponse 200 (Ok (JObj [("success", JBool false);
                                       ("message", JStr "Wrong password")])))
            (JObj [("success", JBool false); ("message", JStr "Wrong password")])
            (JBool false) (JStr "Wrong password")); reflexivity.
Defined.

Lemma course_change_example :
  let changed := (handleCourseChange Fixture.host (Fixture.offering "PG")).1 in
  map opt_value (sel_options (department (signup (page changed))))
  = [""; "ECONOMICS"; "GEOGRAPHY"; "HINDI"; "HISTORY"; "POLITICAL SCIENCE";
     "PHYSICS"; "CHEMISTRY"]
  /\ sel_opacity (department (signup (page (advance 150 changed)))) = "1".
Proof.
  destruct (course_change_known_course Fixture.host (Fixture.offering "PG")
              ["ECONOMICS"; "GEOGRAPHY"; "HINDI"; "HISTORY"; "POLITICAL SCIENCE";
               "PHYSICS"; "CHEMISTRY"] eq_refl) as (Hd & _ & Ho & _).
  cbn zeta in *. split; [now rewrite Hd | exact Ho].
Defined.
